(** * Text-to-speech studio: client orchestration and proxy routes

    A shallow embedding of the React component [TTSApp] (state hooks, refs,
    the module-level audio singletons and its event handlers) and of the two
    [POST] handlers of the text-to-speech proxy route, followed by the
    properties established about them.

    Conventions.
    - A JavaScript string is the list of its UTF-16 code units.
    - A JavaScript [number] that is only stored, compared and forwarded is a
      rational; [None] stands for [undefined], which is what an out-of-range
      array read produces.
    - A [useState] hook is a field of [State]; a handler is a function of the
      render it was created in (the values its closure captured) that acts on
      the live [World] (hook state, refs, audio graph, timers, clock) and
      yields its effects in the order they happen.
    - An awaited browser or network result is an argument of the handler,
      and a handler runs to its end in one piece: what else the event loop
      does while it is suspended is not interleaved. *)

From Stdlib Require Import List String Ascii Bool Arith NArith QArith Lia.
From Stdlib Require Import Strings.Byte.
From Stdlib Require DecimalString.
Import ListNotations.

#[local] Open Scope N_scope.
#[local] Open Scope list_scope.

(** ** JavaScript strings *)

Definition jsstring : Type := list N.

(** A string literal of the source (ASCII only). *)
Definition lit (s : string) : jsstring :=
  map N_of_ascii (list_ascii_of_string s).

Fixpoint str_eqb (a b : jsstring) : bool :=
  match a, b with
  | [], [] => true
  | x :: a', y :: b' => N.eqb x y && str_eqb a' b'
  | _, _ => false
  end.

(** Truthiness of a string: only the empty string is falsy. *)
Definition truthy (s : jsstring) : bool :=
  match s with
  | [] => false
  | _ :: _ => true
  end.

(** [a || b] on strings. *)
Definition str_or (a b : jsstring) : jsstring :=
  if truthy a then a else b.

(** ECMAScript [WhiteSpace] and [LineTerminator] code units, the ones
    [String.prototype.trim] strips. *)
Definition is_white_space (c : N) : bool :=
  existsb (N.eqb c)
    [9; 10; 11; 12; 13; 32; 160; 5760; 8232; 8233; 8239; 8287; 12288; 65279]
  || ((8192 <=? c) && (c <=? 8202)).

Fixpoint drop_while (p : N -> bool) (s : jsstring) : jsstring :=
  match s with
  | [] => []
  | c :: s' => if p c then drop_while p s' else s
  end.

Definition trim (s : jsstring) : jsstring :=
  rev (drop_while is_white_space (rev (drop_while is_white_space s))).

(** [!s.trim()] *)
Definition is_blank (s : jsstring) : bool := negb (truthy (trim s)).

(** [n.toString()] for a non-negative integer. *)
Definition toString (n : N) : jsstring :=
  lit (DecimalString.NilEmpty.string_of_uint (N.to_uint n)).

(** ** Numbers and arrays of numbers *)

Definition number : Type := option Q.

Definition num (q : Q) : number := Some q.

(** [a[0]] *)
Definition idx0 (a : list number) : number :=
  match a with
  | [] => None
  | x :: _ => x
  end.

(** ** Interfaces of the component *)

Definition bytes : Type := list byte.

Record Blob : Type := mkBlob {
  blob_data : bytes;
  blob_type : string
}.

Record File : Type := mkFile {
  file_name : jsstring;
  file_type : string;
  file_data : bytes
}.

Record Voice : Type := mkVoice {
  voice_id : jsstring;
  voice_name : jsstring;
  voice_category : jsstring
}.

Record AudioHistory : Type := mkAudioHistory {
  h_id : jsstring;
  h_text : jsstring;
  h_voiceId : jsstring;
  h_voiceName : jsstring;
  h_timestamp : N;
  h_duration : N
}.

Record Settings : Type := mkSettings {
  s_stability : number;
  s_similarity : number;
  s_style : number;
  use_speaker_boost : bool
}.

Record VoicePreset : Type := mkVoicePreset {
  p_id : jsstring;
  p_name : jsstring;
  p_voiceId : jsstring;
  settings : Settings
}.

Record SavedAudio : Type := mkSavedAudio {
  blob : Blob;
  a_text : jsstring;
  a_voiceId : jsstring;
  a_timestamp : N
}.

(** ** Hook state of [TTSApp] *)

Record State : Type := mkState {
  text : jsstring;
  isLoading : bool;
  voices : list Voice;
  selectedVoice : jsstring;
  recordedAudio : option Blob;
  audioURL : option jsstring;
  recordingDuration : N;
  isPlaying : bool;
  isPresetDialogOpen : bool;
  isVoiceDialogOpen : bool;
  presetName : jsstring;
  volume : list number;
  isMuted : bool;
  previousVolume : list number;
  stability : list number;
  similarity : list number;
  style : list number;
  speakerBoost : bool;
  audioHistory : list AudioHistory;
  presets : list VoicePreset;
  selectedPreset : option jsstring;
  savedAudio : option SavedAudio;
  isCloning : bool;
  selectedFile : option File;
  voiceName : jsstring;
  uploadProgress : N;
  estimatedDuration : N
}.

Definition upd_isLoading (v : bool) (s : State) : State :=
  mkState (text s) v (voices s) (selectedVoice s) (recordedAudio s)
    (audioURL s) (recordingDuration s) (isPlaying s) (isPresetDialogOpen s)
    (isVoiceDialogOpen s) (presetName s) (volume s) (isMuted s)
    (previousVolume s) (stability s) (similarity s) (style s) (speakerBoost
    s) (audioHistory s) (presets s) (selectedPreset s) (savedAudio s)
    (isCloning s) (selectedFile s) (voiceName s) (uploadProgress s)
    (estimatedDuration s).

Definition upd_voices (v : list Voice) (s : State) : State :=
  mkState (text s) (isLoading s) v (selectedVoice s) (recordedAudio s)
    (audioURL s) (recordingDuration s) (isPlaying s) (isPresetDialogOpen s)
    (isVoiceDialogOpen s) (presetName s) (volume s) (isMuted s)
    (previousVolume s) (stability s) (similarity s) (style s) (speakerBoost
    s) (audioHistory s) (presets s) (selectedPreset s) (savedAudio s)
    (isCloning s) (selectedFile s) (voiceName s) (uploadProgress s)
    (estimatedDuration s).

Definition upd_selectedVoice (v : jsstring) (s : State) : State :=
  mkState (text s) (isLoading s) (voices s) v (recordedAudio s) (audioURL s)
    (recordingDuration s) (isPlaying s) (isPresetDialogOpen s)
    (isVoiceDialogOpen s) (presetName s) (volume s) (isMuted s)
    (previousVolume s) (stability s) (similarity s) (style s) (speakerBoost
    s) (audioHistory s) (presets s) (selectedPreset s) (savedAudio s)
    (isCloning s) (selectedFile s) (voiceName s) (uploadProgress s)
    (estimatedDuration s).

Definition upd_recordedAudio (v : option Blob) (s : State) : State :=
  mkState (text s) (isLoading s) (voices s) (selectedVoice s) v (audioURL s)
    (recordingDuration s) (isPlaying s) (isPresetDialogOpen s)
    (isVoiceDialogOpen s) (presetName s) (volume s) (isMuted s)
    (previousVolume s) (stability s) (similarity s) (style s) (speakerBoost
    s) (audioHistory s) (presets s) (selectedPreset s) (savedAudio s)
    (isCloning s) (selectedFile s) (voiceName s) (uploadProgress s)
    (estimatedDuration s).

Definition upd_audioURL (v : option jsstring) (s : State) : State :=
  mkState (text s) (isLoading s) (voices s) (selectedVoice s) (recordedAudio
    s) v (recordingDuration s) (isPlaying s) (isPresetDialogOpen s)
    (isVoiceDialogOpen s) (presetName s) (volume s) (isMuted s)
    (previousVolume s) (stability s) (similarity s) (style s) (speakerBoost
    s) (audioHistory s) (presets s) (selectedPreset s) (savedAudio s)
    (isCloning s) (selectedFile s) (voiceName s) (uploadProgress s)
    (estimatedDuration s).

Definition upd_recordingDuration (v : N) (s : State) : State :=
  mkState (text s) (isLoading s) (voices s) (selectedVoice s) (recordedAudio
    s) (audioURL s) v (isPlaying s) (isPresetDialogOpen s)
    (isVoiceDialogOpen s) (presetName s) (volume s) (isMuted s)
    (previousVolume s) (stability s) (similarity s) (style s) (speakerBoost
    s) (audioHistory s) (presets s) (selectedPreset s) (savedAudio s)
    (isCloning s) (selectedFile s) (voiceName s) (uploadProgress s)
    (estimatedDuration s).

Definition upd_isPlaying (v : bool) (s : State) : State :=
  mkState (text s) (isLoading s) (voices s) (selectedVoice s) (recordedAudio
    s) (audioURL s) (recordingDuration s) v (isPresetDialogOpen s)
    (isVoiceDialogOpen s) (presetName s) (volume s) (isMuted s)
    (previousVolume s) (stability s) (similarity s) (style s) (speakerBoost
    s) (audioHistory s) (presets s) (selectedPreset s) (savedAudio s)
    (isCloning s) (selectedFile s) (voiceName s) (uploadProgress s)
    (estimatedDuration s).

Definition upd_isPresetDialogOpen (v : bool) (s : State) : State :=
  mkState (text s) (isLoading s) (voices s) (selectedVoice s) (recordedAudio
    s) (audioURL s) (recordingDuration s) (isPlaying s) v (isVoiceDialogOpen
    s) (presetName s) (volume s) (isMuted s) (previousVolume s) (stability
    s) (similarity s) (style s) (speakerBoost s) (audioHistory s) (presets
    s) (selectedPreset s) (savedAudio s) (isCloning s) (selectedFile s)
    (voiceName s) (uploadProgress s) (estimatedDuration s).

Definition upd_isVoiceDialogOpen (v : bool) (s : State) : State :=
  mkState (text s) (isLoading s) (voices s) (selectedVoice s) (recordedAudio
    s) (audioURL s) (recordingDuration s) (isPlaying s) (isPresetDialogOpen
    s) v (presetName s) (volume s) (isMuted s) (previousVolume s) (stability
    s) (similarity s) (style s) (speakerBoost s) (audioHistory s) (presets
    s) (selectedPreset s) (savedAudio s) (isCloning s) (selectedFile s)
    (voiceName s) (uploadProgress s) (estimatedDuration s).

Definition upd_presetName (v : jsstring) (s : State) : State :=
  mkState (text s) (isLoading s) (voices s) (selectedVoice s) (recordedAudio
    s) (audioURL s) (recordingDuration s) (isPlaying s) (isPresetDialogOpen
    s) (isVoiceDialogOpen s) v (volume s) (isMuted s) (previousVolume s)
    (stability s) (similarity s) (style s) (speakerBoost s) (audioHistory s)
    (presets s) (selectedPreset s) (savedAudio s) (isCloning s)
    (selectedFile s) (voiceName s) (uploadProgress s) (estimatedDuration s).

Definition upd_volume (v : list number) (s : State) : State :=
  mkState (text s) (isLoading s) (voices s) (selectedVoice s) (recordedAudio
    s) (audioURL s) (recordingDuration s) (isPlaying s) (isPresetDialogOpen
    s) (isVoiceDialogOpen s) (presetName s) v (isMuted s) (previousVolume s)
    (stability s) (similarity s) (style s) (speakerBoost s) (audioHistory s)
    (presets s) (selectedPreset s) (savedAudio s) (isCloning s)
    (selectedFile s) (voiceName s) (uploadProgress s) (estimatedDuration s).

Definition upd_isMuted (v : bool) (s : State) : State :=
  mkState (text s) (isLoading s) (voices s) (selectedVoice s) (recordedAudio
    s) (audioURL s) (recordingDuration s) (isPlaying s) (isPresetDialogOpen
    s) (isVoiceDialogOpen s) (presetName s) (volume s) v (previousVolume s)
    (stability s) (similarity s) (style s) (speakerBoost s) (audioHistory s)
    (presets s) (selectedPreset s) (savedAudio s) (isCloning s)
    (selectedFile s) (voiceName s) (uploadProgress s) (estimatedDuration s).

Definition upd_previousVolume (v : list number) (s : State) : State :=
  mkState (text s) (isLoading s) (voices s) (selectedVoice s) (recordedAudio
    s) (audioURL s) (recordingDuration s) (isPlaying s) (isPresetDialogOpen
    s) (isVoiceDialogOpen s) (presetName s) (volume s) (isMuted s) v
    (stability s) (similarity s) (style s) (speakerBoost s) (audioHistory s)
    (presets s) (selectedPreset s) (savedAudio s) (isCloning s)
    (selectedFile s) (voiceName s) (uploadProgress s) (estimatedDuration s).

Definition upd_stability (v : list number) (s : State) : State :=
  mkState (text s) (isLoading s) (voices s) (selectedVoice s) (recordedAudio
    s) (audioURL s) (recordingDuration s) (isPlaying s) (isPresetDialogOpen
    s) (isVoiceDialogOpen s) (presetName s) (volume s) (isMuted s)
    (previousVolume s) v (similarity s) (style s) (speakerBoost s)
    (audioHistory s) (presets s) (selectedPreset s) (savedAudio s)
    (isCloning s) (selectedFile s) (voiceName s) (uploadProgress s)
    (estimatedDuration s).

Definition upd_similarity (v : list number) (s : State) : State :=
  mkState (text s) (isLoading s) (voices s) (selectedVoice s) (recordedAudio
    s) (audioURL s) (recordingDuration s) (isPlaying s) (isPresetDialogOpen
    s) (isVoiceDialogOpen s) (presetName s) (volume s) (isMuted s)
    (previousVolume s) (stability s) v (style s) (speakerBoost s)
    (audioHistory s) (presets s) (selectedPreset s) (savedAudio s)
    (isCloning s) (selectedFile s) (voiceName s) (uploadProgress s)
    (estimatedDuration s).

Definition upd_style (v : list number) (s : State) : State :=
  mkState (text s) (isLoading s) (voices s) (selectedVoice s) (recordedAudio
    s) (audioURL s) (recordingDuration s) (isPlaying s) (isPresetDialogOpen
    s) (isVoiceDialogOpen s) (presetName s) (volume s) (isMuted s)
    (previousVolume s) (stability s) (similarity s) v (speakerBoost s)
    (audioHistory s) (presets s) (selectedPreset s) (savedAudio s)
    (isCloning s) (selectedFile s) (voiceName s) (uploadProgress s)
    (estimatedDuration s).

Definition upd_speakerBoost (v : bool) (s : State) : State :=
  mkState (text s) (isLoading s) (voices s) (selectedVoice s) (recordedAudio
    s) (audioURL s) (recordingDuration s) (isPlaying s) (isPresetDialogOpen
    s) (isVoiceDialogOpen s) (presetName s) (volume s) (isMuted s)
    (previousVolume s) (stability s) (similarity s) (style s) v
    (audioHistory s) (presets s) (selectedPreset s) (savedAudio s)
    (isCloning s) (selectedFile s) (voiceName s) (uploadProgress s)
    (estimatedDuration s).

Definition upd_audioHistory (v : list AudioHistory) (s : State) : State :=
  mkState (text s) (isLoading s) (voices s) (selectedVoice s) (recordedAudio
    s) (audioURL s) (recordingDuration s) (isPlaying s) (isPresetDialogOpen
    s) (isVoiceDialogOpen s) (presetName s) (volume s) (isMuted s)
    (previousVolume s) (stability s) (similarity s) (style s) (speakerBoost
    s) v (presets s) (selectedPreset s) (savedAudio s) (isCloning s)
    (selectedFile s) (voiceName s) (uploadProgress s) (estimatedDuration s).

Definition upd_presets (v : list VoicePreset) (s : State) : State :=
  mkState (text s) (isLoading s) (voices s) (selectedVoice s) (recordedAudio
    s) (audioURL s) (recordingDuration s) (isPlaying s) (isPresetDialogOpen
    s) (isVoiceDialogOpen s) (presetName s) (volume s) (isMuted s)
    (previousVolume s) (stability s) (similarity s) (style s) (speakerBoost
    s) (audioHistory s) v (selectedPreset s) (savedAudio s) (isCloning s)
    (selectedFile s) (voiceName s) (uploadProgress s) (estimatedDuration s).

Definition upd_selectedPreset (v : option jsstring) (s : State) : State :=
  mkState (text s) (isLoading s) (voices s) (selectedVoice s) (recordedAudio
    s) (audioURL s) (recordingDuration s) (isPlaying s) (isPresetDialogOpen
    s) (isVoiceDialogOpen s) (presetName s) (volume s) (isMuted s)
    (previousVolume s) (stability s) (similarity s) (style s) (speakerBoost
    s) (audioHistory s) (presets s) v (savedAudio s) (isCloning s)
    (selectedFile s) (voiceName s) (uploadProgress s) (estimatedDuration s).

Definition upd_savedAudio (v : option SavedAudio) (s : State) : State :=
  mkState (text s) (isLoading s) (voices s) (selectedVoice s) (recordedAudio
    s) (audioURL s) (recordingDuration s) (isPlaying s) (isPresetDialogOpen
    s) (isVoiceDialogOpen s) (presetName s) (volume s) (isMuted s)
    (previousVolume s) (stability s) (similarity s) (style s) (speakerBoost
    s) (audioHistory s) (presets s) (selectedPreset s) v (isCloning s)
    (selectedFile s) (voiceName s) (uploadProgress s) (estimatedDuration s).

Definition upd_isCloning (v : bool) (s : State) : State :=
  mkState (text s) (isLoading s) (voices s) (selectedVoice s) (recordedAudio
    s) (audioURL s) (recordingDuration s) (isPlaying s) (isPresetDialogOpen
    s) (isVoiceDialogOpen s) (presetName s) (volume s) (isMuted s)
    (previousVolume s) (stability s) (similarity s) (style s) (speakerBoost
    s) (audioHistory s) (presets s) (selectedPreset s) (savedAudio s) v
    (selectedFile s) (voiceName s) (uploadProgress s) (estimatedDuration s).

Definition upd_selectedFile (v : option File) (s : State) : State :=
  mkState (text s) (isLoading s) (voices s) (selectedVoice s) (recordedAudio
    s) (audioURL s) (recordingDuration s) (isPlaying s) (isPresetDialogOpen
    s) (isVoiceDialogOpen s) (presetName s) (volume s) (isMuted s)
    (previousVolume s) (stability s) (similarity s) (style s) (speakerBoost
    s) (audioHistory s) (presets s) (selectedPreset s) (savedAudio s)
    (isCloning s) v (voiceName s) (uploadProgress s) (estimatedDuration s).

Definition upd_voiceName (v : jsstring) (s : State) : State :=
  mkState (text s) (isLoading s) (voices s) (selectedVoice s) (recordedAudio
    s) (audioURL s) (recordingDuration s) (isPlaying s) (isPresetDialogOpen
    s) (isVoiceDialogOpen s) (presetName s) (volume s) (isMuted s)
    (previousVolume s) (stability s) (similarity s) (style s) (speakerBoost
    s) (audioHistory s) (presets s) (selectedPreset s) (savedAudio s)
    (isCloning s) (selectedFile s) v (uploadProgress s) (estimatedDuration
    s).

Definition upd_uploadProgress (v : N) (s : State) : State :=
  mkState (text s) (isLoading s) (voices s) (selectedVoice s) (recordedAudio
    s) (audioURL s) (recordingDuration s) (isPlaying s) (isPresetDialogOpen
    s) (isVoiceDialogOpen s) (presetName s) (volume s) (isMuted s)
    (previousVolume s) (stability s) (similarity s) (style s) (speakerBoost
    s) (audioHistory s) (presets s) (selectedPreset s) (savedAudio s)
    (isCloning s) (selectedFile s) (voiceName s) v (estimatedDuration s).

(** ** Effects and the live world *)

Record Toast : Type := mkToast {
  title : jsstring;
  description : jsstring;
  destructive : bool
}.

Inductive request_body : Type :=
| NoBody
| TtsJson (text voiceId : jsstring)
    (stability similarity_boost style : number) (use_speaker_boost : bool)
| CloneForm (name : jsstring) (files : list File).

(** What a handler does that is visible outside the hook state: network
    calls, notifications, console output, calls of hook setters, operations
    on the audio graph and on timers. *)
Inductive effect : Type :=
| EFetch (method : string) (url : jsstring) (body : request_body)
| EToast (t : Toast)
| EConsoleError (label : string)
| ESetState (hook : string)
| ECreateContext
| EDecode (data : bytes)
| ECreateSource (n : nat)
| EConnect (n : nat)
| EGain (v : number)
| EStart (n : nat)
| EStop (n : nat)
| EDisconnect (n : nat)
| ESetInterval (t : nat)
| EClearInterval (t : nat)
| EPause.

(** [ui]: the hook state.  [sourceRef], [audioRef]: the two refs ([audioRef]
    is set while the recording preview element is mounted).  [audioContext],
    [gainNode]: whether the module-level singletons exist.  [audible]: the
    buffer sources that were started and have neither been stopped nor
    ended.  [intervals]: the armed timers. *)
Record World : Type := mkWorld {
  ui : State;
  sourceRef : option nat;
  audioRef : bool;
  audioContext : bool;
  gainNode : bool;
  audible : list nat;
  next_node : nat;
  intervals : list nat;
  next_timer : nat;
  clock : N
}.

Definition with_ui (f : State -> State) (w : World) : World :=
  mkWorld (f (ui w)) (sourceRef w) (audioRef w) (audioContext w) (gainNode w)
    (audible w) (next_node w) (intervals w) (next_timer w) (clock w).

Definition with_sourceRef (v : option nat) (w : World) : World :=
  mkWorld (ui w) v (audioRef w) (audioContext w) (gainNode w)
    (audible w) (next_node w) (intervals w) (next_timer w) (clock w).

Definition with_context (w : World) : World :=
  mkWorld (ui w) (sourceRef w) (audioRef w) true true
    (audible w) (next_node w) (intervals w) (next_timer w) (clock w).

Definition with_audible (f : list nat -> list nat) (w : World) : World :=
  mkWorld (ui w) (sourceRef w) (audioRef w) (audioContext w) (gainNode w)
    (f (audible w)) (next_node w) (intervals w) (next_timer w) (clock w).

Definition with_next_node (v : nat) (w : World) : World :=
  mkWorld (ui w) (sourceRef w) (audioRef w) (audioContext w) (gainNode w)
    (audible w) v (intervals w) (next_timer w) (clock w).

Definition with_intervals (f : list nat -> list nat) (w : World) : World :=
  mkWorld (ui w) (sourceRef w) (audioRef w) (audioContext w) (gainNode w)
    (audible w) (next_node w) (f (intervals w)) (next_timer w) (clock w).

Definition with_next_timer (v : nat) (w : World) : World :=
  mkWorld (ui w) (sourceRef w) (audioRef w) (audioContext w) (gainNode w)
    (audible w) (next_node w) (intervals w) v (clock w).

(** ** Handlers run in a state monad with exceptions and an effect log *)

Inductive outcome (A : Type) : Type :=
| Ret (a : A)
| Throw (message : jsstring).

Arguments Ret {A} a.
Arguments Throw {A} message.

(** One run: how it ended, the world it left, and its effects in the order
    they happened. *)
Record run (A : Type) : Type := mkRun {
  value : outcome A;
  after : World;
  effects : list effect
}.

Arguments mkRun {A} value after effects.
Arguments value {A} r.
Arguments after {A} r.
Arguments effects {A} r.

Definition M (A : Type) : Type := World -> run A.

Definition ret {A : Type} (a : A) : M A := fun w => mkRun (Ret a) w [].

Definition throw {A : Type} (message : jsstring) : M A :=
  fun w => mkRun (Throw message) w [].

Definition bind {A B : Type} (c : M A) (k : A -> M B) : M B :=
  fun w =>
    let r := c w in
    match value r with
    | Ret a =>
        let r' := k a (after r) in
        mkRun (value r') (after r') (effects r ++ effects r')
    | Throw m => mkRun (Throw m) (after r) (effects r)
    end.

Declare Scope js_scope.
Delimit Scope js_scope with js.
Notation "x <- c ;; k" := (bind c (fun x => k))
  (at level 61, c at next level, right associativity) : js_scope.
Notation "c ;; k" := (bind c (fun _ => k))
  (at level 61, right associativity) : js_scope.
#[local] Open Scope js_scope.

(** [try { body } catch (error) { handler }] *)
Definition try_catch {A : Type} (body : M A) (handler : jsstring -> M A)
  : M A :=
  fun w =>
    let r := body w in
    match value r with
    | Ret a => r
    | Throw m =>
        let r' := handler m (after r) in
        mkRun (value r') (after r') (effects r ++ effects r')
    end.

(** [try { body } finally { cleanup }] *)
Definition finally {A : Type} (body : M A) (cleanup : M unit) : M A :=
  fun w =>
    let r := body w in
    let r' := cleanup (after r) in
    mkRun
      match value r' with
      | Ret _ => value r
      | Throw m => Throw m
      end
      (after r') (effects r ++ effects r').

Definition try_catch_finally {A : Type}
  (body : M A) (handler : jsstring -> M A) (cleanup : M unit) : M A :=
  finally (try_catch body handler) cleanup.

Definition when (b : bool) (c : M unit) : M unit :=
  if b then c else ret tt.

(** *** Primitive actions *)

Definition emit (e : effect) : M unit := fun w => mkRun (Ret tt) w [e].

(** A hook setter: [setX(v)] is [set_hook "X" (upd_X v)], the updater form
    [setX(prev => f prev)] passes the function itself. *)
Definition set_hook (hook : string) (f : State -> State) : M unit :=
  fun w => mkRun (Ret tt) (with_ui f w) [ESetState hook].

Definition toast (t : Toast) : M unit := emit (EToast t).

Definition console_error (label : string) : M unit :=
  emit (EConsoleError label).

(** [Date.now()] and [new Date()] *)
Definition Date_now : M N := fun w => mkRun (Ret (clock w)) w [].

(** A response of [fetch]: [ok], and the body as the reader used on it
    returns it ([None] when reading it fails). *)
Record response (B : Type) : Type := mkResponse {
  ok : bool;
  body : option B
}.

Arguments mkResponse {B} ok body.
Arguments ok {B} r.
Arguments body {B} r.

Inductive reply (B : Type) : Type :=
| Rejected (message : jsstring)
| Response (r : response B).

Arguments Rejected {B} message.
Arguments Response {B} r.

(** [await fetch(url, {method, body})] *)
Definition fetch {B : Type} (method : string) (url : jsstring)
  (payload : request_body) (answer : reply B) : M (response B) :=
  emit (EFetch method url payload) ;;
  match answer with
  | Rejected m => throw m
  | Response r => ret r
  end.

(** [await response.json()] or [await response.arrayBuffer()] *)
Definition read_body {B : Type} (r : response B) : M B :=
  match body r with
  | Some b => ret b
  | None => throw (lit "Failed to read the response body")
  end.

(** *** Refs, audio graph and timers *)

Definition get_sourceRef : M (option nat) :=
  fun w => mkRun (Ret (sourceRef w)) w [].

Definition set_sourceRef (v : option nat) : M unit :=
  fun w => mkRun (Ret tt) (with_sourceRef v w) [].

Definition get_audioRef : M bool := fun w => mkRun (Ret (audioRef w)) w [].

(** [audioContext && gainNode] *)
Definition have_audio : M bool :=
  fun w => mkRun (Ret (audioContext w && gainNode w)) w [].

Definition get_gainNode : M bool := fun w => mkRun (Ret (gainNode w)) w [].

(** [volume / 100], the value written to [gainNode.gain.value]. *)
Definition gain_of (v : number) : number :=
  option_map (fun q => Qdiv q (100 # 1)) v.

Definition set_gain (v : number) : M unit := emit (EGain v).

(** [await audioContext.decodeAudioData(arrayBuffer)] *)
Definition decodeAudioData (data : bytes) (decodable : bool) : M unit :=
  emit (EDecode data) ;;
  if decodable then ret tt else throw (lit "Unable to decode audio data").

Definition createBufferSource : M nat :=
  fun w =>
    mkRun (Ret (next_node w)) (with_next_node (S (next_node w)) w)
      [ECreateSource (next_node w)].

Definition node_connect (n : nat) : M unit := emit (EConnect n).

Definition node_start (n : nat) : M unit :=
  fun w => mkRun (Ret tt) (with_audible (cons n) w) [EStart n].

Definition node_stop (n : nat) : M unit :=
  fun w =>
    mkRun (Ret tt) (with_audible (remove Nat.eq_dec n) w) [EStop n].

Definition node_disconnect (n : nat) : M unit := emit (EDisconnect n).

Definition setInterval : M nat :=
  fun w =>
    mkRun (Ret (next_timer w))
      (with_intervals (cons (next_timer w))
         (with_next_timer (S (next_timer w)) w))
      [ESetInterval (next_timer w)].

Definition clearInterval (t : nat) : M unit :=
  fun w =>
    mkRun (Ret tt) (with_intervals (remove Nat.eq_dec t) w)
      [EClearInterval t].

(** *** The setters of the hooks

    [setX v] is [setX(v)]; [setX_by f] is the updater form
    [setX(prev => f prev)], which reads the live value. *)

Definition setIsLoading (v : bool) : M unit :=
  set_hook "isLoading" (upd_isLoading v).

Definition setVoices (v : list Voice) : M unit :=
  set_hook "voices" (upd_voices v).

Definition setSelectedVoice (v : jsstring) : M unit :=
  set_hook "selectedVoice" (upd_selectedVoice v).

Definition setRecordedAudio (v : option Blob) : M unit :=
  set_hook "recordedAudio" (upd_recordedAudio v).

Definition setAudioURL (v : option jsstring) : M unit :=
  set_hook "audioURL" (upd_audioURL v).

Definition setRecordingDuration (v : N) : M unit :=
  set_hook "recordingDuration" (upd_recordingDuration v).

Definition setIsPlaying (v : bool) : M unit :=
  set_hook "isPlaying" (upd_isPlaying v).

Definition setIsPresetDialogOpen (v : bool) : M unit :=
  set_hook "isPresetDialogOpen" (upd_isPresetDialogOpen v).

Definition setIsVoiceDialogOpen (v : bool) : M unit :=
  set_hook "isVoiceDialogOpen" (upd_isVoiceDialogOpen v).

Definition setPresetName (v : jsstring) : M unit :=
  set_hook "presetName" (upd_presetName v).

Definition setVolume (v : list number) : M unit :=
  set_hook "volume" (upd_volume v).

Definition setIsMuted (v : bool) : M unit :=
  set_hook "isMuted" (upd_isMuted v).

Definition setPreviousVolume (v : list number) : M unit :=
  set_hook "previousVolume" (upd_previousVolume v).

Definition setStability (v : list number) : M unit :=
  set_hook "stability" (upd_stability v).

Definition setSimilarity (v : list number) : M unit :=
  set_hook "similarity" (upd_similarity v).

Definition setStyle (v : list number) : M unit :=
  set_hook "style" (upd_style v).

Definition setSpeakerBoost (v : bool) : M unit :=
  set_hook "speakerBoost" (upd_speakerBoost v).

Definition setSelectedPreset (v : option jsstring) : M unit :=
  set_hook "selectedPreset" (upd_selectedPreset v).

Definition setSavedAudio (v : option SavedAudio) : M unit :=
  set_hook "savedAudio" (upd_savedAudio v).

Definition setIsCloning (v : bool) : M unit :=
  set_hook "isCloning" (upd_isCloning v).

Definition setSelectedFile (v : option File) : M unit :=
  set_hook "selectedFile" (upd_selectedFile v).

Definition setVoiceName (v : jsstring) : M unit :=
  set_hook "voiceName" (upd_voiceName v).

Definition setUploadProgress (v : N) : M unit :=
  set_hook "uploadProgress" (upd_uploadProgress v).

Definition setVoices_by (f : list Voice -> list Voice) : M unit :=
  set_hook "voices" (fun s => upd_voices (f (voices s)) s).

Definition setAudioHistory_by (f : list AudioHistory -> list AudioHistory) : M unit :=
  set_hook "audioHistory" (fun s => upd_audioHistory (f (audioHistory s)) s).

Definition setPresets_by (f : list VoicePreset -> list VoicePreset) : M unit :=
  set_hook "presets" (fun s => upd_presets (f (presets s)) s).

Definition setUploadProgress_by (f : N -> N) : M unit :=
  set_hook "uploadProgress" (fun s => upd_uploadProgress (f (uploadProgress s)) s).

(** ** The component [TTSApp] *)

Definition dquote : jsstring := [34].

(** [initAudioContext] *)
Definition initAudioContext : M unit :=
  fun w =>
    if audioContext w then mkRun (Ret tt) w []
    else mkRun (Ret tt) (with_context w) [ECreateContext].

(** [handleVolumeChange] *)
Definition handleVolumeChange (newVolume : list number) : M unit :=
  setVolume newVolume ;;
  g <- get_gainNode ;;
  when g (set_gain (gain_of (idx0 newVolume))).

(** [handleMuteToggle] *)
Definition handleMuteToggle (r : State) : M unit :=
  if isMuted r then
    setVolume (previousVolume r) ;;
    setIsMuted false
  else
    setPreviousVolume (volume r) ;;
    setVolume [num 0] ;;
    setIsMuted true.

(** The preset [handleSavePreset] builds at time [now]. *)
Definition newPreset (r : State) (name : jsstring) (now : N) : VoicePreset :=
  mkVoicePreset (toString now) name (selectedVoice r)
    (mkSettings (idx0 (stability r)) (idx0 (similarity r)) (idx0 (style r))
       (speakerBoost r)).

(** [handleSavePreset] *)
Definition handleSavePreset (r : State) (name : jsstring) : M unit :=
  if is_blank name then ret tt
  else
    now <- Date_now ;;
    setPresets_by (fun prev => prev ++ [newPreset r name now]) ;;
    toast (mkToast (lit "Preset Saved")
             (dquote ++ name ++ dquote
                ++ lit " has been saved to your presets.") false) ;;
    setIsPresetDialogOpen false ;;
    setPresetName [].

(** [loadPreset] *)
Definition loadPreset (r : State) (presetId : jsstring) : M unit :=
  match find (fun p => str_eqb (p_id p) presetId) (presets r) with
  | Some preset =>
      setSelectedVoice (p_voiceId preset) ;;
      setStability [s_stability (settings preset)] ;;
      setSimilarity [s_similarity (settings preset)] ;;
      setStyle [s_style (settings preset)] ;;
      setSpeakerBoost (use_speaker_boost (settings preset)) ;;
      setSelectedPreset (Some presetId) ;;
      toast (mkToast (lit "Preset Loaded")
               (dquote ++ p_name preset ++ dquote
                  ++ lit " settings have been applied.") false)
  | None => ret tt
  end.

(** The history item [synthesizeSpeech] builds at time [now]. *)
Definition newHistoryItem (r : State) (now : N) : AudioHistory :=
  mkAudioHistory (toString now) (text r) (selectedVoice r)
    (match
       find (fun v => str_eqb (voice_id v) (selectedVoice r)) (voices r)
     with
     | Some selectedVoiceData =>
         str_or (voice_name selectedVoiceData) (lit "Unknown Voice")
     | None => lit "Unknown Voice"
     end)
    now (estimatedDuration r).

(** [synthesizeSpeech] *)
Definition synthesizeSpeech (r : State) (answer : reply bytes)
  (decodable : bool) : M unit :=
  if is_blank (text r) then
    toast (mkToast (lit "Error")
             (lit "Please enter some text to convert to speech") true)
  else
    try_catch_finally
      (setIsLoading true ;;
       setIsPlaying true ;;
       initAudioContext ;;
       response <- fetch "POST" (lit "/api/tts")
                     (TtsJson (text r) (selectedVoice r)
                        (idx0 (stability r)) (idx0 (similarity r))
                        (idx0 (style r)) (speakerBoost r))
                     answer ;;
       when (negb (ok response)) (throw (lit "Failed to generate speech")) ;;
       arrayBuffer <- read_body response ;;
       now <- Date_now ;;
       setSavedAudio
         (Some (mkSavedAudio (mkBlob arrayBuffer "audio/mpeg") (text r)
                  (selectedVoice r) now)) ;;
       now <- Date_now ;;
       setAudioHistory_by
         (fun prev => firstn 10%nat (newHistoryItem r now :: prev)) ;;
       audio <- have_audio ;;
       when audio
         (held <- get_sourceRef ;;
          match held with
          | Some current => node_stop current ;; node_disconnect current
          | None => ret tt
          end ;;
          decodeAudioData arrayBuffer decodable ;;
          source <- createBufferSource ;;
          node_connect source ;;
          set_sourceRef (Some source) ;;
          set_gain (gain_of (idx0 (volume r))) ;;
          node_start source ;;
          toast (mkToast (lit "Success")
                   (lit "Audio generated successfully!") false)))
      (fun _ =>
         console_error "Error synthesizing speech:" ;;
         toast (mkToast (lit "Error")
                  (lit "Failed to generate speech. Please try again.") true) ;;
         setIsPlaying false)
      (setIsLoading false).

(** The [onended] callback [synthesizeSpeech] installs on a source. *)
Definition source_onended : M unit :=
  setIsPlaying false ;;
  set_sourceRef None.

(** Source [n] plays to its end: it falls silent and its [onended] callback
    runs. *)
Definition deliver_ended (n : nat) : M unit :=
  (fun w => mkRun (Ret tt) (with_audible (remove Nat.eq_dec n) w) []) ;;
  source_onended.

(** [stopSpeech] *)
Definition stopSpeech : M unit :=
  held <- get_sourceRef ;;
  match held with
  | Some current =>
      node_stop current ;;
      node_disconnect current ;;
      set_sourceRef None
  | None => ret tt
  end ;;
  setIsPlaying false.

(** The action button of the card: [Stop] while [isPlaying], otherwise
    [Generate], each with its [disabled] condition. *)
Definition click_action_button (answer : reply bytes) (decodable : bool)
  : M unit :=
  fun w =>
    let r := ui w in
    if isPlaying r then
      if isLoading r then ret tt w else stopSpeech w
    else if isLoading r || is_blank (text r) || negb (truthy (selectedVoice r))
    then ret tt w
    else synthesizeSpeech r answer decodable w.

(** [resetRecording] *)
Definition resetRecording : M unit :=
  setRecordedAudio None ;;
  setAudioURL None ;;
  setRecordingDuration 0 ;;
  mounted <- get_audioRef ;;
  when mounted (emit EPause) ;;
  setIsPlaying false.

(** The sample handed to [handleVoiceCloning]: [File | Blob]. *)
Inductive sample : Type :=
| UploadedFile (f : File)
| RecordedBlob (b : Blob).

Definition sample_data (x : sample) : bytes :=
  match x with
  | UploadedFile f => file_data f
  | RecordedBlob b => blob_data b
  end.

(** [fileOrBlob instanceof Blob]: a [File] is a [Blob]. *)
Definition instanceof_Blob (x : sample) : bool := true.

(** The entry appended to the form under ["files"]. *)
Definition form_file (x : sample) : File :=
  if instanceof_Blob x then
    mkFile (lit "recorded-audio.wav") "audio/wav" (sample_data x)
  else
    match x with
    | UploadedFile f => f
    | RecordedBlob b => mkFile (lit "blob") (blob_type b) (blob_data b)
    end.

(** The JSON body of the clone route, as far as the component reads it. *)
Record clone_json : Type := mkCloneJson {
  cj_error : option jsstring;
  cj_voice_id : option jsstring
}.

(** [field || fallback] for a field that may be missing. *)
Definition field_or (field : option jsstring) (fallback : jsstring)
  : jsstring :=
  match field with
  | Some s => str_or s fallback
  | None => fallback
  end.

(** The callback of the progress timer. *)
Definition progress_tick : M unit :=
  setUploadProgress_by (fun prev => N.min (prev + 10) 90).

(** A timer fires only while it is armed. *)
Definition deliver_tick (t : nat) : M unit :=
  fun w =>
    if existsb (Nat.eqb t) (intervals w) then progress_tick w
    else ret tt w.

(** [handleVoiceCloning].  The [progressInterval] that the [catch] block
    tests is the outer constant, which is [null]: the timer started inside
    [try] is bound to an inner constant of the same name. *)
Definition handleVoiceCloning (fileOrBlob : sample) (name : jsstring)
  (answer : reply clone_json) : M unit :=
  let progressInterval : option nat := None in
  try_catch_finally
    (setIsCloning true ;;
     setUploadProgress 0 ;;
     let formData := CloneForm name [form_file fileOrBlob] in
     inner_progressInterval <- setInterval ;;
     response <- fetch "POST" (lit "/api/clone-voice") formData answer ;;
     clearInterval inner_progressInterval ;;
     setUploadProgress 100 ;;
     (if negb (ok response) then
        errorData <- read_body response ;;
        throw (field_or (cj_error errorData) (lit "Failed to clone voice"))
      else ret tt) ;;
     data <- read_body response ;;
     when (negb (truthy (field_or (cj_voice_id data) [])))
       (throw (lit "Invalid response from voice cloning service")) ;;
     let newVoice :=
       mkVoice (field_or (cj_voice_id data) []) name (lit "custom") in
     setVoices_by (fun prev => prev ++ [newVoice]) ;;
     setSelectedVoice (voice_id newVoice) ;;
     toast (mkToast (lit "Success")
              (lit "Voice cloned successfully! The new voice is now available.")
              false) ;;
     setIsVoiceDialogOpen false)
    (fun message =>
       console_error "Voice cloning error:" ;;
       match progressInterval with
       | Some t => clearInterval t
       | None => ret tt
       end ;;
       setUploadProgress 0 ;;
       toast (mkToast (lit "Error")
                (str_or message
                   (lit "Failed to clone voice. Please try again.")) true))
    (setIsCloning false ;;
     setSelectedFile None ;;
     setVoiceName [] ;;
     setUploadProgress 0 ;;
     resetRecording).

(** [handleDeleteVoice] *)
Definition handleDeleteVoice (r : State) (voiceId : jsstring)
  (answer : reply unit) : M unit :=
  try_catch
    (response <- fetch "DELETE" (lit "/api/clone-voice/" ++ voiceId) NoBody
                   answer ;;
     when (negb (ok response)) (throw (lit "Failed to delete voice")) ;;
     setVoices
       (filter (fun voice => negb (str_eqb (voice_id voice) voiceId))
          (voices r)) ;;
     when (str_eqb (selectedVoice r) voiceId) (setSelectedVoice []) ;;
     toast (mkToast (lit "Success") (lit "Voice deleted successfully") false))
    (fun _ =>
       console_error "Error deleting voice:" ;;
       toast (mkToast (lit "Error")
                (lit "Failed to delete voice. Please try again.") true)).

(** A handler invoked from the current render. *)
Definition dispatch (handler : State -> M unit) : M unit :=
  fun w => handler (ui w) w.


(** The [onSubmit] handler of the clone dialog's form. *)
Definition submit_clone_form (answer : reply clone_json) : M unit :=
  fun w =>
    let r := ui w in
    match selectedFile r, recordedAudio r with
    | Some f, _ =>
        if truthy (voiceName r) then
          handleVoiceCloning (UploadedFile f) (voiceName r) answer w
        else ret tt w
    | None, Some b =>
        if truthy (voiceName r) then
          handleVoiceCloning (RecordedBlob b) (voiceName r) answer w
        else ret tt w
    | None, None => ret tt w
    end.

(** The hook state of the first render. *)
Definition initial_state : State :=
  mkState [] false [] [] None None 0 false false false []
    [num (50 # 1)] false [num (50 # 1)]
    [num (1 # 2)] [num (7 # 10)] [num (0 # 1)] true
    [] [] None None false None [] 0 0.

(** The page right after loading, at time [now]. *)
Definition initial_world (now : N) : World :=
  mkWorld initial_state None false false false [] 0 [] 0 now.

(** ** The text-to-speech proxy route *)

#[warnings="-register-all"]
Inductive json : Type :=
| JNull
| JBool (b : bool)
| JNumber (q : Q)
| JString (s : jsstring)
| JArray (items : list json)
| JObject (members : list (jsstring * json)).

(** The fields the handlers destructure from the request body; [None] is a
    missing key. *)
Record tts_body : Type := mkTtsBody {
  b_text : option json;
  b_voiceId : option json;
  b_modelId : option json;
  b_stability : option json;
  b_similarity_boost : option json;
  b_style : option json;
  b_use_speaker_boost : option json
}.

(** [voice_settings] of the request sent to the Gateway; [None] is a key
    that [JSON.stringify] leaves out. *)
Record voice_settings : Type := mkVoiceSettings {
  vs_stability : option json;
  vs_similarity_boost : option json;
  vs_style : option json;
  vs_use_speaker_boost : option json
}.

(** The request to [https://api.elevenlabs.io/v1/text-to-speech/${voiceId}]. *)
Record gateway_request : Type := mkGatewayRequest {
  g_voiceId : option json;
  g_api_key : jsstring;
  g_accept : string;
  g_text : option json;
  g_model_id : option json;
  g_voice_settings : voice_settings
}.

Inductive http_result : Type :=
| AudioResponse (content_type : string) (content_length : N)
    (payload : bytes)
| JsonError (status : N) (error : jsstring).

(** A destructuring default: it applies to a missing key only. *)
Definition default (d : json) (field : option json) : option json :=
  match field with
  | None => Some d
  | Some v => Some v
  end.

Definition tts_failure : http_result :=
  JsonError 500 (lit "Failed to convert text to speech").

Definition relay_audio (answer : reply bytes) : http_result :=
  match answer with
  | Rejected _ => tts_failure
  | Response r =>
      if ok r then
        match body r with
        | Some audioBuffer =>
            AudioResponse "audio/mpeg" (N.of_nat (List.length audioBuffer))
              audioBuffer
        | None => tts_failure
        end
      else tts_failure
  end.

(** [POST] of [src/app/api/tts/route.ts].  [apiKey] is the environment
    variable, [request_json] the parsed body ([None] when parsing fails),
    [answer] what the Gateway does.  The result is the request sent to the
    Gateway, if any, and the response of the route. *)
Module SrcAppApiTts.

Definition POST (apiKey : option jsstring) (request_json : option tts_body)
  (answer : reply bytes) : option gateway_request * http_result :=
  if truthy (field_or apiKey []) then
    match request_json with
    | None => (None, tts_failure)
    | Some body =>
        let modelId :=
          default (JString (lit "eleven_monolingual_v1")) (b_modelId body) in
        (Some
           (mkGatewayRequest (b_voiceId body) (field_or apiKey [])
              "audio/mpeg" (b_text body) modelId
              (mkVoiceSettings (Some (JNumber (1 # 2)))
                 (Some (JNumber (1 # 2))) None None)),
         relay_audio answer)
    end
  else (None, tts_failure).

End SrcAppApiTts.

(** [POST] of the second text-to-speech handler of the repository, the one
    headed [// app/api/tts/route.ts] that follows the history handler in
    [src/app/api/history/route.ts]; it destructures the voice settings. *)
Module AppApiTts.

Definition POST (apiKey : option jsstring) (request_json : option tts_body)
  (answer : reply bytes) : option gateway_request * http_result :=
  if truthy (field_or apiKey []) then
    match request_json with
    | None => (None, tts_failure)
    | Some body =>
        let modelId :=
          default (JString (lit "eleven_multilingual_v2")) (b_modelId body) in
        let style := default (JNumber (0 # 1)) (b_style body) in
        let use_speaker_boost :=
          default (JBool true) (b_use_speaker_boost body) in
        (Some
           (mkGatewayRequest (b_voiceId body) (field_or apiKey [])
              "audio/mpeg" (b_text body) modelId
              (mkVoiceSettings (b_stability body) (b_similarity_boost body)
                 style use_speaker_boost)),
         relay_audio answer)
    end
  else (None, tts_failure).

End AppApiTts.

(** ** Vocabulary of the properties *)

Definition is_fetch (e : effect) : bool :=
  match e with
  | EFetch _ _ _ => true
  | _ => false
  end.

Definition is_set (hook : string) (e : effect) : bool :=
  match e with
  | ESetState h => String.eqb h hook
  | _ => false
  end.

Definition is_start (e : effect) : bool :=
  match e with
  | EStart _ => true
  | _ => false
  end.

(** The two store writes of a synthesis: the artifact kept for export and
    the history. *)
Definition is_store (e : effect) : bool :=
  is_set "savedAudio" e || is_set "audioHistory" e.

(** No network call among the effects. *)
Definition no_fetch (l : list effect) : bool :=
  forallb (fun e => negb (is_fetch e)) l.

(** The notification of the local validation of [synthesizeSpeech]. *)
Definition validation_toast : Toast :=
  mkToast (lit "Error") (lit "Please enter some text to convert to speech")
    true.

(** The notification of the [catch] block of [synthesizeSpeech]. *)
Definition synthesis_failed_toast : Toast :=
  mkToast (lit "Error") (lit "Failed to generate speech. Please try again.")
    true.

(** A Gateway or proxy answer with [ok] set and a readable body. *)
Definition success {B : Type} (b : B) : reply B :=
  Response (mkResponse true (Some b)).

(** The artifact of a synthesis of [r] that received [data] at [now]. *)
Definition artifact (r : State) (data : bytes) (now : N) : SavedAudio :=
  mkSavedAudio (mkBlob data "audio/mpeg") (text r) (selectedVoice r) now.

(** The settings bundle of a render, as the requests carry it. *)
Definition bundle (r : State) : Settings :=
  mkSettings (idx0 (stability r)) (idx0 (similarity r)) (idx0 (style r))
    (speakerBoost r).

(** The response of the proxy route: the Gateway's bytes as [audio/mpeg]
    when the Gateway answered [ok] with a readable body, otherwise the
    [{error}] JSON with status 500. *)
Definition audio_or_error (answer : reply bytes) (res : http_result) : Prop :=
  (exists payload,
     answer = success payload
     /\ res = AudioResponse "audio/mpeg" (N.of_nat (List.length payload))
                payload)
  \/ res = JsonError 500 (lit "Failed to convert text to speech").

(** The voice settings [src/app/api/tts/route.ts] sends with every request. *)
Definition fixed_settings : voice_settings :=
  mkVoiceSettings (Some (JNumber (1 # 2))) (Some (JNumber (1 # 2))) None None.

(** The two audio singletons exist together, as [initAudioContext] creates
    them. *)
Definition singletons_paired (w : World) : Prop :=
  audioContext w = gainNode w.


(** What can happen to the playback session: a synthesis from any render
    with any answer, a stop, the natural end of the source the handle refers
    to, and any other handler, none of which touches the handle or the
    buffer sources.  The [ended] event that follows a [stop()] is not a
    step of its own: its callback is taken to run before a later source is
    installed, where it finds the handle empty or still on the stopped
    source. *)
Inductive step : World -> World -> Prop :=
| step_synthesize (r : State) (answer : reply bytes) (decodable : bool) w :
    step w (after (synthesizeSpeech r answer decodable w))
| step_stop w :
    step w (after (stopSpeech w))
| step_ended n w :
    sourceRef w = Some n ->
    step w (after (deliver_ended n w))
| step_other w w' :
    sourceRef w' = sourceRef w ->
    audible w' = audible w ->
    step w w'.


(** ** Sample inputs *)

Module Sample.

Definition rachel : Voice :=
  mkVoice (lit "v1") (lit "Rachel") (lit "premade").

(** A render with text, one voice, and that voice selected. *)
Definition ready : State :=
  mkState (lit "Hello world") false [rachel] (lit "v1") None None 0 false
    false false [] [num (50 # 1)] false [num (50 # 1)]
    [num (1 # 2)] [num (7 # 10)] [num (0 # 1)] true
    [] [] None None false None [] 0 1.

(** The same render with no voice selected. *)
Definition no_voice : State := upd_selectedVoice [] ready.

(** A render whose text is two spaces. *)
Definition blank_text : State :=
  mkState (lit "  ") false [rachel] (lit "v1") None None 0 false
    false false [] [num (50 # 1)] false [num (50 # 1)]
    [num (1 # 2)] [num (7 # 10)] [num (0 # 1)] true
    [] [] None None false None [] 0 0.

Definition world_of (r : State) : World :=
  mkWorld r None false false false [] 0 [] 0 1700000000000.

(** A world in which source [0] is playing and held. *)
Definition playing : World :=
  mkWorld (upd_isPlaying true ready) (Some 0%nat) false true true [0%nat]
    1 [] 0 1700000000000.

Definition audio : bytes := [x49; x44; x33].

Definition entry (n : N) : AudioHistory :=
  mkAudioHistory (toString n) (lit "old") (lit "v1") (lit "Rachel") n 1.

(** A render with ten history entries, newest first. *)
Definition full_history : State :=
  upd_audioHistory (map entry [10; 9; 8; 7; 6; 5; 4; 3; 2; 1]) ready.

(** A preset stored earlier under the id of the sample time. *)
Definition stored_preset : VoicePreset :=
  mkVoicePreset (toString 1700000000000) (lit "Deep") (lit "v0")
    (mkSettings (num (1 # 10)) (num (2 # 10)) (num (1 # 1)) false).

Definition with_stored_preset : State := upd_presets [stored_preset] ready.

(** A later render: the voice was deselected and the stability moved. *)
Definition moved (r : State) : State :=
  upd_stability [num (9 # 10)] (upd_selectedVoice [] r).

Definition key : option jsstring := Some (lit "sk_test").

Definition tuned : tts_body :=
  mkTtsBody (Some (JString (lit "Hello world"))) (Some (JString (lit "v1")))
    None (Some (JNumber (9 # 10))) (Some (JNumber (8 # 10)))
    (Some (JNumber (3 # 10))) (Some (JBool false)).

End Sample.

(** ** Further vocabulary *)

(** A call of a hook setter. *)
Definition is_hook_write (e : effect) : bool :=
  match e with
  | ESetState _ => true
  | _ => false
  end.

(** An operation on the audio graph. *)
Definition is_audio_op (e : effect) : bool :=
  match e with
  | ECreateContext | EDecode _ | ECreateSource _ | EConnect _ | EGain _
  | EStart _ | EStop _ | EDisconnect _ => true
  | _ => false
  end.

(** The request [synthesizeSpeech] sends for a render. *)
Definition tts_request (r : State) : effect :=
  EFetch "POST" (lit "/api/tts")
    (TtsJson (text r) (selectedVoice r) (idx0 (stability r))
       (idx0 (similarity r)) (idx0 (style r)) (speakerBoost r)).

(** The request [handleVoiceCloning] sends. *)
Definition clone_request (fileOrBlob : sample) (name : jsstring) : effect :=
  EFetch "POST" (lit "/api/clone-voice")
    (CloneForm name
       [mkFile (lit "recorded-audio.wav") "audio/wav"
          (sample_data fileOrBlob)]).

(** A clone answer that carries a usable voice id. *)
Definition cloned (new_id : jsstring) (err : option jsstring)
  : reply clone_json :=
  success (mkCloneJson err (Some new_id)).


(** The failure notification of [handleDeleteVoice]. *)
Definition delete_failed_toast : Toast :=
  mkToast (lit "Error") (lit "Failed to delete voice. Please try again.")
    true.

Definition setPresets (v : list VoicePreset) : M unit :=
  set_hook "presets" (upd_presets v).

(** The [onClick] of a preset's [Remove] button. *)
Definition removePreset (r : State) (presetId : jsstring) : M unit :=
  setPresets
    (filter (fun p => negb (str_eqb (p_id p) presetId)) (presets r)).

(** The preset [loadPreset] would apply for an id. *)
Definition preset_of (stored : list VoicePreset) (presetId : jsstring)
  : option VoicePreset :=
  find (fun p => str_eqb (p_id p) presetId) stored.

(** ** Text analysis *)

(** [s.split(/\s+/)]: the pieces between the maximal runs of whitespace;
    a run at either end leaves an empty piece there, and the empty string
    gives one empty piece.  [piece] is the current piece, reversed;
    [skipping] is set inside a run. *)
Fixpoint split_ws (skipping : bool) (piece : jsstring) (s : jsstring)
  : list jsstring :=
  match s with
  | [] => [rev piece]
  | c :: s' =>
      if is_white_space c then
        if skipping then split_ws true piece s'
        else rev piece :: split_ws true [] s'
      else split_ws false (c :: piece) s'
  end.

Definition split_whitespace (s : jsstring) : list jsstring :=
  split_ws false [] s.

(** [text.trim().split(/\s+/).filter((word) => word.length > 0)] *)
Definition words (text : jsstring) : list jsstring :=
  filter truthy (split_whitespace (trim text)).

(** The values the text analysis effect passes to [setWordCount] and
    [setCharacterCount]. *)
Definition wordCount_of (text : jsstring) : nat := List.length (words text).

Definition characterCount_of (text : jsstring) : nat := List.length text.

Definition visible (c : N) : bool := negb (is_white_space c).

(** ** The other proxy routes *)

(** What the Gateway does with a call: the request fails, or it answers
    with a status and a body that parses, or with a status and a body whose
    parsing throws [message]. *)
Inductive gateway_reply (B : Type) : Type :=
| GRejected (message : jsstring)
| GAnswered (status : N) (payload : B)
| GUnreadable (status : N) (message : jsstring).

Arguments GRejected {B} message.
Arguments GAnswered {B} status payload.
Arguments GUnreadable {B} status message.

(** [response.ok] *)
Definition ok_status (status : N) : bool :=
  (200 <=? status) && (status <=? 299).

(** A multipart form: its entries in order. *)
Inductive form_value : Type :=
| FText (s : jsstring)
| FBlob (f : File).

Definition FormData : Type := list (jsstring * form_value).

(** [formData.get(key)] *)
Definition form_get (key : jsstring) (form : FormData) : option form_value :=
  option_map snd (find (fun entry => str_eqb (fst entry) key) form).

(** [formData.getAll(key)] *)
Definition form_getAll (key : jsstring) (form : FormData)
  : list form_value :=
  map snd (filter (fun entry => str_eqb (fst entry) key) form).

(** Truthiness of what [get] returns: [null] and the empty string are
    falsy. *)
Definition entry_truthy (v : option form_value) : bool :=
  match v with
  | None => false
  | Some (FText s) => truthy s
  | Some (FBlob _) => true
  end.

Inductive call_payload : Type :=
| NoPayload
| NameJson (name : option json)
| FormPayload (form : FormData).

(** A request to the Gateway. *)
Record gateway_call : Type := mkGatewayCall {
  c_method : string;
  c_url : jsstring;
  c_api_key : jsstring;
  c_payload : call_payload
}.

Inductive route_body : Type :=
| BError (error : jsstring)
| BSuccess
| BCloned (voice_id : jsstring)
| BData (data : json)
| BVoices (voices : list Voice)
| BAudioFile (content_type : string) (disposition : jsstring)
    (payload : bytes).

(** The response of a route. *)
Record route_result : Type := mkResult {
  r_status : N;
  r_body : route_body
}.

Definition gateway : jsstring := lit "https://api.elevenlabs.io/v1".

(** [process.env.ELEVENLABS_API_KEY!] as a header value: a missing
    variable is sent as the text "undefined". *)
Definition key_asserted (apiKey : option jsstring) : jsstring :=
  match apiKey with
  | Some k => k
  | None => lit "undefined"
  end.

(** The form of a request: [await request.formData()] returns it or throws
    [message]. *)
Inductive parsed_form : Type :=
| NoForm (message : jsstring)
| Form (formData : FormData).

(** [process.env.ELEVENLABS_API_KEY || ""] *)
Definition key_or_empty (apiKey : option jsstring) : jsstring :=
  field_or apiKey [].

(** The shape the three thin routes share: one call, and on anything but an
    [ok] answer the fixed error with status 500. *)
Definition relay_success {B : Type} (failure : jsstring)
  (answer : gateway_reply B) : route_result :=
  match answer with
  | GAnswered status _ | GUnreadable status _ =>
      if ok_status status then mkResult 200 BSuccess
      else mkResult 500 (BError failure)
  | GRejected _ => mkResult 500 (BError failure)
  end.

(** [POST] of [app/api/clone-voice/[voiceId]/name/route.ts].  [request_json]
    is [None] when the body does not parse, otherwise its [name] member. *)
Module CloneVoiceNameRoute.

Definition POST (apiKey : option jsstring) (voiceId : jsstring)
  (request_json : option (option json)) (answer : gateway_reply unit)
  : option gateway_call * route_result :=
  match request_json with
  | None => (None, mkResult 500 (BError (lit "Failed to rename voice")))
  | Some name =>
      (Some
         (mkGatewayCall "POST" (gateway ++ lit "/voices/" ++ voiceId)
            (key_or_empty apiKey) (NameJson name)),
       relay_success (lit "Failed to rename voice") answer)
  end.

End CloneVoiceNameRoute.

(** [DELETE] of [app/api/clone-voice/[voiceId]/route.ts] *)
Module CloneVoiceIdRoute.

Definition DELETE (apiKey : option jsstring) (voiceId : jsstring)
  (answer : gateway_reply unit) : option gateway_call * route_result :=
  (Some
     (mkGatewayCall "DELETE" (gateway ++ lit "/voices/" ++ voiceId)
        (key_or_empty apiKey) NoPayload),
   relay_success (lit "Failed to delete voice") answer).

End CloneVoiceIdRoute.

(** [DELETE] of [app/api/history/[historyItemId]/route.ts] *)
Module HistoryItemRoute.

Definition DELETE (apiKey : option jsstring) (historyItemId : jsstring)
  (answer : gateway_reply unit) : option gateway_call * route_result :=
  (Some
     (mkGatewayCall "DELETE" (gateway ++ lit "/history/" ++ historyItemId)
        (key_or_empty apiKey) NoPayload),
   relay_success (lit "Failed to delete history item") answer).

End HistoryItemRoute.

(** [GET] of [app/api/history/route.ts] *)
Module HistoryRoute.

Definition GET (apiKey : option jsstring) (answer : gateway_reply json)
  : option gateway_call * route_result :=
  (Some
     (mkGatewayCall "GET" (gateway ++ lit "/history") (key_or_empty apiKey)
        NoPayload),
   match answer with
   | GAnswered status data =>
       if ok_status status then mkResult 200 (BData data)
       else mkResult 500 (BError (lit "Failed to fetch history"))
   | GUnreadable _ _ | GRejected _ =>
       mkResult 500 (BError (lit "Failed to fetch history"))
   end).

End HistoryRoute.

(** [GET] of [app/api/history/[historyItemId]/audio/route.ts] *)
Module HistoryAudioRoute.

Definition attachment (historyItemId : jsstring) : jsstring :=
  lit "attachment; filename=" ++ dquote ++ lit "tts-" ++ historyItemId
    ++ lit ".mp3" ++ dquote.

Definition GET (apiKey : option jsstring) (historyItemId : jsstring)
  (answer : gateway_reply bytes) : option gateway_call * route_result :=
  (Some
     (mkGatewayCall "GET"
        (gateway ++ lit "/history/" ++ historyItemId ++ lit "/audio")
        (key_or_empty apiKey) NoPayload),
   match answer with
   | GAnswered status arrayBuffer =>
       if ok_status status then
         mkResult 200
           (BAudioFile "audio/mpeg" (attachment historyItemId) arrayBuffer)
       else mkResult 500 (BError (lit "Failed to fetch audio"))
   | GUnreadable _ _ | GRejected _ =>
       mkResult 500 (BError (lit "Failed to fetch audio"))
   end).

End HistoryAudioRoute.

(** [GET] of the voices route with [getVoices] of [lib/elevenlabs]: the
    Gateway's JSON, as far as it is read, is its [voices] member. *)
Module VoicesRoute.

Definition getVoices (apiKey : jsstring) (answer : gateway_reply (list Voice))
  : gateway_call * option (list Voice) :=
  (mkGatewayCall "GET" (gateway ++ lit "/voices") apiKey NoPayload,
   match answer with
   | GAnswered status voices => if ok_status status then Some voices else None
   | GUnreadable _ _ | GRejected _ => None
   end).

Definition GET (apiKey : option jsstring)
  (answer : gateway_reply (list Voice))
  : option gateway_call * route_result :=
  if truthy (field_or apiKey []) then
    let '(call, voices) := getVoices (field_or apiKey []) answer in
    (Some call,
     match voices with
     | Some voices => mkResult 200 (BVoices voices)
     | None => mkResult 500 (BError (lit "Failed to fetch voices"))
     end)
  else (None, mkResult 500 (BError (lit "Failed to fetch voices"))).

End VoicesRoute.

(** The Gateway's JSON for [/voices/add], as far as the routes read it:
    [detail?.message] and [voice_id]. *)
Record add_voice_json : Type := mkAddVoiceJson {
  detail_message : option jsstring;
  new_voice_id : option jsstring
}.

(** What the two clone routes do once the form is accepted. *)
Definition relay_clone (answer : gateway_reply add_voice_json)
  : route_result :=
  match answer with
  | GRejected message =>
      mkResult 500 (BError (str_or message (lit "Failed to clone voice")))
  | GUnreadable _ message =>
      mkResult 500 (BError (str_or message (lit "Failed to clone voice")))
  | GAnswered status data =>
      if ok_status status then
        if truthy (field_or (new_voice_id data) []) then
          mkResult 200 (BCloned (field_or (new_voice_id data) []))
        else mkResult 500 (BError (lit "Invalid response from ElevenLabs API"))
      else
        mkResult status
          (BError
             (field_or (detail_message data) (lit "Failed to clone voice")))
  end.

(** [POST] of the clone route that reads the samples under ["files"]. *)
Module CloneVoiceRoute.

Definition POST (apiKey : option jsstring) (form : parsed_form)
  (answer : gateway_reply add_voice_json)
  : option gateway_call * route_result :=
  match form with
  | NoForm message =>
      (None,
       mkResult 500 (BError (str_or message (lit "Failed to clone voice"))))
  | Form formData =>
      let files := form_getAll (lit "files") formData in
      let name := form_get (lit "name") formData in
      match name with
      | Some name_value =>
          if match files with [] => true | _ => false end
             || negb (entry_truthy name)
          then
            (None,
             mkResult 400
               (BError (lit "You must upload at least one audio sample.")))
          else
            (Some
               (mkGatewayCall "POST" (gateway ++ lit "/voices/add")
                  (key_asserted apiKey)
                  (FormPayload
                     ((lit "name", name_value)
                        :: map (fun file => (lit "files", file)) files))),
             relay_clone answer)
      | None =>
          (None,
           mkResult 400
             (BError (lit "You must upload at least one audio sample.")))
      end
  end.

End CloneVoiceRoute.

(** [POST] of the clone route that reads one sample under ["file"] and
    passes the form on as it came. *)
Module CloneVoiceFileRoute.

Definition POST (apiKey : option jsstring) (form : parsed_form)
  (answer : gateway_reply add_voice_json)
  : option gateway_call * route_result :=
  match form with
  | NoForm message =>
      (None,
       mkResult 500 (BError (str_or message (lit "Failed to clone voice"))))
  | Form formData =>
      let file := form_get (lit "file") formData in
      let name := form_get (lit "name") formData in
      if negb (entry_truthy file) || negb (entry_truthy name) then
        (None, mkResult 400 (BError (lit "Missing required fields")))
      else
        (Some
           (mkGatewayCall "POST" (gateway ++ lit "/voices/add")
              (key_asserted apiKey) (FormPayload formData)),
         relay_clone answer)
  end.

End CloneVoiceFileRoute.

(** ** Client and routes together *)

(** Whether the Gateway answered with an [ok] status. *)
Definition gateway_ok {B : Type} (answer : gateway_reply B) : bool :=
  match answer with
  | GAnswered status _ | GUnreadable status _ => ok_status status
  | GRejected _ => false
  end.

(** The form [handleVoiceCloning] builds: the name, then the files. *)
Definition client_form (name : jsstring) (files : list File) : FormData :=
  (lit "name", FText name)
    :: map (fun file => (lit "files", FBlob file)) files.

(** The form of a request body of the component. *)
Definition form_of (payload : request_body) : parsed_form :=
  match payload with
  | CloneForm name files => Form (client_form name files)
  | _ => NoForm (lit "Content-Type was not multipart/form-data")
  end.


(** [JSON.stringify] of a number member: [undefined] leaves the key out. *)
Definition json_of_number (v : number) : option json :=
  option_map JNumber v.

(** [await request.json()] on a request body of the component: the members
    of the text-to-speech JSON, and a failure for a body that is not JSON. *)
Definition tts_body_of (payload : request_body) : option tts_body :=
  match payload with
  | TtsJson text voiceId stability similarity_boost style use_speaker_boost =>
      Some
        (mkTtsBody (Some (JString text)) (Some (JString voiceId)) None
           (json_of_number stability) (json_of_number similarity_boost)
           (json_of_number style) (Some (JBool use_speaker_boost)))
  | _ => None
  end.

(** An answer the component can get for a response of the text-to-speech
    route: the bytes of an audio response, [ok] by the status otherwise. *)
Inductive tts_served : http_result -> reply bytes -> Prop :=
| served_audio content_type content_length payload :
    tts_served (AudioResponse content_type content_length payload)
      (success payload)
| served_error status error unread :
    tts_served (JsonError status error)
      (Response (mkResponse (ok_status status) unread)).

(** * The rest of the page *)

(** Hooks of [TTSApp] beside [State], the hooks of the two child components
    and the part of the document that the download helpers use make up the
    page around the [World] of [TTSApp]. *)

(** ** Data of the child components *)

Record ItemSettings : Type := mkItemSettings {
  i_similarity_boost : number;
  i_stability : number;
  i_style : number;
  i_use_speaker_boost : bool
}.

(** [HistoryItem] of [elevenlabs-history.tsx] *)
Record HistoryItem : Type := mkHistoryItem {
  history_item_id : jsstring;
  i_text : jsstring;
  i_voice_id : jsstring;
  i_voice_name : jsstring;
  date_unix : N;
  character_count_change_from : N;
  character_count_change_to : N;
  i_content_type : jsstring;
  i_state : jsstring;
  i_settings : ItemSettings
}.

Inductive dialog_type : Type :=
| Details
| Rename.

(** [DialogState] of the voice selector *)
Record DialogState : Type := mkDialogState {
  d_type : dialog_type;
  d_voiceId : option jsstring
}.

(** [ttsApp]: the world of [TTSApp].  [isLoadingVoices], [speed], [pitch]:
    the hooks beside [State] that [fetchVoices] and [resetSettings] set.
    [historyItems], [history_isLoading] (the [isLoading] of
    [HistoryComponent]), [expandedItems] (a [Set], kept in insertion order):
    the hooks of the history.  [deleteVoiceId], [dialog], [newVoiceName],
    [isDeleting]: the hooks of the voice selector that its delete and rename
    handlers use.  [object_urls]: the object URLs that are registered, with
    their blobs.  [body_children]: the elements that the helpers appended
    to [document.body]. *)
Record Page : Type := mkPage {
  ttsApp : World;
  isLoadingVoices : bool;
  speed : list number;
  pitch : list number;
  historyItems : list HistoryItem;
  history_isLoading : bool;
  expandedItems : list jsstring;
  deleteVoiceId : option jsstring;
  dialog : DialogState;
  newVoiceName : jsstring;
  isDeleting : bool;
  object_urls : list (nat * Blob);
  next_url : nat;
  body_children : list nat;
  next_element : nat
}.

Definition with_ttsApp (f : World -> World) (p : Page) : Page :=
  mkPage (f (ttsApp p)) (isLoadingVoices p) (speed p) (pitch p) (historyItems p)
    (history_isLoading p) (expandedItems p) (deleteVoiceId p) (dialog p)
    (newVoiceName p) (isDeleting p) (object_urls p) (next_url p)
    (body_children p) (next_element p).

Definition with_isLoadingVoices (f : bool -> bool) (p : Page) : Page :=
  mkPage (ttsApp p) (f (isLoadingVoices p)) (speed p) (pitch p) (historyItems p)
    (history_isLoading p) (expandedItems p) (deleteVoiceId p) (dialog p)
    (newVoiceName p) (isDeleting p) (object_urls p) (next_url p)
    (body_children p) (next_element p).

Definition with_speed (f : list number -> list number) (p : Page) : Page :=
  mkPage (ttsApp p) (isLoadingVoices p) (f (speed p)) (pitch p) (historyItems p)
    (history_isLoading p) (expandedItems p) (deleteVoiceId p) (dialog p)
    (newVoiceName p) (isDeleting p) (object_urls p) (next_url p)
    (body_children p) (next_element p).

Definition with_pitch (f : list number -> list number) (p : Page) : Page :=
  mkPage (ttsApp p) (isLoadingVoices p) (speed p) (f (pitch p)) (historyItems p)
    (history_isLoading p) (expandedItems p) (deleteVoiceId p) (dialog p)
    (newVoiceName p) (isDeleting p) (object_urls p) (next_url p)
    (body_children p) (next_element p).

Definition with_historyItems (f : list HistoryItem -> list HistoryItem)
  (p : Page) : Page :=
  mkPage (ttsApp p) (isLoadingVoices p) (speed p) (pitch p) (f (historyItems p))
    (history_isLoading p) (expandedItems p) (deleteVoiceId p) (dialog p)
    (newVoiceName p) (isDeleting p) (object_urls p) (next_url p)
    (body_children p) (next_element p).

Definition with_history_isLoading (f : bool -> bool) (p : Page) : Page :=
  mkPage (ttsApp p) (isLoadingVoices p) (speed p) (pitch p) (historyItems p)
    (f (history_isLoading p)) (expandedItems p) (deleteVoiceId p) (dialog p)
    (newVoiceName p) (isDeleting p) (object_urls p) (next_url p)
    (body_children p) (next_element p).

Definition with_expandedItems (f : list jsstring -> list jsstring)
  (p : Page) : Page :=
  mkPage (ttsApp p) (isLoadingVoices p) (speed p) (pitch p) (historyItems p)
    (history_isLoading p) (f (expandedItems p)) (deleteVoiceId p) (dialog p)
    (newVoiceName p) (isDeleting p) (object_urls p) (next_url p)
    (body_children p) (next_element p).

Definition with_deleteVoiceId (f : option jsstring -> option jsstring)
  (p : Page) : Page :=
  mkPage (ttsApp p) (isLoadingVoices p) (speed p) (pitch p) (historyItems p)
    (history_isLoading p) (expandedItems p) (f (deleteVoiceId p)) (dialog p)
    (newVoiceName p) (isDeleting p) (object_urls p) (next_url p)
    (body_children p) (next_element p).

Definition with_dialog (f : DialogState -> DialogState) (p : Page) : Page :=
  mkPage (ttsApp p) (isLoadingVoices p) (speed p) (pitch p) (historyItems p)
    (history_isLoading p) (expandedItems p) (deleteVoiceId p) (f (dialog p))
    (newVoiceName p) (isDeleting p) (object_urls p) (next_url p)
    (body_children p) (next_element p).

Definition with_newVoiceName (f : jsstring -> jsstring) (p : Page) : Page :=
  mkPage (ttsApp p) (isLoadingVoices p) (speed p) (pitch p) (historyItems p)
    (history_isLoading p) (expandedItems p) (deleteVoiceId p) (dialog p)
    (f (newVoiceName p)) (isDeleting p) (object_urls p) (next_url p)
    (body_children p) (next_element p).

Definition with_isDeleting (f : bool -> bool) (p : Page) : Page :=
  mkPage (ttsApp p) (isLoadingVoices p) (speed p) (pitch p) (historyItems p)
    (history_isLoading p) (expandedItems p) (deleteVoiceId p) (dialog p)
    (newVoiceName p) (f (isDeleting p)) (object_urls p) (next_url p)
    (body_children p) (next_element p).

Definition with_object_urls (f : list (nat * Blob) -> list (nat * Blob))
  (p : Page) : Page :=
  mkPage (ttsApp p) (isLoadingVoices p) (speed p) (pitch p) (historyItems p)
    (history_isLoading p) (expandedItems p) (deleteVoiceId p) (dialog p)
    (newVoiceName p) (isDeleting p) (f (object_urls p)) (next_url p)
    (body_children p) (next_element p).

Definition with_next_url (f : nat -> nat) (p : Page) : Page :=
  mkPage (ttsApp p) (isLoadingVoices p) (speed p) (pitch p) (historyItems p)
    (history_isLoading p) (expandedItems p) (deleteVoiceId p) (dialog p)
    (newVoiceName p) (isDeleting p) (object_urls p) (f (next_url p))
    (body_children p) (next_element p).

Definition with_body_children (f : list nat -> list nat) (p : Page) : Page :=
  mkPage (ttsApp p) (isLoadingVoices p) (speed p) (pitch p) (historyItems p)
    (history_isLoading p) (expandedItems p) (deleteVoiceId p) (dialog p)
    (newVoiceName p) (isDeleting p) (object_urls p) (next_url p)
    (f (body_children p)) (next_element p).

Definition with_next_element (f : nat -> nat) (p : Page) : Page :=
  mkPage (ttsApp p) (isLoadingVoices p) (speed p) (pitch p) (historyItems p)
    (history_isLoading p) (expandedItems p) (deleteVoiceId p) (dialog p)
    (newVoiceName p) (isDeleting p) (object_urls p) (next_url p)
    (body_children p) (f (next_element p)).

(** ** Effects of the page *)

(** The effects of [TTSApp] as before, the rename request with its JSON
    body [{name}], and the operations on object URLs and on the document.
    [EClick download content] is the click on an anchor whose [href] is an
    object URL: [content] is the blob the URL stands for at that moment, if
    it is registered, and [download] the file name offered to the user. *)
Inductive page_effect : Type :=
| Core (e : effect)
| EFetchName (url : jsstring) (name : jsstring)
| ECreateObjectURL (url : nat) (content : Blob)
| ERevokeObjectURL (url : nat)
| ECreateElement (a : nat)
| EAppendChild (a : nat)
| ERemoveChild (a : nat)
| EClick (download : jsstring) (content : option Blob).

(** One run of a handler on the page. *)
Record page_run (A : Type) : Type := mkPageRun {
  p_value : outcome A;
  p_after : Page;
  p_effects : list page_effect
}.

Arguments mkPageRun {A} p_value p_after p_effects.
Arguments p_value {A} p.
Arguments p_after {A} p.
Arguments p_effects {A} p.

Definition P (A : Type) : Type := Page -> page_run A.

Definition page_ret {A : Type} (a : A) : P A := fun p => mkPageRun (Ret a) p [].

Definition page_throw {A : Type} (message : jsstring) : P A :=
  fun p => mkPageRun (Throw message) p [].

Definition page_bind {A B : Type} (c : P A) (k : A -> P B) : P B :=
  fun p =>
    let r := c p in
    match p_value r with
    | Ret a =>
        let r' := k a (p_after r) in
        mkPageRun (p_value r') (p_after r') (p_effects r ++ p_effects r')
    | Throw m => mkPageRun (Throw m) (p_after r) (p_effects r)
    end.

(** [try { body } catch (error) { handler }] *)
Definition page_try_catch {A : Type} (body : P A) (handler : jsstring -> P A)
  : P A :=
  fun p =>
    let r := body p in
    match p_value r with
    | Ret a => r
    | Throw m =>
        let r' := handler m (p_after r) in
        mkPageRun (p_value r') (p_after r') (p_effects r ++ p_effects r')
    end.

(** [try { body } finally { cleanup }] *)
Definition page_finally {A : Type} (body : P A) (cleanup : P unit) : P A :=
  fun p =>
    let r := body p in
    let r' := cleanup (p_after r) in
    mkPageRun
      match p_value r' with
      | Ret _ => p_value r
      | Throw m => Throw m
      end
      (p_after r') (p_effects r ++ p_effects r').

Definition page_try_catch_finally {A : Type}
  (body : P A) (handler : jsstring -> P A) (cleanup : P unit) : P A :=
  page_finally (page_try_catch body handler) cleanup.

Definition page_when (b : bool) (c : P unit) : P unit :=
  if b then c else page_ret tt.

(** A handler of [TTSApp] run on the page: it acts on [ttsApp], and its
    effects are the page's. *)
Definition lift {A : Type} (c : M A) : P A :=
  fun p =>
    let r := c (ttsApp p) in
    mkPageRun (value r) (with_ttsApp (fun _ => after r) p)
      (map Core (effects r)).

Definition page_emit (e : page_effect) : P unit :=
  fun p => mkPageRun (Ret tt) p [e].

(** A hook setter of the page. *)
Definition set_page_hook (hook : string) (f : Page -> Page) : P unit :=
  fun p => mkPageRun (Ret tt) (f p) [Core (ESetState hook)].

Declare Scope page_scope.
Delimit Scope page_scope with page.
Notation "x <- c ;; k" := (page_bind c (fun x => k))
  (at level 61, c at next level, right associativity) : page_scope.
Notation "c ;; k" := (page_bind c (fun _ => k))
  (at level 61, right associativity) : page_scope.

(** *** Setters *)

Definition setIsLoadingVoices (v : bool) : P unit :=
  set_page_hook "isLoadingVoices" (with_isLoadingVoices (fun _ => v)).

Definition setSpeed (v : list number) : P unit :=
  set_page_hook "speed" (with_speed (fun _ => v)).

Definition setPitch (v : list number) : P unit :=
  set_page_hook "pitch" (with_pitch (fun _ => v)).

Definition setHistoryItems (v : list HistoryItem) : P unit :=
  set_page_hook "historyItems" (with_historyItems (fun _ => v)).

Definition setHistoryItems_by (f : list HistoryItem -> list HistoryItem)
  : P unit :=
  set_page_hook "historyItems" (with_historyItems f).

(** [setIsLoading] of [HistoryComponent] *)
Definition setHistoryIsLoading (v : bool) : P unit :=
  set_page_hook "isLoading" (with_history_isLoading (fun _ => v)).

Definition setExpandedItems_by (f : list jsstring -> list jsstring)
  : P unit :=
  set_page_hook "expandedItems" (with_expandedItems f).

Definition setDeleteVoiceId (v : option jsstring) : P unit :=
  set_page_hook "deleteVoiceId" (with_deleteVoiceId (fun _ => v)).

Definition setDialog (v : DialogState) : P unit :=
  set_page_hook "dialog" (with_dialog (fun _ => v)).

Definition setNewVoiceName (v : jsstring) : P unit :=
  set_page_hook "newVoiceName" (with_newVoiceName (fun _ => v)).

Definition setIsDeleting (v : bool) : P unit :=
  set_page_hook "isDeleting" (with_isDeleting (fun _ => v)).

(** *** Object URLs and the document *)

(** [URL.createObjectURL(blob)] *)
Definition createObjectURL (content : Blob) : P nat :=
  fun p =>
    mkPageRun (Ret (next_url p))
      (with_object_urls (cons (next_url p, content))
         (with_next_url S p))
      [ECreateObjectURL (next_url p) content].

(** [URL.revokeObjectURL(url)] *)
Definition revokeObjectURL (url : nat) : P unit :=
  fun p =>
    mkPageRun (Ret tt)
      (with_object_urls
         (filter (fun entry => negb (Nat.eqb (fst entry) url))) p)
      [ERevokeObjectURL url].

(** The blob an object URL stands for. *)
Definition resolve (url : nat) (p : Page) : option Blob :=
  option_map snd (find (fun entry => Nat.eqb (fst entry) url) (object_urls p)).

(** [document.createElement("a")] *)
Definition createElement_a : P nat :=
  fun p =>
    mkPageRun (Ret (next_element p)) (with_next_element S p)
      [ECreateElement (next_element p)].

(** [document.body.appendChild(a)] *)
Definition appendChild (a : nat) : P unit :=
  fun p =>
    mkPageRun (Ret tt)
      (with_body_children
         (fun children => remove Nat.eq_dec a children ++ [a]) p)
      [EAppendChild a].

(** [document.body.removeChild(a)]: it throws when [a] is not a child. *)
Definition removeChild (a : nat) : P unit :=
  fun p =>
    if existsb (Nat.eqb a) (body_children p) then
      mkPageRun (Ret tt) (with_body_children (remove Nat.eq_dec a) p)
        [ERemoveChild a]
    else
      mkPageRun
        (Throw (lit "The node to be removed is not a child of this node.")) p
        [].

(** [a.click()] on an anchor with [a.href = url] and
    [a.download = download]. *)
Definition click (url : nat) (download : jsstring) : P unit :=
  fun p => mkPageRun (Ret tt) p [EClick download (resolve url p)].

#[local] Open Scope page_scope.

(** ** The remaining handlers of [TTSApp] *)

Definition fetch_voices_failed_toast : Toast :=
  mkToast (lit "Error") (lit "Failed to fetch voices. Please try again.")
    true.

(** [fetchVoices]; [r] is the render that created the closure. *)
Definition fetchVoices (r : State) (answer : reply (list Voice)) : P unit :=
  page_try_catch_finally
    (setIsLoadingVoices true ;;
     response <- lift (fetch "GET" (lit "/api/voices") NoBody answer) ;;
     page_when (negb (ok response))
       (page_throw (lit "Failed to fetch voices")) ;;
     voicesData <- lift (read_body response) ;;
     lift (setVoices voicesData) ;;
     match voicesData with
     | first :: _ =>
         page_when (negb (truthy (selectedVoice r)))
           (lift (setSelectedVoice (voice_id first)))
     | [] => page_ret tt
     end)
    (fun _ =>
       lift (console_error "Error fetching voices:") ;;
       lift (toast fetch_voices_failed_toast))
    (setIsLoadingVoices false).

(** [resetSettings] *)
Definition resetSettings : P unit :=
  lift (setStability [num (1 # 2)]) ;;
  lift (setSimilarity [num (3 # 4)]) ;;
  setSpeed [num (1 # 1)] ;;
  setPitch [num (0 # 1)] ;;
  lift (setSelectedPreset None) ;;
  lift (toast (mkToast (lit "Settings Reset")
                 (lit "All voice settings have been reset to default values.")
                 false)).

(** [exportAudioBlob] of [utils/audioUtils] *)
Definition exportAudioBlob (audioBlob : Blob) (filename : jsstring)
  : P unit :=
  url <- createObjectURL audioBlob ;;
  a <- createElement_a ;;
  appendChild a ;;
  click url filename ;;
  revokeObjectURL url ;;
  removeChild a.

(** [handleExportAudio]; [toISOString] is [Date.prototype.toISOString] on the
    time of the call. *)
Definition handleExportAudio (r : State) (toISOString : N -> jsstring)
  : P unit :=
  match savedAudio r with
  | None =>
      lift (toast (mkToast (lit "Error") (lit "No audio available to export")
                     true))
  | Some saved =>
      now <- lift Date_now ;;
      let filename :=
        lit "tts-" ++ firstn 10 (toISOString now) ++ lit ".mp3" in
      exportAudioBlob (blob saved) filename ;;
      lift (toast (mkToast (lit "Success")
                     (lit "Audio file downloaded successfully") false))
  end.

(** [handleVoicesUpdated] *)
Definition handleVoicesUpdated (updatedVoices : list Voice) : P unit :=
  lift (setVoices updatedVoices).

(** ** [HistoryComponent] *)

(** The JSON of [/api/history] as far as it is read: its [history] member,
    [None] when it is missing or [null]. *)
Record history_json : Type := mkHistoryJson {
  history : option (list HistoryItem)
}.

Definition history_error_toast (message : string) : Toast :=
  mkToast (lit "Error") (lit message) true.

(** [fetchHistory] *)
Definition fetchHistory (answer : reply history_json) : P unit :=
  page_try_catch_finally
    (setHistoryIsLoading true ;;
     response <- lift (fetch "GET" (lit "/api/history") NoBody answer) ;;
     page_when (negb (ok response))
       (page_throw (lit "Failed to fetch history")) ;;
     data <- lift (read_body response) ;;
     setHistoryItems
       match history data with
       | Some items => items
       | None => []
       end)
    (fun _ =>
       lift (console_error "Error fetching history:") ;;
       lift (toast (history_error_toast "Failed to fetch history items")))
    (setHistoryIsLoading false).

(** [Set.prototype.has], [delete] and [add] on a set kept in insertion
    order. *)
Definition set_has (id : jsstring) (s : list jsstring) : bool :=
  existsb (str_eqb id) s.

Definition set_delete (id : jsstring) (s : list jsstring) : list jsstring :=
  filter (fun x => negb (str_eqb id x)) s.

Definition set_add (id : jsstring) (s : list jsstring) : list jsstring :=
  if set_has id s then s else s ++ [id].

(** The updater of [toggleExpand]. *)
Definition toggled (id : jsstring) (prev : list jsstring) : list jsstring :=
  let newSet := prev in
  if set_has id newSet then set_delete id newSet else set_add id newSet.

(** [toggleExpand] *)
Definition toggleExpand (id : jsstring) : P unit :=
  setExpandedItems_by (toggled id).

(** [handleDeleteHistoryItem] *)
Definition handleDeleteHistoryItem (historyItemId : jsstring)
  (answer : reply unit) : P unit :=
  page_try_catch
    (response <- lift (fetch "DELETE" (lit "/api/history/" ++ historyItemId)
                         NoBody answer) ;;
     page_when (negb (ok response))
       (page_throw (lit "Failed to delete history item")) ;;
     setHistoryItems_by
       (filter
          (fun item => negb (str_eqb (history_item_id item) historyItemId))) ;;
     lift (toast (mkToast (lit "Success")
                    (lit "History item deleted successfully") false)))
    (fun _ =>
       lift (console_error "Error deleting history item:") ;;
       lift (toast (history_error_toast "Failed to delete history item"))).


(** ** [EnhancedVoiceSelector] *)

(** [clonedVoices], the voices the selector offers. *)
Definition clonedVoices (voices : list Voice) : list Voice :=
  filter (fun voice => str_eqb (voice_category voice) (lit "cloned")) voices.

(** [await fetch(url, {method: "POST", body: JSON.stringify({name})})] *)
Definition fetch_name {B : Type} (url name : jsstring) (answer : reply B)
  : P (response B) :=
  page_emit (EFetchName url name) ;;
  match answer with
  | Rejected m => page_throw m
  | Response r => page_ret r
  end.

(** The voices after a rename: [{...voice, name}] for the voice with the
    id, the others as they are. *)
Definition renamed (voiceId name : jsstring) (voices : list Voice)
  : list Voice :=
  map
    (fun voice =>
       if str_eqb (voice_id voice) voiceId then
         mkVoice (voice_id voice) name (voice_category voice)
       else voice)
    voices.

Definition rename_failed_toast : Toast :=
  mkToast (lit "Error") (lit "Failed to rename voice. Please try again.")
    true.

(** [handleRename]; [r] is the render of the selector and of [TTSApp] that
    created the closure: [voices] is the prop of that render, and
    [onVoicesUpdated] is [handleVoicesUpdated]. *)
Definition handleRename (r : Page) (answer : reply unit) : P unit :=
  if negb (truthy (field_or (d_voiceId (dialog r)) []))
     || is_blank (newVoiceName r)
  then page_ret tt
  else
    let voiceId := field_or (d_voiceId (dialog r)) [] in
    page_try_catch
      (response <- fetch_name
                     (lit "/api/clone-voice/" ++ voiceId ++ lit "/name")
                     (newVoiceName r) answer ;;
       page_when (negb (ok response))
         (page_throw (lit "Failed to rename voice")) ;;
       let updatedVoices :=
         renamed voiceId (newVoiceName r) (voices (ui (ttsApp r))) in
       handleVoicesUpdated updatedVoices ;;
       lift (toast (mkToast (lit "Success") (lit "Voice renamed successfully")
                      false)) ;;
       setDialog (mkDialogState Details None) ;;
       setNewVoiceName [])
      (fun _ =>
         lift (console_error "Error renaming voice:") ;;
         lift (toast rename_failed_toast)).

(** [handleDelete]; [onDeleteVoice] is [handleDeleteVoice] of the same
    render. *)
Definition handleDelete (r : Page) (answer : reply unit) : P unit :=
  if negb (truthy (field_or (deleteVoiceId r) [])) then page_ret tt
  else
    let voiceId := field_or (deleteVoiceId r) [] in
    setIsDeleting true ;;
    page_finally
      (lift (handleDeleteVoice (ui (ttsApp r)) voiceId answer))
      (setIsDeleting false ;;
       setDeleteVoiceId None).

(** The body [handleRename] sends, as the rename route parses it. *)
Definition name_json_of (e : page_effect) : option (option json) :=
  match e with
  | EFetchName _ name => Some (Some (JString name))
  | _ => None
  end.

(** What the component reads of a thin route's response. *)
Definition answer_of {B : Type} (res : route_result) (unread : option B)
  : reply B :=
  Response (mkResponse (ok_status (r_status res)) unread).

(** The page right after loading: [isLoadingVoices] starts true. *)
Definition initial_page (now : N) : Page :=
  mkPage (initial_world now) true [num (1 # 1)] [num (0 # 1)] [] false []
    None (mkDialogState Details None) [] false [] 0 [] 0.

(** What [fetchVoices] reads of the voices route's response. *)
Definition voices_answer_of (res : route_result) : reply (list Voice) :=
  Response
    (mkResponse (ok_status (r_status res))
       match r_body res with
       | BVoices voices => Some voices
       | _ => None
       end).

(** The requests among the effects of the page. *)
Definition is_page_fetch (e : page_effect) : bool :=
  match e with
  | Core e => is_fetch e
  | EFetchName _ _ => true
  | _ => false
  end.

(** The downloads among the effects of the page. *)
Definition is_click (e : page_effect) : bool :=
  match e with
  | EClick _ _ => true
  | _ => false
  end.

(** The operations on object URLs and on the document. *)
Definition is_document_op (e : page_effect) : bool :=
  match e with
  | Core _ | EFetchName _ _ => false
  | _ => true
  end.

(** Object URLs and elements are numbered as they are created: the ones in
    use are below the next number. *)
Definition dom_ok (p : Page) : bool :=
  forallb (fun a => a <? next_element p)%nat (body_children p)
  && forallb (fun entry => fst entry <? next_url p)%nat (object_urls p).



(** Pages used in the examples. *)
Module PageSample.

(** The page around a world of [TTSApp], its other hooks as at the start. *)
Definition page_of (w : World) : Page :=
  with_ttsApp (fun _ => w) (initial_page (clock w)).

(** The rename dialog, open for the voice [voiceId] with [name] typed. *)
Definition renaming (voiceId name : jsstring) (p : Page) : Page :=
  with_dialog (fun _ => mkDialogState Rename (Some voiceId))
    (with_newVoiceName (fun _ => name) p).

(** The delete dialog, open for the voice [voiceId]. *)
Definition deleting (voiceId : jsstring) (p : Page) : Page :=
  with_deleteVoiceId (fun _ => Some voiceId) p.

End PageSample.

(** * Properties *)

(** ** Strings *)

Lemma str_eqb_refl (a : jsstring) : str_eqb a a = true.
Proof.
  induction a as [| x a IH]; simpl; [reflexivity |].
  now rewrite N.eqb_refl, IH.
Qed.

Lemma str_eqb_eq (a b : jsstring) : str_eqb a b = true <-> a = b.
Proof.
  split; [| intros ->; apply str_eqb_refl].
  revert b; induction a as [| x a IH]; intros [| y b]; simpl;
    try discriminate; [reflexivity |].
  intros H; apply andb_prop in H as [Hx Hr].
  apply N.eqb_eq in Hx; apply IH in Hr; congruence.
Qed.

Lemma str_eqb_neq (a b : jsstring) : str_eqb a b = false <-> a <> b.
Proof.
  rewrite <- str_eqb_eq; destruct (str_eqb a b); split; congruence.
Qed.

Lemma drop_while_nil (p : N -> bool) (s : jsstring) :
  drop_while p s = [] <-> forallb p s = true.
Proof.
  induction s as [| c s IH]; simpl; [tauto |].
  destruct (p c); simpl; [exact IH | split; discriminate].
Qed.

(** What [drop_while] leaves starts with a character that fails the test. *)
Lemma drop_while_head (p : N -> bool) (s : jsstring) c rest :
  drop_while p s = c :: rest -> p c = false.
Proof.
  induction s as [| x s IH]; simpl; [discriminate |].
  destruct (p x) eqn:E; [exact IH | congruence].
Qed.

Lemma trim_nil (s : jsstring) :
  trim s = [] <-> forallb is_white_space s = true.
Proof.
  unfold trim; split.
  - intros H.
    apply (f_equal (@rev N)) in H; rewrite rev_involutive in H; simpl in H.
    apply drop_while_nil in H.
    destruct (drop_while is_white_space s) as [| c rest] eqn:E.
    + now apply drop_while_nil.
    + apply drop_while_head in E.
      rewrite forallb_forall in H.
      specialize (H c); rewrite <- in_rev in H.
      rewrite H in E; [discriminate | now left].
  - intros H; apply drop_while_nil in H; now rewrite H.
Qed.

(** [!text.trim()] holds exactly for the empty and the whitespace-only
    strings. *)
Lemma is_blank_spec (s : jsstring) :
  is_blank s = true <-> forallb is_white_space s = true.
Proof.
  rewrite <- trim_nil; unfold is_blank.
  destruct (trim s); simpl; split; congruence.
Qed.

Lemma is_blank_false (s : jsstring) :
  is_blank s = false <-> forallb is_white_space s = false.
Proof.
  pose proof (is_blank_spec s) as H.
  destruct (is_blank s), (forallb is_white_space s); intuition congruence.
Qed.

Example trim_inner_spaces : trim (lit "  a b  ") = lit "a b".
Proof. reflexivity. Qed.

Example blank_no_break_space : is_blank [160; 9; 32; 8203] = false
                               /\ is_blank [160; 9; 32; 65279] = true.
Proof. split; reflexivity. Qed.

Example toString_sample : toString 1700000000000 = lit "1700000000000".
Proof. reflexivity. Qed.

(** ** Local validation of a synthesis *)

Lemma synthesize_blank (r : State) answer decodable w :
  is_blank (text r) = true ->
  synthesizeSpeech r answer decodable w
  = mkRun (Ret tt) w [EToast validation_toast].
Proof.
  intros H; unfold synthesizeSpeech; rewrite H; reflexivity.
Qed.

Lemma stopSpeech_no_fetch w : no_fetch (effects (stopSpeech w)) = true.
Proof.
  destruct w as [u sr ar ac gn au nn iv nt ck]; destruct sr; reflexivity.
Qed.

(** The guard of the [Generate] button covers the blank text and the unset
    voice. *)
Lemma generate_disabled (r : State) :
  forallb is_white_space (text r) = true \/ selectedVoice r = [] ->
  isLoading r || is_blank (text r) || negb (truthy (selectedVoice r)) = true.
Proof.
  intros [H | H].
  - apply is_blank_spec in H; rewrite H; apply orb_true_iff; left;
      apply orb_true_r.
  - rewrite H; apply orb_true_r.
Qed.

(** C1, as stated, fails: with text entered and no voice selected,
    [synthesizeSpeech] itself raises no validation error and sends the
    request to [/api/tts], with an empty [voiceId]. *)
Lemma synthesize_unset_voice_issues_fetch :
  selectedVoice Sample.no_voice = []
  /\ no_fetch
       (effects
          (synthesizeSpeech Sample.no_voice (success Sample.audio) true
             (Sample.world_of Sample.no_voice))) = false
  /\ In (EFetch "POST" (lit "/api/tts")
           (TtsJson (lit "Hello world") [] (num (1 # 2)) (num (7 # 10))
              (num (0 # 1)) true))
       (effects
          (synthesizeSpeech Sample.no_voice (success Sample.audio) true
             (Sample.world_of Sample.no_voice)))
  /\ ~ In (EToast validation_toast)
       (effects
          (synthesizeSpeech Sample.no_voice (success Sample.audio) true
             (Sample.world_of Sample.no_voice))).
Proof.
  repeat split; try reflexivity.
  - vm_compute; auto 10.
  - vm_compute; intuition discriminate.
Qed.

(** C1, amended: when the text is empty or whitespace-only, or no voice is
    selected, a click on the action button issues no network call (the
    [Generate] button is disabled); and for an empty or whitespace-only text
    [synthesizeSpeech] itself, whatever the voice, only shows the validation
    notification: it returns before any request and leaves the world as it
    was. *)
Theorem blank_text_or_unset_voice_no_request :
  forall (answer : reply bytes) (decodable : bool) (w : World),
    forallb is_white_space (text (ui w)) = true \/ selectedVoice (ui w) = [] ->
    no_fetch (effects (click_action_button answer decodable w)) = true
    /\ (forallb is_white_space (text (ui w)) = true ->
        forall w',
          synthesizeSpeech (ui w) answer decodable w'
          = mkRun (Ret tt) w' [EToast validation_toast]).
Proof.
  intros answer decodable w H; split.
  - unfold click_action_button.
    destruct (isPlaying (ui w)).
    + destruct (isLoading (ui w)); [reflexivity | apply stopSpeech_no_fetch].
    + rewrite (generate_disabled _ H); reflexivity.
  - intros Hb w'; apply synthesize_blank; now apply is_blank_spec.
Qed.

Lemma blank_text_or_unset_voice_no_request_witness :
  no_fetch
    (effects
       (click_action_button (success Sample.audio) true
          (Sample.world_of Sample.no_voice))) = true
  /\ no_fetch
       (effects
          (click_action_button (success Sample.audio) true
             (Sample.world_of Sample.blank_text))) = true
  /\ synthesizeSpeech Sample.blank_text (success Sample.audio) true
       (Sample.world_of Sample.ready)
     = mkRun (Ret tt) (Sample.world_of Sample.ready) [EToast validation_toast].
Proof.
  split; [| split].
  - apply (blank_text_or_unset_voice_no_request (success Sample.audio) true
             (Sample.world_of Sample.no_voice)).
    right; reflexivity.
  - apply (blank_text_or_unset_voice_no_request (success Sample.audio) true
             (Sample.world_of Sample.blank_text)).
    left; reflexivity.
  - apply (blank_text_or_unset_voice_no_request (success Sample.audio) true
             (Sample.world_of Sample.blank_text));
      [left |]; reflexivity.
Defined.

(** ** A successful synthesis: history, artifact, order of effects *)

Ltac world_cases w :=
  let u := fresh "u" in
  let sr := fresh "held" in
  let ar := fresh "mounted" in
  let ac := fresh "ctx" in
  let gn := fresh "gain" in
  destruct w as [u sr ar ac gn ? ? ? ? ?]; destruct ac, gn, sr.

Section Synthesis.

Variable r : State.
Variable data : bytes.
Variable decodable : bool.
Hypothesis entered : is_blank (text r) = false.

Lemma synthesize_history w :
  audioHistory (ui (after (synthesizeSpeech r (success data) decodable w)))
  = firstn 10 (newHistoryItem r (clock w) :: audioHistory (ui w)).
Proof.
  unfold synthesizeSpeech; rewrite entered.
  world_cases w; destruct decodable; reflexivity.
Qed.

Lemma synthesize_artifact w :
  savedAudio (ui (after (synthesizeSpeech r (success data) decodable w)))
  = Some (artifact r data (clock w)).
Proof.
  unfold synthesizeSpeech; rewrite entered.
  world_cases w; destruct decodable; reflexivity.
Qed.

(** The call itself never throws: the [catch] block absorbs the failure. *)
Lemma synthesize_returns answer w :
  value (synthesizeSpeech r answer decodable w) = Ret tt.
Proof.
  unfold synthesizeSpeech; rewrite entered.
  destruct answer as [m | [[|] [b |]]];
    world_cases w; destruct decodable; reflexivity.
Qed.

End Synthesis.

Lemma firstn_evicts_last {A : Type} (x : A) (recent : list A) (oldest : A) :
  List.length recent = 9%nat ->
  firstn 10 (x :: recent ++ [oldest]) = x :: recent.
Proof.
  intros H.
  change (firstn 10 (x :: recent ++ [oldest]))
    with (x :: firstn 9 (recent ++ [oldest])).
  rewrite <- H, firstn_app, Nat.sub_diag, firstn_all; simpl.
  now rewrite app_nil_r.
Qed.

(** The scenario of the specification: "Hello world" with voice "v1" yields
    one artifact with that text and voice and one entry in front of the
    history, and the effects come in the order of the source. *)
Example hello_world_scenario :
  let run :=
    synthesizeSpeech Sample.ready (success Sample.audio) true
      (Sample.world_of Sample.ready) in
  effects run
  = [ESetState "isLoading"; ESetState "isPlaying"; ECreateContext;
     EFetch "POST" (lit "/api/tts")
       (TtsJson (lit "Hello world") (lit "v1") (num (1 # 2)) (num (7 # 10))
          (num (0 # 1)) true);
     ESetState "savedAudio"; ESetState "audioHistory";
     EDecode Sample.audio; ECreateSource 0; EConnect 0;
     EGain (gain_of (num (50 # 1))); EStart 0;
     EToast (mkToast (lit "Success") (lit "Audio generated successfully!")
               false);
     ESetState "isLoading"]
  /\ savedAudio (ui (after run))
     = Some (mkSavedAudio (mkBlob Sample.audio "audio/mpeg")
               (lit "Hello world") (lit "v1") 1700000000000)
  /\ audioHistory (ui (after run))
     = [mkAudioHistory (lit "1700000000000") (lit "Hello world") (lit "v1")
          (lit "Rachel") 1700000000000 1]
  /\ audible (after run) = [0%nat]
  /\ isLoading (ui (after run)) = false
  /\ isPlaying (ui (after run)) = true.
Proof. repeat split; reflexivity. Qed.

(** Whatever the call does, the history is either left alone or replaced by
    the new entry in front of at most nine of the previous ones. *)
Lemma synthesize_history_cases r answer decodable w :
  let h := audioHistory (ui (after (synthesizeSpeech r answer decodable w))) in
  h = audioHistory (ui w)
  \/ h = firstn 10 (newHistoryItem r (clock w) :: audioHistory (ui w)).
Proof.
  unfold synthesizeSpeech.
  destruct (is_blank (text r)); [now left |].
  destruct answer as [m | [[|] [b |]]];
    world_cases w; destruct decodable; (now left) || (now right).
Qed.

(** C2: a successful synthesis prepends the new entry and keeps the ten most
    recent ones; so the list does not exceed ten entries afterwards, and
    with ten entries present the oldest, which is the last one, is dropped.
    No call of [synthesizeSpeech], successful or not, takes a history of at
    most ten entries beyond ten. *)
Theorem history_prepend_and_truncate :
  forall (r : State) (data : bytes) (decodable : bool) (w : World),
    is_blank (text r) = false ->
    let w' := after (synthesizeSpeech r (success data) decodable w) in
    let entry := newHistoryItem r (clock w) in
    audioHistory (ui w') = firstn 10 (entry :: audioHistory (ui w))
    /\ hd_error (audioHistory (ui w')) = Some entry
    /\ (List.length (audioHistory (ui w')) <= 10)%nat
    /\ (forall recent oldest,
          audioHistory (ui w) = recent ++ [oldest] ->
          List.length recent = 9%nat ->
          audioHistory (ui w') = entry :: recent)
    /\ (forall r0 answer d0 w0,
          (List.length (audioHistory (ui w0)) <= 10)%nat ->
          (List.length
             (audioHistory (ui (after (synthesizeSpeech r0 answer d0 w0))))
           <= 10)%nat).
Proof.
  intros r data decodable w H w' entry.
  assert (E : audioHistory (ui w')
              = firstn 10 (entry :: audioHistory (ui w)))
    by now apply synthesize_history.
  split; [exact E |]; rewrite E; split; [reflexivity |]; split; [| split].
  - apply firstn_le_length.
  - intros recent oldest -> Hlen; now apply firstn_evicts_last.
  - intros r0 answer d0 w0 B.
    destruct (synthesize_history_cases r0 answer d0 w0) as [K | K];
      rewrite K; [exact B | apply firstn_le_length].
Qed.

Lemma history_prepend_and_truncate_witness :
  let w := Sample.world_of Sample.full_history in
  let w' :=
    after (synthesizeSpeech Sample.full_history (success Sample.audio) true w)
  in
  audioHistory (ui w')
  = newHistoryItem Sample.full_history (clock w)
      :: map Sample.entry [10; 9; 8; 7; 6; 5; 4; 3; 2].
Proof.
  apply (history_prepend_and_truncate Sample.full_history Sample.audio true
           (Sample.world_of Sample.full_history));
    reflexivity.
Defined.

(** C4: a successful synthesis writes the artifact once, then the history
    once, and only afterwards touches playback: no source is started before
    the two writes.  Both writes stand whatever the decoding does; when it
    fails, no source is started at all and the failure is only notified. *)
Theorem artifact_then_history_then_playback :
  forall (r : State) (data : bytes) (decodable : bool) (w : World),
    is_blank (text r) = false ->
    let run := synthesizeSpeech r (success data) decodable w in
    exists before rest,
      effects run
      = before ++ ESetState "savedAudio" :: ESetState "audioHistory" :: rest
      /\ forallb (fun e => negb (is_store e || is_start e)) before = true
      /\ forallb (fun e => negb (is_store e)) rest = true
      /\ savedAudio (ui (after run)) = Some (artifact r data (clock w))
      /\ audioHistory (ui (after run))
         = firstn 10 (newHistoryItem r (clock w) :: audioHistory (ui w))
      /\ value run = Ret tt
      /\ (decodable = true -> singletons_paired w ->
          In (EStart (next_node w)) rest)
      /\ (decodable = false ->
          forallb (fun e => negb (is_start e)) rest = true
          /\ (singletons_paired w ->
              In (EToast synthesis_failed_toast) rest)).
Proof.
  intros r data decodable w H run.
  exists (firstn (if audioContext w then 3 else 4) (effects run)),
    (skipn (if audioContext w then 5 else 6) (effects run)).
  subst run.
  rewrite (synthesize_history r data decodable H w),
    (synthesize_artifact r data decodable H w),
    (synthesize_returns r decodable H (success data) w).
  unfold synthesizeSpeech, singletons_paired; rewrite H.
  world_cases w; destruct decodable; cbn;
    repeat split; try reflexivity; try discriminate; intros;
    try discriminate; auto 12.
Qed.

Lemma artifact_then_history_then_playback_witness :
  exists before rest,
    effects
      (synthesizeSpeech Sample.ready (success Sample.audio) false
         Sample.playing)
    = before ++ ESetState "savedAudio" :: ESetState "audioHistory" :: rest
    /\ forallb (fun e => negb (is_store e || is_start e)) before = true
    /\ forallb (fun e => negb (is_start e)) rest = true
    /\ audioHistory
         (ui
            (after
               (synthesizeSpeech Sample.ready (success Sample.audio) false
                  Sample.playing)))
       = [newHistoryItem Sample.ready 1700000000000].
Proof.
  destruct (artifact_then_history_then_playback Sample.ready Sample.audio
              false Sample.playing eq_refl)
    as (before & rest & E & B & _ & _ & Hh & _ & _ & F).
  exists before, rest; repeat split; try assumption.
  now apply F.
Defined.

(** ** The playback session *)










(** The other handlers of the component are such steps. *)
Lemma cloning_is_step fileOrBlob name answer w :
  step w (after (handleVoiceCloning fileOrBlob name answer w)).
Proof.
  apply step_other;
    destruct answer as [m | [[|] [[e [[| c v] |]] |]]];
    destruct w as [u sr [|] ac gn au nn iv nt ck]; reflexivity.
Qed.

Lemma volume_change_is_step newVolume w :
  step w (after (handleVolumeChange newVolume w)).
Proof.
  apply step_other; destruct w as [u sr ar ac [|] au nn iv nt ck];
    reflexivity.
Qed.



(** [stopSpeech] with nothing held performs no audio operation. *)
Lemma stop_without_source w :
  sourceRef w = None ->
  stopSpeech w
  = mkRun (Ret tt) (with_ui (upd_isPlaying false) w) [ESetState "isPlaying"].
Proof.
  intros H; destruct w as [u sr ar ac gn au nn iv nt ck]; simpl in H;
    subst; reflexivity.
Qed.

Lemma upd_isPlaying_idle w :
  isPlaying (ui w) = false -> with_ui (upd_isPlaying false) w = w.
Proof.
  destruct w as [u sr ar ac gn au nn iv nt ck]; destruct u; simpl;
    intros ->; reflexivity.
Qed.



(** ** Volume and mute *)

(** C6: muting saves the volume and sets it to 0; unmuting right after puts
    back exactly the saved value. *)
Theorem mute_then_unmute_restores_volume :
  forall w : World,
    isMuted (ui w) = false ->
    let w1 := after (dispatch handleMuteToggle w) in
    let w2 := after (dispatch handleMuteToggle w1) in
    volume (ui w1) = [num (0 # 1)]
    /\ isMuted (ui w1) = true
    /\ previousVolume (ui w1) = volume (ui w)
    /\ volume (ui w2) = volume (ui w)
    /\ isMuted (ui w2) = false.
Proof.
  intros w H; unfold dispatch, handleMuteToggle; rewrite H.
  repeat split; reflexivity.
Qed.

Lemma mute_then_unmute_restores_volume_witness :
  volume
    (ui
       (after
          (dispatch handleMuteToggle
             (after (dispatch handleMuteToggle (initial_world 0))))))
  = [num (50 # 1)].
Proof.
  apply (mute_then_unmute_restores_volume (initial_world 0)); reflexivity.
Defined.

(** Moving the slider while muted does not disturb the saved value. *)
Lemma unmute_after_slider (w : World) (moved : list number) :
  isMuted (ui w) = false ->
  let w1 := after (dispatch handleMuteToggle w) in
  let w2 := after (handleVolumeChange moved w1) in
  volume (ui (after (dispatch handleMuteToggle w2))) = volume (ui w).
Proof.
  intros H; unfold dispatch, handleMuteToggle; rewrite H.
  destruct w as [u sr ar ac [|] au nn iv nt ck]; reflexivity.
Qed.

(** ** Presets *)

Lemma find_absent {A : Type} (f : A -> bool) (l : list A) :
  (forall y, In y l -> f y = false) -> find f l = None.
Proof.
  induction l as [| a l IH]; simpl; intros H; [reflexivity |].
  rewrite (H a (or_introl eq_refl)); apply IH; intros y Hy; apply H; now right.
Qed.

Lemma find_appended {A : Type} (f : A -> bool) (l : list A) (x : A) :
  (forall y, In y l -> f y = false) -> f x = true ->
  find f (l ++ [x]) = Some x.
Proof.
  induction l as [| a l IH]; simpl; intros H Hx; [now rewrite Hx |].
  rewrite (H a (or_introl eq_refl)); apply IH; [| exact Hx].
  intros y Hy; apply H; now right.
Qed.

Lemma save_preset_appends r name w :
  is_blank name = false ->
  presets (ui (after (handleSavePreset r name w)))
  = presets (ui w) ++ [newPreset r name (clock w)].
Proof.
  intros H; unfold handleSavePreset; rewrite H; reflexivity.
Qed.

Lemma load_found later presetId preset w :
  find (fun p => str_eqb (p_id p) presetId) (presets later) = Some preset ->
  let u := ui (after (loadPreset later presetId w)) in
  selectedVoice u = p_voiceId preset
  /\ stability u = [s_stability (settings preset)]
  /\ similarity u = [s_similarity (settings preset)]
  /\ style u = [s_style (settings preset)]
  /\ speakerBoost u = use_speaker_boost (settings preset)
  /\ selectedPreset u = Some presetId.
Proof.
  intros H; unfold loadPreset; rewrite H; repeat split; reflexivity.
Qed.

(** C7, as stated, fails in two ways.  A name of two spaces is not empty,
    yet [handleSavePreset] saves nothing under it, so a later load brings
    nothing back.  And a preset saved in the millisecond whose id a stored
    preset already carries is shadowed by it: the load by that id applies
    the older preset's voice and settings. *)
Lemma preset_round_trip_blank_name_or_taken_id :
  lit "  " <> []
  /\ handleSavePreset Sample.ready (lit "  ") (Sample.world_of Sample.ready)
     = mkRun (Ret tt) (Sample.world_of Sample.ready) []
  /\ (let later := Sample.moved Sample.ready in
      selectedVoice
        (ui (after (loadPreset later (toString 1700000000000)
                      (Sample.world_of later))))
      <> selectedVoice Sample.ready)
  /\ (let w := Sample.world_of Sample.with_stored_preset in
      let stored :=
        ui (after (handleSavePreset Sample.with_stored_preset (lit "Calm") w))
      in
      let later := Sample.moved stored in
      let u :=
        ui (after (loadPreset later (toString (clock w))
                     (Sample.world_of later))) in
      selectedVoice Sample.with_stored_preset = lit "v1"
      /\ idx0 (stability Sample.with_stored_preset) = num (1 # 2)
      /\ selectedVoice u = lit "v0"
      /\ stability u = [num (1 # 10)]).
Proof.
  repeat split; try reflexivity; vm_compute; discriminate.
Qed.

(** C7, amended: a preset saved under a name that is not blank, at a time
    whose id no stored preset carries, and loaded by that id from any later
    render that sees the stored presets, brings back the voice and the
    settings bundle of the render it was saved from, whatever the controls
    show by then. *)
Theorem preset_round_trip :
  forall (r : State) (name : jsstring) (w : World) (later : State)
         (w2 : World),
    is_blank name = false ->
    (forall p, In p (presets (ui w)) -> p_id p <> toString (clock w)) ->
    presets later = presets (ui (after (handleSavePreset r name w))) ->
    let saved := newPreset r name (clock w) in
    let u := ui (after (loadPreset later (p_id saved) w2)) in
    In saved (presets later)
    /\ selectedVoice u = selectedVoice r
    /\ bundle u = bundle r
    /\ stability u = [idx0 (stability r)]
    /\ similarity u = [idx0 (similarity r)]
    /\ style u = [idx0 (style r)]
    /\ speakerBoost u = speakerBoost r
    /\ selectedPreset u = Some (p_id saved).
Proof.
  intros r name w later w2 Hname Hfresh Hlater saved u.
  rewrite (save_preset_appends r name w Hname) in Hlater.
  assert (F : find (fun p => str_eqb (p_id p) (p_id saved)) (presets later)
              = Some saved).
  { rewrite Hlater; apply find_appended; [| apply str_eqb_refl].
    intros p Hp; apply str_eqb_neq; exact (Hfresh p Hp). }
  destruct (load_found later (p_id saved) saved w2 F) as (V & S1 & S2 & S3 & B & P).
  fold u in V, S1, S2, S3, B, P.
  split; [rewrite Hlater; apply in_or_app; right; now left |].
  unfold bundle; rewrite V, S1, S2, S3, B, P; repeat split; reflexivity.
Qed.

Lemma preset_round_trip_witness :
  let w := Sample.world_of Sample.ready in
  let stored := ui (after (handleSavePreset Sample.ready (lit "Calm") w)) in
  let later := upd_stability [num (9 # 10)] (upd_selectedVoice [] stored) in
  let u :=
    ui (after (loadPreset later (toString 1700000000000)
                 (Sample.world_of later))) in
  selectedVoice u = lit "v1" /\ stability u = [num (1 # 2)].
Proof.
  destruct (preset_round_trip Sample.ready (lit "Calm")
              (Sample.world_of Sample.ready)
              (upd_stability [num (9 # 10)]
                 (upd_selectedVoice []
                    (ui (after (handleSavePreset Sample.ready (lit "Calm")
                                  (Sample.world_of Sample.ready))))))
              (Sample.world_of
                 (upd_stability [num (9 # 10)]
                    (upd_selectedVoice []
                       (ui (after (handleSavePreset Sample.ready
                                     (lit "Calm")
                                     (Sample.world_of Sample.ready)))))))
              eq_refl
              (fun p (H : In p []) => match H with end)
              eq_refl)
    as (_ & V & _ & S1 & _).
  split; [exact V | exact S1].
Defined.

(** C9: [loadPreset] with an id no preset carries returns at once: the world
    stays as it was, no setter is called and nothing is notified. *)
Theorem load_unknown_preset_is_noop :
  forall (r : State) (presetId : jsstring) (w : World),
    (forall p, In p (presets r) -> p_id p <> presetId) ->
    loadPreset r presetId w = mkRun (Ret tt) w [].
Proof.
  intros r presetId w H; unfold loadPreset.
  rewrite find_absent; [reflexivity |].
  intros p Hp; apply str_eqb_neq; exact (H p Hp).
Qed.

Lemma load_unknown_preset_is_noop_witness :
  loadPreset Sample.ready (lit "1700000000000")
    (Sample.world_of Sample.ready)
  = mkRun (Ret tt) (Sample.world_of Sample.ready) [].
Proof.
  apply (load_unknown_preset_is_noop Sample.ready (lit "1700000000000")
           (Sample.world_of Sample.ready)).
  intros p H; destruct H.
Defined.

(** ** Deleting a voice *)

(** C8: after a delete that the proxy answered with success, the voices
    shown are those of the calling render without the deleted id; the
    selection is emptied when it was the deleted voice and is left alone
    otherwise. *)
Theorem delete_voice_updates_list_and_selection :
  forall (r : State) (voiceId : jsstring) (payload : option unit)
         (w : World),
    let run :=
      handleDeleteVoice r voiceId (Response (mkResponse true payload)) w in
    voices (ui (after run))
    = filter (fun voice => negb (str_eqb (voice_id voice) voiceId)) (voices r)
    /\ (forall voice,
          In voice (voices (ui (after run))) -> voice_id voice <> voiceId)
    /\ (forall voice,
          In voice (voices r) -> voice_id voice <> voiceId ->
          In voice (voices (ui (after run))))
    /\ (selectedVoice r = voiceId -> selectedVoice (ui (after run)) = [])
    /\ (selectedVoice r <> voiceId ->
        selectedVoice (ui (after run)) = selectedVoice (ui w))
    /\ value run = Ret tt.
Proof.
  intros r voiceId payload w run.
  assert (V : voices (ui (after run))
              = filter (fun voice => negb (str_eqb (voice_id voice) voiceId))
                  (voices r)).
  { subst run; unfold handleDeleteVoice.
    destruct (str_eqb (selectedVoice r) voiceId); reflexivity. }
  split; [exact V |]; rewrite V; split; [| split; [| split; [| split]]].
  - intros voice H; apply filter_In in H as [_ H].
    apply negb_true_iff in H; now apply str_eqb_neq.
  - intros voice H N; apply filter_In; split; [exact H |].
    apply negb_true_iff; now apply str_eqb_neq.
  - intros E; apply str_eqb_eq in E.
    subst run; unfold handleDeleteVoice; rewrite E; reflexivity.
  - intros N; apply str_eqb_neq in N.
    subst run; unfold handleDeleteVoice; rewrite N; reflexivity.
  - subst run; unfold handleDeleteVoice.
    destruct (str_eqb (selectedVoice r) voiceId); reflexivity.
Qed.

Lemma delete_voice_updates_list_and_selection_witness :
  let run :=
    handleDeleteVoice Sample.ready (lit "v1")
      (Response (mkResponse true None)) (Sample.world_of Sample.ready) in
  voices (ui (after run)) = [] /\ selectedVoice (ui (after run)) = [].
Proof.
  destruct (delete_voice_updates_list_and_selection Sample.ready (lit "v1")
              None (Sample.world_of Sample.ready))
    as (V & _ & _ & S & _).
  split; [exact V | exact (S eq_refl)].
Defined.

(** A delete that fails changes neither the list nor the selection. *)
Lemma delete_voice_failure r voiceId answer w :
  (forall payload, answer <> Response (mkResponse true payload)) ->
  after (handleDeleteVoice r voiceId answer w) = w.
Proof.
  intros H; destruct answer as [m | [[|] payload]];
    [| now destruct (H payload) |]; destruct w; reflexivity.
Qed.

(** ** Cloning a voice *)

Lemma cloning_settles fileOrBlob name answer w :
  let run := handleVoiceCloning fileOrBlob name answer w in
  value run = Ret tt
  /\ isCloning (ui (after run)) = false
  /\ selectedFile (ui (after run)) = None
  /\ voiceName (ui (after run)) = []
  /\ uploadProgress (ui (after run)) = 0
  /\ recordedAudio (ui (after run)) = None
  /\ audioURL (ui (after run)) = None.
Proof.
  destruct answer as [m | [[|] [[e [[| c v] |]] |]]];
    destruct w as [u sr [|] ac gn au nn iv nt ck];
    repeat split; reflexivity.
Qed.

(** C10: however the clone request ends, once [handleVoiceCloning] settles
    the selected file is cleared, the voice name is empty, the upload
    progress is 0 and the finalized recording is discarded, and the call
    itself has not thrown; submitting the form again then does nothing until
    a sample and a name are entered anew. *)
Theorem cloning_always_resets_the_form :
  forall (fileOrBlob : sample) (name : jsstring) (answer : reply clone_json)
         (w : World),
    let run := handleVoiceCloning fileOrBlob name answer w in
    value run = Ret tt
    /\ selectedFile (ui (after run)) = None
    /\ voiceName (ui (after run)) = []
    /\ uploadProgress (ui (after run)) = 0
    /\ recordedAudio (ui (after run)) = None
    /\ isCloning (ui (after run)) = false
    /\ (forall retry, submit_clone_form retry (after run)
                      = mkRun (Ret tt) (after run) []).
Proof.
  intros fileOrBlob name answer w run.
  destruct (cloning_settles fileOrBlob name answer w)
    as (V & C & F & N & P & R & _).
  fold run in V, C, F, N, P, R.
  repeat split; try assumption.
  intros retry; unfold submit_clone_form; rewrite F, R; reflexivity.
Qed.

(** A tick of an armed timer raises the progress by 10, up to 90. *)
Lemma armed_tick t w :
  existsb (Nat.eqb t) (intervals w) = true ->
  uploadProgress (ui (after (deliver_tick t w)))
  = N.min (uploadProgress (ui w) + 10) 90.
Proof.
  intros H; unfold deliver_tick; rewrite H; reflexivity.
Qed.

Lemma rejected_clone_timer fileOrBlob name message w :
  intervals (after (handleVoiceCloning fileOrBlob name (Rejected message) w))
  = next_timer w :: intervals w.
Proof.
  destruct w as [u sr [|] ac gn au nn iv nt ck]; reflexivity.
Qed.

(** When the request itself is rejected, the progress timer started before
    it stays armed, and its next tick moves the progress off 0. *)
Lemma rejected_clone_leaves_timer fileOrBlob name message w :
  let w' := after (handleVoiceCloning fileOrBlob name (Rejected message) w) in
  intervals w' = next_timer w :: intervals w
  /\ uploadProgress (ui (after (deliver_tick (next_timer w) w'))) = 10.
Proof.
  intros w'; split; [apply rejected_clone_timer |].
  rewrite armed_tick.
  - destruct (cloning_settles fileOrBlob name (Rejected message) w)
      as (_ & _ & _ & _ & P & _).
    fold w' in P; now rewrite P.
  - subst w'; rewrite rejected_clone_timer; simpl.
    now rewrite Nat.eqb_refl.
Qed.

(** ** The text-to-speech proxy route *)

Lemma relay_audio_shape answer : audio_or_error answer (relay_audio answer).
Proof.
  destruct answer as [m | [[|] [payload |]]]; simpl;
    try (right; reflexivity).
  left; exists payload; split; reflexivity.
Qed.

Lemma route_response apiKey request_json answer :
  audio_or_error answer (snd (AppApiTts.POST apiKey request_json answer))
  /\ audio_or_error answer
       (snd (SrcAppApiTts.POST apiKey request_json answer)).
Proof.
  unfold AppApiTts.POST, SrcAppApiTts.POST.
  destruct (truthy (field_or apiKey [])), request_json; simpl;
    split; try apply relay_audio_shape; right; reflexivity.
Qed.

(** C5, as stated, fails on [src/app/api/tts/route.ts]: a request that
    carries stability 0.9, similarity_boost 0.8, style 0.3 and
    use_speaker_boost false reaches the Gateway with stability 0.5 and
    similarity_boost 0.5 and neither of the other two. *)
Lemma fixed_settings_route_drops_request_settings :
  option_map g_voice_settings
    (fst (SrcAppApiTts.POST Sample.key (Some Sample.tuned)
            (success Sample.audio)))
  = Some fixed_settings
  /\ b_stability Sample.tuned = Some (JNumber (9 # 10))
  /\ vs_stability fixed_settings <> b_stability Sample.tuned
  /\ vs_similarity_boost fixed_settings <> b_similarity_boost Sample.tuned
  /\ vs_style fixed_settings <> b_style Sample.tuned
  /\ vs_use_speaker_boost fixed_settings <> b_use_speaker_boost Sample.tuned.
Proof.
  repeat split; try reflexivity; discriminate.
Qed.

(** C5, amended: with the credential set and a body that parses, the
    handler headed [// app/api/tts/route.ts] sends the request's stability and
    similarity_boost to the Gateway as they came, and style and
    use_speaker_boost as they came when present (0 and true when missing),
    while the handler of [src/app/api/tts/route.ts] sends stability 0.5 and
    similarity_boost 0.5 whatever the request carries.  Both answer with the
    Gateway's bytes as [audio/mpeg] on success and with the [{error}] JSON,
    status 500, on every failure. *)
Theorem tts_route_forwards_settings :
  forall (apiKey : option jsstring) (request_json : option tts_body)
         (answer : reply bytes),
    audio_or_error answer (snd (AppApiTts.POST apiKey request_json answer))
    /\ audio_or_error answer
         (snd (SrcAppApiTts.POST apiKey request_json answer))
    /\ (forall body,
          truthy (field_or apiKey []) = true ->
          request_json = Some body ->
          (exists g,
             fst (AppApiTts.POST apiKey request_json answer) = Some g
             /\ g_text g = b_text body
             /\ g_voiceId g = b_voiceId body
             /\ vs_stability (g_voice_settings g) = b_stability body
             /\ vs_similarity_boost (g_voice_settings g)
                = b_similarity_boost body
             /\ vs_style (g_voice_settings g)
                = default (JNumber (0 # 1)) (b_style body)
             /\ vs_use_speaker_boost (g_voice_settings g)
                = default (JBool true) (b_use_speaker_boost body)
             /\ (forall v, b_style body = Some v ->
                           vs_style (g_voice_settings g) = Some v)
             /\ (forall v, b_use_speaker_boost body = Some v ->
                           vs_use_speaker_boost (g_voice_settings g) = Some v))
          /\ (exists g,
                fst (SrcAppApiTts.POST apiKey request_json answer) = Some g
                /\ g_voice_settings g = fixed_settings)
          /\ (forall payload,
                answer = success payload ->
                let audio :=
                  AudioResponse "audio/mpeg"
                    (N.of_nat (List.length payload)) payload in
                snd (AppApiTts.POST apiKey request_json answer) = audio
                /\ snd (SrcAppApiTts.POST apiKey request_json answer) = audio)
          /\ ((forall payload, answer <> success payload) ->
              snd (AppApiTts.POST apiKey request_json answer) = tts_failure
              /\ snd (SrcAppApiTts.POST apiKey request_json answer)
                 = tts_failure)).
Proof.
  intros apiKey request_json answer.
  destruct (route_response apiKey request_json answer) as [A B].
  split; [exact A | split; [exact B |]].
  intros body K ->; unfold AppApiTts.POST, SrcAppApiTts.POST; rewrite K.
  split; [| split; [| split]].
  - eexists; split; [reflexivity |]; simpl; repeat split; try reflexivity.
    + now intros v ->.
    + now intros v ->.
  - eexists; split; reflexivity.
  - intros payload ->; split; reflexivity.
  - intros F; simpl.
    destruct answer as [m | [[|] [payload |]]]; try (split; reflexivity).
    now destruct (F payload).
Qed.

Lemma tts_route_forwards_settings_witness :
  exists g,
    fst (AppApiTts.POST Sample.key (Some Sample.tuned) (success Sample.audio))
    = Some g
    /\ g_voice_settings g
       = mkVoiceSettings (Some (JNumber (9 # 10))) (Some (JNumber (8 # 10)))
           (Some (JNumber (3 # 10))) (Some (JBool false)).
Proof.
  destruct (tts_route_forwards_settings Sample.key (Some Sample.tuned)
              (success Sample.audio))
    as (_ & _ & F).
  destruct (F Sample.tuned eq_refl eq_refl)
    as ((g & E & _ & _ & S1 & S2 & _ & _ & S3 & S4) & _ & _ & _).
  exists g; split; [exact E |].
  destruct g as [? ? ? ? ? [a b c d]]; simpl in *.
  rewrite S1, S2, (S3 _ eq_refl), (S4 _ eq_refl); reflexivity.
Defined.

(** * Further properties of the component *)

(** ** Synthesis: requests and failures *)

Lemma synthesize_fetches r answer decodable w :
  is_blank (text r) = false ->
  filter is_fetch (effects (synthesizeSpeech r answer decodable w))
  = [tts_request r].
Proof.
  intros H; unfold synthesizeSpeech; rewrite H.
  destruct answer as [m | [[|] [b |]]];
    world_cases w; destruct decodable; reflexivity.
Qed.

Lemma synthesize_loading_reset r answer decodable w :
  isLoading (ui (after (synthesizeSpeech r answer decodable w))) = false
  \/ is_blank (text r) = true.
Proof.
  unfold synthesizeSpeech.
  destruct (is_blank (text r)); [now right | left].
  destruct answer as [m | [[|] [b |]]];
    world_cases w; destruct decodable; reflexivity.
Qed.

(** X1: a synthesis with text that is not blank sends exactly one request,
    the POST to [/api/tts] with the text, voice and settings of the calling
    render, whatever the answer (nothing is retried); the call never throws
    and leaves [isLoading] false. *)
Theorem synthesize_sends_one_request_and_resets_loading :
  forall (r : State) (answer : reply bytes) (decodable : bool) (w : World),
    is_blank (text r) = false ->
    let run := synthesizeSpeech r answer decodable w in
    filter is_fetch (effects run) = [tts_request r]
    /\ value run = Ret tt
    /\ isLoading (ui (after run)) = false.
Proof.
  intros r answer decodable w H run; subst run.
  split; [now apply synthesize_fetches |].
  split; [now apply synthesize_returns |].
  destruct (synthesize_loading_reset r answer decodable w) as [L | L];
    [exact L | congruence].
Qed.

Lemma synthesize_sends_one_request_and_resets_loading_witness :
  filter is_fetch
    (effects
       (synthesizeSpeech Sample.ready (Rejected (lit "offline")) true
          (Sample.world_of Sample.ready)))
  = [tts_request Sample.ready].
Proof.
  apply (synthesize_sends_one_request_and_resets_loading Sample.ready
           (Rejected (lit "offline")) true (Sample.world_of Sample.ready)).
  reflexivity.
Defined.

(** X2: when the request is rejected, answered without [ok], or its body
    cannot be read, the synthesis shows the failure notification and
    changes nothing else that lasts: history and saved artifact stay, no
    source is stopped or started, the handle stays, and both [isLoading] and
    [isPlaying] end false. *)
Theorem synthesize_failure_changes_nothing_lasting :
  forall (r : State) (answer : reply bytes) (decodable : bool) (w : World),
    is_blank (text r) = false ->
    (forall data, answer <> success data) ->
    let run := synthesizeSpeech r answer decodable w in
    audioHistory (ui (after run)) = audioHistory (ui w)
    /\ savedAudio (ui (after run)) = savedAudio (ui w)
    /\ sourceRef (after run) = sourceRef w
    /\ audible (after run) = audible w
    /\ isLoading (ui (after run)) = false
    /\ isPlaying (ui (after run)) = false
    /\ In (EToast synthesis_failed_toast) (effects run)
    /\ forallb
         (fun e => negb (is_store e || is_start e
                         || match e with
                            | EStop _ | EDecode _ => true
                            | _ => false
                            end))
         (effects run) = true.
Proof.
  intros r answer decodable w H F run; subst run.
  unfold synthesizeSpeech; rewrite H.
  destruct answer as [m | [[|] [b |]]];
    try (now destruct (F b));
    world_cases w; destruct decodable; cbn;
    repeat split; auto 10.
Qed.

Lemma synthesize_failure_changes_nothing_lasting_witness :
  let run :=
    synthesizeSpeech Sample.full_history
      (Response (mkResponse false None)) true Sample.playing in
  audioHistory (ui (after run)) = audioHistory (ui Sample.playing)
  /\ audible (after run) = [0%nat].
Proof.
  destruct (synthesize_failure_changes_nothing_lasting Sample.full_history
              (Response (mkResponse false None)) true Sample.playing
              eq_refl)
    as (A & _ & _ & B & _).
  - intros data; discriminate.
  - split; [exact A | exact B].
Defined.

(** ** The history entry *)

Lemma find_first {A : Type} (f : A -> bool) (before : list A) (x : A)
  (rest : list A) :
  (forall y, In y before -> f y = false) -> f x = true ->
  find f (before ++ x :: rest) = Some x.
Proof.
  induction before as [| a l IH]; simpl; intros H Hx; [now rewrite Hx |].
  rewrite (H a (or_introl eq_refl)); apply IH; [| exact Hx].
  intros y Hy; apply H; now right.
Qed.

(** X3: the entry a successful synthesis puts in front of the history
    carries the text, voice id and estimated duration of the calling render
    and the time of the call; its voice name is the name of the first voice
    of the render with the selected id, and "Unknown Voice" when that name
    is empty or no voice has the id. *)
Theorem history_entry_names_the_selected_voice :
  forall (r : State) (data : bytes) (decodable : bool) (w : World),
    is_blank (text r) = false ->
    let e := newHistoryItem r (clock w) in
    hd_error
      (audioHistory
         (ui (after (synthesizeSpeech r (success data) decodable w))))
    = Some e
    /\ h_text e = text r
    /\ h_voiceId e = selectedVoice r
    /\ h_duration e = estimatedDuration r
    /\ h_timestamp e = clock w
    /\ h_id e = toString (clock w)
    /\ (forall before v rest,
          voices r = before ++ v :: rest ->
          (forall x, In x before -> voice_id x <> selectedVoice r) ->
          voice_id v = selectedVoice r ->
          h_voiceName e = str_or (voice_name v) (lit "Unknown Voice"))
    /\ ((forall v, In v (voices r) -> voice_id v <> selectedVoice r) ->
        h_voiceName e = lit "Unknown Voice").
Proof.
  intros r data decodable w H e.
  split; [rewrite (synthesize_history r data decodable H w); reflexivity |].
  repeat split.
  - intros before v rest V B E; subst e; unfold newHistoryItem; simpl.
    rewrite V, find_first; [reflexivity | | now apply str_eqb_eq].
    intros y Hy; apply str_eqb_neq; now apply B.
  - intros N; subst e; unfold newHistoryItem; simpl.
    rewrite find_absent; [reflexivity |].
    intros y Hy; apply str_eqb_neq; now apply N.
Qed.

Lemma history_entry_names_the_selected_voice_witness :
  h_voiceName (newHistoryItem Sample.ready 1700000000000) = lit "Rachel"
  /\ h_voiceName (newHistoryItem Sample.no_voice 1700000000000)
     = lit "Unknown Voice".
Proof.
  split.
  - destruct (history_entry_names_the_selected_voice Sample.ready
                Sample.audio true (Sample.world_of Sample.ready) eq_refl)
      as (_ & _ & _ & _ & _ & _ & N & _).
    exact (N [] Sample.rachel [] eq_refl
             (fun x (H : In x []) => match H with end) eq_refl).
  - destruct (history_entry_names_the_selected_voice Sample.no_voice
                Sample.audio true (Sample.world_of Sample.no_voice) eq_refl)
      as (_ & _ & _ & _ & _ & _ & _ & U).
    apply U; intros v [<- | []]; discriminate.
Defined.

(** ** Volume, mute and the gain node *)

Lemma mute_toggle_hooks_only w :
  forallb is_hook_write (effects (dispatch handleMuteToggle w)) = true
  /\ with_ui (fun _ => ui w) (after (dispatch handleMuteToggle w)) = w.
Proof.
  unfold dispatch, handleMuteToggle.
  destruct w as [u sr ar ac gn au nn iv nt ck]; simpl.
  destruct (isMuted u); split; reflexivity.
Qed.

(** X4: the mute toggle only calls hook setters: it never writes the gain of
    the audio graph and changes nothing outside the hook state.  The slider
    does write the gain, volume / 100, when the gain node exists, also while
    muted, and it leaves [isMuted] set; the unmute that follows puts back
    the volume saved at mute time, not the one the slider chose. *)
Theorem mute_is_state_only_and_discards_slider :
  forall (w : World) (moved : list number),
    isMuted (ui w) = false ->
    let muted := dispatch handleMuteToggle w in
    let slid := handleVolumeChange moved (after muted) in
    let unmuted := dispatch handleMuteToggle (after slid) in
    forallb is_hook_write (effects muted) = true
    /\ with_ui (fun _ => ui w) (after muted) = w
    /\ forallb is_hook_write (effects unmuted) = true
    /\ effects slid
       = ESetState "volume"
           :: (if gainNode w then [EGain (gain_of (idx0 moved))] else [])
    /\ volume (ui (after slid)) = moved
    /\ isMuted (ui (after slid)) = true
    /\ volume (ui (after unmuted)) = volume (ui w)
    /\ isMuted (ui (after unmuted)) = false.
Proof.
  intros w moved H muted slid unmuted.
  destruct (mute_toggle_hooks_only w) as [A B].
  destruct (mute_toggle_hooks_only (after slid)) as [C _].
  split; [exact A | split; [exact B | split; [exact C |]]].
  subst unmuted slid muted; unfold dispatch, handleMuteToggle; rewrite H.
  destruct w as [u sr ar ac [|] au nn iv nt ck]; repeat split; reflexivity.
Qed.

Lemma mute_is_state_only_and_discards_slider_witness :
  volume
    (ui
       (after
          (dispatch handleMuteToggle
             (after
                (handleVolumeChange [num (80 # 1)]
                   (after (dispatch handleMuteToggle (initial_world 0))))))))
  = [num (50 # 1)].
Proof.
  apply (mute_is_state_only_and_discards_slider (initial_world 0)
           [num (80 # 1)]).
  reflexivity.
Defined.

(** ** Cloning: request, success, failure, timer *)

(** Membership in a list of effects that has been computed. *)
Ltac in_effects :=
  cbn; repeat first [left; reflexivity | right].

Ltac clone_cases answer w :=
  destruct answer as [? | [[|] [[? [[| ? ?] |]] |]]];
  destruct w as [? ? [|] ? ? ? ? ? ? ?].

(** The one request of a cloning. *)
Lemma cloning_fetches :
  forall (fileOrBlob : sample) (name : jsstring) (answer : reply clone_json)
         (w : World),
    filter is_fetch (effects (handleVoiceCloning fileOrBlob name answer w))
    = [clone_request fileOrBlob name].
Proof.
  intros fileOrBlob name answer w; clone_cases answer w; reflexivity.
Qed.

(** X5: every call of [handleVoiceCloning] sends exactly one request, the
    POST to [/api/clone-voice] with the name and one file under ["files"];
    that file carries the bytes of the sample and is named
    [recorded-audio.wav] with type [audio/wav], for a recording and for an
    uploaded file alike. *)
Theorem cloning_sends_one_request_as_recorded_wav :
  forall (fileOrBlob : sample) (name : jsstring) (answer : reply clone_json)
         (w : World),
    filter is_fetch (effects (handleVoiceCloning fileOrBlob name answer w))
    = [EFetch "POST" (lit "/api/clone-voice")
         (CloneForm name
            [mkFile (lit "recorded-audio.wav") "audio/wav"
               (sample_data fileOrBlob)])].
Proof.
  intros fileOrBlob name answer w; clone_cases answer w; reflexivity.
Qed.

(** X6: when the answer is [ok] and carries a voice id that is not empty,
    the new voice (that id, the entered name, category "custom") is added at
    the end of the live voices, it becomes the selected voice, the dialog is
    closed and the success notification is shown. *)
Theorem cloning_success_adds_and_selects_voice :
  forall (fileOrBlob : sample) (name new_id : jsstring)
         (err : option jsstring) (w : World),
    new_id <> [] ->
    let run := handleVoiceCloning fileOrBlob name (cloned new_id err) w in
    voices (ui (after run))
    = voices (ui w) ++ [mkVoice new_id name (lit "custom")]
    /\ selectedVoice (ui (after run)) = new_id
    /\ isVoiceDialogOpen (ui (after run)) = false
    /\ In (EToast
             (mkToast (lit "Success")
                (lit "Voice cloned successfully! The new voice is now available.")
                false))
         (effects run)
    /\ forallb
         (fun e => match e with
                   | EToast t => negb (destructive t)
                   | EConsoleError _ => false
                   | _ => true
                   end)
         (effects run) = true.
Proof.
  intros fileOrBlob name new_id err w H run; subst run.
  destruct new_id as [| c v]; [contradiction |].
  destruct w as [u sr [|] ac gn au nn iv nt ck]; cbn;
    repeat split; auto 12.
Qed.

Lemma cloning_success_adds_and_selects_voice_witness :
  selectedVoice
    (ui
       (after
          (handleVoiceCloning (RecordedBlob (mkBlob Sample.audio "audio/wav"))
             (lit "Me") (cloned (lit "v9") None)
             (Sample.world_of Sample.ready))))
  = lit "v9".
Proof.
  apply (cloning_success_adds_and_selects_voice
           (RecordedBlob (mkBlob Sample.audio "audio/wav")) (lit "Me")
           (lit "v9") None (Sample.world_of Sample.ready)).
  discriminate.
Defined.



(** X8: the progress timer that a clone starts is no longer armed once any
    answer has arrived; when the request itself is rejected it stays armed,
    and its next tick moves the progress, which the cleanup had set to 0,
    to 10. *)
Theorem progress_timer_survives_rejected_request :
  forall (fileOrBlob : sample) (name : jsstring) (answer : reply clone_json)
         (w : World),
    let w' := after (handleVoiceCloning fileOrBlob name answer w) in
    (forall r, answer = Response r -> ~ In (next_timer w) (intervals w'))
    /\ (forall m,
          answer = Rejected m ->
          In (next_timer w) (intervals w')
          /\ uploadProgress (ui (after (deliver_tick (next_timer w) w'))) = 10).
Proof.
  intros fileOrBlob name answer w w'; split.
  - intros r ->; subst w'.
    assert (E : intervals
                  (after (handleVoiceCloning fileOrBlob name (Response r) w))
                = remove Nat.eq_dec (next_timer w)
                    (next_timer w :: intervals w)).
    { destruct r as [[|] [[e [[| c v] |]] |]];
        destruct w as [u sr [|] ac gn au nn iv nt ck]; reflexivity. }
    rewrite E; apply remove_In.
  - intros m ->; subst w'.
    rewrite (rejected_clone_timer fileOrBlob name m w).
    split; [now left |].
    rewrite armed_tick.
    + destruct (cloning_settles fileOrBlob name (Rejected m) w)
        as (_ & _ & _ & _ & P & _).
      cbv zeta in P; now rewrite P.
    + rewrite rejected_clone_timer; simpl; now rewrite Nat.eqb_refl.
Qed.

Lemma progress_timer_survives_rejected_request_witness :
  intervals
    (after
       (handleVoiceCloning (RecordedBlob (mkBlob Sample.audio "audio/wav"))
          (lit "Me") (Rejected (lit "offline")) (initial_world 0)))
  = [0%nat].
Proof.
  destruct (progress_timer_survives_rejected_request
              (RecordedBlob (mkBlob Sample.audio "audio/wav")) (lit "Me")
              (Rejected (lit "offline")) (initial_world 0))
    as (_ & R).
  destruct (R (lit "offline") eq_refl) as (_ & _).
  reflexivity.
Defined.

(** ** Deleting a voice: failure *)

(** X9: a delete that is rejected or answered without [ok] sends its one
    request to [/api/clone-voice/<id>], logs, shows the failure
    notification, and leaves the world as it was: voices and selection
    stay. *)
Theorem delete_failure_changes_nothing :
  forall (r : State) (voiceId : jsstring) (answer : reply unit) (w : World),
    (forall payload, answer <> Response (mkResponse true payload)) ->
    handleDeleteVoice r voiceId answer w
    = mkRun (Ret tt) w
        [EFetch "DELETE" (lit "/api/clone-voice/" ++ voiceId) NoBody;
         EConsoleError "Error deleting voice:";
         EToast delete_failed_toast].
Proof.
  intros r voiceId answer w F.
  destruct answer as [m | [[|] payload]];
    [| now destruct (F payload) |]; destruct w; reflexivity.
Qed.

Lemma delete_failure_changes_nothing_witness :
  after
    (handleDeleteVoice Sample.ready (lit "v1")
       (Response (mkResponse false None)) (Sample.world_of Sample.ready))
  = Sample.world_of Sample.ready.
Proof.
  rewrite (delete_failure_changes_nothing Sample.ready (lit "v1")
             (Response (mkResponse false None))
             (Sample.world_of Sample.ready)).
  - reflexivity.
  - intros payload; discriminate.
Defined.

(** ** Presets: saving and removing *)

Lemma find_app_found {A : Type} (f : A -> bool) (l l' : list A) (x : A) :
  find f l = Some x -> find f (l ++ l') = Some x.
Proof.
  induction l as [| a l IH]; simpl; [discriminate |].
  destruct (f a); [trivial | exact IH].
Qed.

Lemma find_filter_other {A : Type} (f g : A -> bool) (l : list A) :
  (forall x, f x = true -> g x = true) ->
  find f (filter g l) = find f l.
Proof.
  intros H; induction l as [| a l IH]; simpl; [reflexivity |].
  destruct (g a) eqn:G; simpl.
  - destruct (f a); [reflexivity | exact IH].
  - destruct (f a) eqn:Fa; [| exact IH].
    apply H in Fa; congruence.
Qed.

(** X10: saving a preset never changes what a stored id loads: the new
    preset goes to the end of the list, so an id that resolved to a preset
    before the save resolves to the same preset after it.  A name that is
    not blank adds exactly one preset, closes the dialog and clears the name
    field; a blank name does nothing at all. *)
Theorem save_preset_keeps_stored_lookups :
  forall (r : State) (name : jsstring) (w : World),
    let run := handleSavePreset r name w in
    (forall presetId p,
       preset_of (presets (ui w)) presetId = Some p ->
       preset_of (presets (ui (after run))) presetId = Some p)
    /\ (is_blank name = true -> run = mkRun (Ret tt) w [])
    /\ (is_blank name = false ->
        presets (ui (after run))
        = presets (ui w) ++ [newPreset r name (clock w)]
        /\ isPresetDialogOpen (ui (after run)) = false
        /\ presetName (ui (after run)) = []).
Proof.
  intros r name w run; subst run; unfold handleSavePreset.
  destruct (is_blank name) eqn:B; repeat split; try discriminate; trivial.
  intros presetId p H; unfold preset_of in *; simpl.
  now apply find_app_found.
Qed.

Lemma save_preset_keeps_stored_lookups_witness :
  preset_of
    (presets
       (ui
          (after
             (handleSavePreset Sample.with_stored_preset (lit "Calm")
                (Sample.world_of Sample.with_stored_preset)))))
    (toString 1700000000000)
  = Some Sample.stored_preset.
Proof.
  apply (save_preset_keeps_stored_lookups Sample.with_stored_preset
           (lit "Calm") (Sample.world_of Sample.with_stored_preset)).
  reflexivity.
Defined.

(** X11: removing a preset drops every preset with that id and keeps the
    others in their order; afterwards loading that id does nothing, and
    every other id loads what it loaded before.  Removing right after a
    save under a fresh id gives back the list from before the save. *)
Theorem remove_preset_forgets_only_that_id :
  forall (r : State) (presetId : jsstring) (w : World),
    let kept := presets (ui (after (removePreset r presetId w))) in
    kept = filter (fun p => negb (str_eqb (p_id p) presetId)) (presets r)
    /\ preset_of kept presetId = None
    /\ (forall later w2,
          presets later = kept ->
          loadPreset later presetId w2 = mkRun (Ret tt) w2 [])
    /\ (forall other,
          other <> presetId ->
          preset_of kept other = preset_of (presets r) other)
    /\ (forall r0 name w0 w2,
          is_blank name = false ->
          (forall q, In q (presets (ui w0)) -> p_id q <> toString (clock w0)) ->
          r = ui (after (handleSavePreset r0 name w0)) ->
          presetId = toString (clock w0) ->
          presets (ui (after (removePreset r presetId w2)))
          = presets (ui w0)).
Proof.
  intros r presetId w kept.
  assert (K : kept
              = filter (fun p => negb (str_eqb (p_id p) presetId))
                  (presets r)) by reflexivity.
  assert (N : preset_of kept presetId = None).
  { rewrite K; unfold preset_of; apply find_absent.
    intros p Hp; apply filter_In in Hp as [_ Hp].
    now apply negb_true_iff in Hp. }
  split; [exact K | split; [exact N | split; [| split]]].
  - intros later w2 E; unfold loadPreset.
    unfold preset_of in N; rewrite E, N; reflexivity.
  - intros other O; rewrite K; unfold preset_of.
    apply find_filter_other.
    intros p Hp; apply str_eqb_eq in Hp; apply negb_true_iff.
    apply str_eqb_neq; congruence.
  - intros r0 name w0 w2 B F -> ->.
    unfold removePreset; simpl.
    rewrite (save_preset_appends r0 name w0 B), filter_app; simpl.
    rewrite str_eqb_refl; simpl; rewrite app_nil_r.
    apply forallb_filter_id, forallb_forall.
    intros q Hq; apply negb_true_iff, str_eqb_neq; now apply F.
Qed.

Lemma remove_preset_forgets_only_that_id_witness :
  presets
    (ui
       (after
          (removePreset Sample.with_stored_preset (toString 1700000000000)
             (Sample.world_of Sample.with_stored_preset))))
  = []
  /\ loadPreset Sample.ready (toString 1700000000000)
       (Sample.world_of Sample.ready)
     = mkRun (Ret tt) (Sample.world_of Sample.ready) [].
Proof.
  destruct (remove_preset_forgets_only_that_id Sample.with_stored_preset
              (toString 1700000000000)
              (Sample.world_of Sample.with_stored_preset))
    as (K & _ & L & _).
  split; [exact K |].
  exact (L Sample.ready (Sample.world_of Sample.ready) eq_refl).
Defined.

(** ** Stopping, and the shared playing flag *)

(** X12: [stopSpeech] with a source held stops it, disconnects it and clears
    the handle, in that order; the source is no longer audible and
    [isPlaying] is false.  A second [stopSpeech] right after performs no
    audio operation and changes nothing. *)
Theorem stop_releases_source_and_is_idempotent :
  forall (w : World) (n : nat),
    sourceRef w = Some n ->
    let run := stopSpeech w in
    effects run = [EStop n; EDisconnect n; ESetState "isPlaying"]
    /\ sourceRef (after run) = None
    /\ ~ In n (audible (after run))
    /\ isPlaying (ui (after run)) = false
    /\ stopSpeech (after run)
       = mkRun (Ret tt) (after run) [ESetState "isPlaying"].
Proof.
  intros w n H run.
  assert (E : run
              = mkRun (Ret tt)
                  (with_ui (upd_isPlaying false)
                     (with_sourceRef None
                        (with_audible (remove Nat.eq_dec n) w)))
                  [EStop n; EDisconnect n; ESetState "isPlaying"]).
  { subst run; destruct w as [u sr ar ac gn au nn iv nt ck]; simpl in H;
      subst; reflexivity. }
  rewrite E; cbn [effects after].
  split; [reflexivity |].
  split; [now destruct w |].
  split; [destruct w; simpl; apply remove_In |].
  split; [now destruct w |].
  rewrite stop_without_source by now destruct w.
  rewrite upd_isPlaying_idle by now destruct w.
  reflexivity.
Qed.

Lemma stop_releases_source_and_is_idempotent_witness :
  audible (after (stopSpeech Sample.playing)) = []
  /\ effects (stopSpeech (after (stopSpeech Sample.playing)))
     = [ESetState "isPlaying"].
Proof.
  destruct (stop_releases_source_and_is_idempotent Sample.playing 0%nat
              eq_refl)
    as (_ & _ & _ & _ & I).
  split; [reflexivity | now rewrite I].
Defined.

(** X13: [resetRecording] discards the recording and sets [isPlaying] to
    false without touching the playback handle or any buffer source: speech
    that is playing goes on.  With text entered and a voice selected the
    action button is then [Generate] again, and a click runs
    [synthesizeSpeech]. *)
Theorem reset_recording_clears_playing_flag_only :
  forall (w : World) (answer : reply bytes) (decodable : bool),
    let w1 := after (resetRecording w) in
    sourceRef w1 = sourceRef w
    /\ audible w1 = audible w
    /\ forallb (fun e => negb (is_audio_op e)) (effects (resetRecording w))
       = true
    /\ isPlaying (ui w1) = false
    /\ recordedAudio (ui w1) = None
    /\ audioURL (ui w1) = None
    /\ recordingDuration (ui w1) = 0
    /\ (isLoading (ui w) = false ->
        is_blank (text (ui w)) = false ->
        selectedVoice (ui w) <> [] ->
        click_action_button answer decodable w1
        = synthesizeSpeech (ui w1) answer decodable w1).
Proof.
  intros w answer decodable w1; subst w1.
  destruct w as [u sr [|] ac gn au nn iv nt ck]; cbn;
    (repeat split; try reflexivity);
    intros L B V; unfold click_action_button; cbn;
    rewrite L, B; destruct (selectedVoice u); try contradiction;
    reflexivity.
Qed.

Lemma reset_recording_clears_playing_flag_only_witness :
  audible (after (resetRecording Sample.playing)) = [0%nat]
  /\ click_action_button (success Sample.audio) true
       (after (resetRecording Sample.playing))
     = synthesizeSpeech (ui (after (resetRecording Sample.playing)))
         (success Sample.audio) true (after (resetRecording Sample.playing)).
Proof.
  destruct (reset_recording_clears_playing_flag_only Sample.playing
              (success Sample.audio) true)
    as (_ & A & _ & _ & _ & _ & _ & C).
  split; [exact A |].
  apply C; [reflexivity | reflexivity | discriminate].
Defined.

(** ** Text analysis *)

Example split_keeps_edge_pieces :
  split_whitespace (lit " a  b ") = [[]; lit "a"; lit "b"; []]
  /\ split_whitespace [] = [[]]
  /\ words (lit "  Hello,   wide world ")
     = [lit "Hello,"; lit "wide"; lit "world"].
Proof. repeat split; reflexivity. Qed.

Lemma concat_truthy_cons (p : jsstring) (l : list jsstring) :
  List.concat (filter truthy (p :: l)) = p ++ List.concat (filter truthy l).
Proof.
  destruct p; reflexivity.
Qed.

Lemma split_ws_concat skipping piece s :
  List.concat (filter truthy (split_ws skipping piece s))
  = rev piece ++ filter visible s.
Proof.
  revert skipping piece; induction s as [| c s IH]; intros skipping piece.
  - simpl split_ws; rewrite concat_truthy_cons; reflexivity.
  - simpl split_ws; unfold visible at 1; simpl filter.
    destruct (is_white_space c) eqn:W; simpl negb; cbv iota.
    + destruct skipping.
      * apply IH.
      * rewrite concat_truthy_cons, IH; reflexivity.
    + rewrite IH; simpl rev; rewrite <- app_assoc; reflexivity.
Qed.

Lemma split_ws_visible skipping piece s :
  forallb visible piece = true ->
  Forall (fun w => forallb visible w = true) (split_ws skipping piece s).
Proof.
  revert skipping piece; induction s as [| c s IH]; intros skipping piece P.
  - constructor; [| constructor].
    rewrite forallb_forall in *; intros x Hx; apply P; now apply in_rev.
  - simpl; destruct (is_white_space c) eqn:W.
    + destruct skipping; [now apply IH |].
      constructor; [| now apply IH].
      rewrite forallb_forall in *; intros x Hx; apply P; now apply in_rev.
    + apply IH; simpl; unfold visible at 1; now rewrite W.
Qed.

Lemma filter_visible_drop s :
  filter visible (drop_while is_white_space s) = filter visible s.
Proof.
  induction s as [| c s IH]; simpl; [reflexivity |].
  unfold visible at 2.
  destruct (is_white_space c) eqn:W; simpl; [exact IH |].
  unfold visible at 1; now rewrite W.
Qed.

Lemma filter_rev {A : Type} (f : A -> bool) (l : list A) :
  filter f (rev l) = rev (filter f l).
Proof.
  induction l as [| a l IH]; simpl; [reflexivity |].
  rewrite filter_app, IH; simpl; destruct (f a); simpl;
    [reflexivity | apply app_nil_r].
Qed.

Lemma filter_visible_trim s : filter visible (trim s) = filter visible s.
Proof.
  unfold trim.
  rewrite filter_rev, filter_visible_drop, filter_rev, rev_involutive.
  apply filter_visible_drop.
Qed.

(** X14: the words the analysis counts are the maximal runs of characters
    that are not whitespace: none is empty, none contains whitespace, and
    joined together they are the text with its whitespace removed.  So the
    word count is 0 exactly for the texts [synthesizeSpeech] rejects as
    blank, and it never exceeds the character count. *)
Theorem words_are_the_visible_runs :
  forall text : jsstring,
    Forall (fun w => w <> [] /\ forallb visible w = true) (words text)
    /\ List.concat (words text) = filter visible text
    /\ (wordCount_of text = 0%nat <-> is_blank text = true)
    /\ (wordCount_of text <= characterCount_of text)%nat.
Proof.
  intros text.
  assert (F : Forall (fun w => w <> [] /\ forallb visible w = true)
                (words text)).
  { unfold words, split_whitespace.
    pose proof (split_ws_visible false [] (trim text) eq_refl) as V.
    rewrite Forall_forall in *; intros w Hw.
    apply filter_In in Hw as [Hw T]; split; [| now apply V].
    destruct w; [discriminate | discriminate]. }
  assert (C : List.concat (words text) = filter visible text).
  { unfold words, split_whitespace.
    rewrite split_ws_concat; simpl; apply filter_visible_trim. }
  split; [exact F | split; [exact C | split]].
  - unfold wordCount_of; split.
    + intros L; apply length_zero_iff_nil in L.
      rewrite L in C; simpl in C.
      apply is_blank_spec, forallb_forall; intros c Hc.
      destruct (is_white_space c) eqn:W; [reflexivity |].
      assert (I : In c (filter visible text))
        by (apply filter_In; split; [exact Hc | unfold visible; now rewrite W]).
      rewrite <- C in I; destruct I.
    + intros B; apply is_blank_spec in B.
      destruct (words text) as [| w l] eqn:E; [reflexivity | exfalso].
      inversion F as [| ? ? [Hne Hv] _]; subst.
      destruct w as [| c w]; [now apply Hne |].
      assert (I : In c (filter visible text))
        by (rewrite <- C; simpl; now left).
      apply filter_In in I as [I V].
      rewrite forallb_forall in B; specialize (B c I).
      unfold visible in V; rewrite B in V; discriminate.
  - unfold wordCount_of, characterCount_of.
    apply Nat.le_trans with (List.length (List.concat (words text))).
    + clear C; induction F as [| w l [Hne _] _ IH]; simpl; [lia |].
      rewrite length_app; destruct w; [now destruct Hne | simpl; lia].
    + rewrite C; apply filter_length_le.
Qed.

(** * Properties of the other routes *)



(** X16: the voices route and both text-to-speech handlers answer with
    status 500 and their fixed error, without any call to the Gateway, when
    the credential is missing or empty. *)
Theorem credential_checked_routes_refuse_without_calling :
  forall (apiKey : option jsstring) (request_json : option tts_body)
         (voices : gateway_reply (list Voice)) (speech : reply bytes),
    truthy (field_or apiKey []) = false ->
    VoicesRoute.GET apiKey voices
    = (None, mkResult 500 (BError (lit "Failed to fetch voices")))
    /\ AppApiTts.POST apiKey request_json speech = (None, tts_failure)
    /\ SrcAppApiTts.POST apiKey request_json speech = (None, tts_failure).
Proof.
  intros apiKey request_json voices speech H.
  unfold VoicesRoute.GET, AppApiTts.POST, SrcAppApiTts.POST; rewrite H.
  repeat split.
Qed.

Lemma credential_checked_routes_refuse_without_calling_witness :
  VoicesRoute.GET (Some []) (GAnswered 200 [Sample.rachel])
  = (None, mkResult 500 (BError (lit "Failed to fetch voices"))).
Proof.
  apply (credential_checked_routes_refuse_without_calling (Some []) None
           (GAnswered 200 [Sample.rachel]) (Rejected [])).
  reflexivity.
Defined.






(** * The component and the routes together *)

(** The clone route accepts the form the component builds. *)
Lemma clone_route_accepts_client_form :
  forall (apiKey : option jsstring) (name : jsstring) (file : File)
         (answer : gateway_reply add_voice_json),
    name <> [] ->
    CloneVoiceRoute.POST apiKey (Form (client_form name [file])) answer
    = (Some
         (mkGatewayCall "POST" (gateway ++ lit "/voices/add")
            (key_asserted apiKey) (FormPayload (client_form name [file]))),
       relay_clone answer).
Proof.
  intros apiKey [| c name] file answer H; [contradiction | reflexivity].
Qed.





(** What the component makes of an answer that is not [ok]. *)
Lemma synthesize_not_ok :
  forall (r : State) (unread : option bytes) (decodable : bool) (w : World),
    is_blank (text r) = false ->
    let run :=
      synthesizeSpeech r (Response (mkResponse false unread)) decodable w in
    savedAudio (ui (after run)) = savedAudio (ui w)
    /\ audioHistory (ui (after run)) = audioHistory (ui w)
    /\ In (EToast synthesis_failed_toast) (effects run).
Proof.
  intros r unread decodable w H run; subst run.
  unfold synthesizeSpeech; rewrite H.
  destruct unread; world_cases w; destruct decodable;
    (split; [reflexivity | split; [reflexivity | in_effects]]).
Qed.

(** X19: through the route that reads the voice settings, a synthesis of the
    component reaches the Gateway with the text, the voice and the four
    settings of the calling render (a style the render lacks becomes 0), the
    configured key and the multilingual model.  When the Gateway answers
    [ok] with bytes, those bytes are the saved artifact's data; in every
    other case the component gets a response that is not [ok], keeps
    artifact and history, and shows the failure notification. *)
Theorem synthesis_through_route :
  forall (r : State) (key : jsstring) (gateway_answer : reply bytes)
         (decodable : bool) (w : World),
    is_blank (text r) = false ->
    key <> [] ->
    let payload :=
      TtsJson (text r) (selectedVoice r) (idx0 (stability r))
        (idx0 (similarity r)) (idx0 (style r)) (speakerBoost r) in
    let route :=
      AppApiTts.POST (Some key) (tts_body_of payload) gateway_answer in
    fst route
    = Some
        (mkGatewayRequest (Some (JString (selectedVoice r))) key "audio/mpeg"
           (Some (JString (text r)))
           (Some (JString (lit "eleven_multilingual_v2")))
           (mkVoiceSettings (json_of_number (idx0 (stability r)))
              (json_of_number (idx0 (similarity r)))
              (Some
                 match idx0 (style r) with
                 | Some q => JNumber q
                 | None => JNumber (0 # 1)
                 end)
              (Some (JBool (speakerBoost r)))))
    /\ forall answer : reply bytes,
         tts_served (snd route) answer ->
         let run := synthesizeSpeech r answer decodable w in
         (forall data,
            gateway_answer = success data ->
            answer = success data
            /\ savedAudio (ui (after run)) = Some (artifact r data (clock w)))
         /\ ((forall data, gateway_answer <> success data) ->
             savedAudio (ui (after run)) = savedAudio (ui w)
             /\ audioHistory (ui (after run)) = audioHistory (ui w)
             /\ In (EToast synthesis_failed_toast) (effects run)).
Proof.
  intros r [| c key] gateway_answer decodable w H K payload route;
    [contradiction |].
  subst route payload; cbn [tts_body_of].
  split; [cbn; destruct (idx0 (style r)); reflexivity |].
  intros answer S.
  destruct gateway_answer as [m | [[|] [data |]]]; cbn in S;
    inversion S; subst; clear S.
  - split; [discriminate |].
    intros _; now apply synthesize_not_ok.
  - split.
    + intros d E; inversion E; subst; split; [reflexivity |].
      now apply synthesize_artifact.
    + intros F; exfalso; now apply (F data).
  - split; [discriminate |].
    intros _; now apply synthesize_not_ok.
  - split; [discriminate |].
    intros _; now apply synthesize_not_ok.
  - split; [discriminate |].
    intros _; now apply synthesize_not_ok.
Qed.

Lemma synthesis_through_route_witness :
  fst (AppApiTts.POST (Some (lit "key"))
         (tts_body_of
            (TtsJson (text Sample.ready) (selectedVoice Sample.ready)
               (idx0 (stability Sample.ready))
               (idx0 (similarity Sample.ready)) (idx0 (style Sample.ready))
               (speakerBoost Sample.ready)))
         (success Sample.audio))
  = Some
      (mkGatewayRequest (Some (JString (selectedVoice Sample.ready)))
         (lit "key") "audio/mpeg" (Some (JString (text Sample.ready)))
         (Some (JString (lit "eleven_multilingual_v2")))
         (mkVoiceSettings (json_of_number (idx0 (stability Sample.ready)))
            (json_of_number (idx0 (similarity Sample.ready)))
            (Some
               match idx0 (style Sample.ready) with
               | Some q => JNumber q
               | None => JNumber (0 # 1)
               end)
            (Some (JBool (speakerBoost Sample.ready))))).
Proof.
  apply (synthesis_through_route Sample.ready (lit "key")
           (success Sample.audio) true (Sample.world_of Sample.ready));
    [reflexivity | discriminate].
Defined.

Lemma fetch_in_filter :
  forall (method : string) (url : jsstring) (payload : request_body)
         (log : list effect),
    In (EFetch method url payload) log ->
    In (EFetch method url payload) (filter is_fetch log).
Proof.
  intros method url payload log H; apply filter_In; split; [exact H |].
  reflexivity.
Qed.

(** X20: the clone dialog's form does nothing at all when the name is empty
    or when there is neither an uploaded file nor a recording.  Every
    request it does send is a clone request under the entered name, with the
    uploaded file when there is one (also beside a recording), and it passes
    the validation of the clone route. *)
Theorem submitted_clone_form_passes_validation :
  forall (answer : reply clone_json) (w : World) (apiKey : option jsstring)
         (gateway_answer : gateway_reply add_voice_json),
    let run := submit_clone_form answer w in
    (voiceName (ui w) = []
     \/ (selectedFile (ui w) = None /\ recordedAudio (ui w) = None) ->
     run = mkRun (Ret tt) w [])
    /\ forall method url payload,
         In (EFetch method url payload) (effects run) ->
         voiceName (ui w) <> []
         /\ (exists fileOrBlob,
               payload = CloneForm (voiceName (ui w)) [form_file fileOrBlob]
               /\ match selectedFile (ui w) with
                  | Some file => fileOrBlob = UploadedFile file
                  | None =>
                      exists blob,
                        recordedAudio (ui w) = Some blob
                        /\ fileOrBlob = RecordedBlob blob
                  end)
         /\ snd (CloneVoiceRoute.POST apiKey (form_of payload) gateway_answer)
            = relay_clone gateway_answer.
Proof.
  intros answer w apiKey gateway_answer run; subst run.
  unfold submit_clone_form.
  split.
  - intros [E | [E F]].
    + rewrite E; destruct (selectedFile (ui w)), (recordedAudio (ui w));
        reflexivity.
    + rewrite E, F; reflexivity.
  - intros method url payload H.
    assert (S : forall fileOrBlob,
               In (EFetch method url payload)
                 (effects
                    (handleVoiceCloning fileOrBlob (voiceName (ui w)) answer
                       w)) ->
               voiceName (ui w) <> [] ->
               payload
               = CloneForm (voiceName (ui w)) [form_file fileOrBlob]
               /\ snd (CloneVoiceRoute.POST apiKey (form_of payload)
                         gateway_answer)
                  = relay_clone gateway_answer).
    { intros x I N; apply fetch_in_filter in I.
      rewrite cloning_fetches in I; destruct I as [I | []].
      inversion I; subst; split; [reflexivity |].
      cbn [form_of]; unfold form_file, instanceof_Blob.
      now rewrite clone_route_accepts_client_form. }
    destruct (selectedFile (ui w)) as [file |] eqn:F.
    + destruct (voiceName (ui w)) as [| c name] eqn:V; [destruct H |].
      destruct (S (UploadedFile file) H) as [P R]; [discriminate |].
      split; [discriminate | split; [| exact R]].
      exists (UploadedFile file); auto.
    + destruct (recordedAudio (ui w)) as [blob |] eqn:B; [| destruct H].
      destruct (voiceName (ui w)) as [| c name] eqn:V; [destruct H |].
      destruct (S (RecordedBlob blob) H) as [P R]; [discriminate |].
      split; [discriminate | split; [| exact R]].
      exists (RecordedBlob blob); split; [exact P | eauto].
Qed.

Lemma submitted_clone_form_passes_validation_witness :
  submit_clone_form (cloned (lit "v9") None) (initial_world 0)
  = mkRun (Ret tt) (initial_world 0) [].
Proof.
  apply (submitted_clone_form_passes_validation (cloned (lit "v9") None)
           (initial_world 0) None (GRejected [])).
  left; reflexivity.
Defined.

(** * Properties of the rest of the page *)

Ltac reply_cases answer :=
  destruct answer as [? | [[|] [? |]]].

(** X21: loading the voices sends one GET to [/api/voices], never throws and
    always ends with [isLoadingVoices] false.  An [ok] answer replaces the
    list; the first voice of the answer becomes the selected one only when
    the answer is not empty and the calling render had no selection, and
    otherwise the selection stays, also when the selected voice is not in
    the new list.  Any other answer leaves list and selection as they were
    and shows the failure notification; that is what happens through the
    voices route when the credential is missing. *)
Theorem fetch_voices_outcomes :
  forall (r : State) (answer : reply (list Voice)) (p : Page),
    let run := fetchVoices r answer p in
    let live := ui (ttsApp p) in
    let final := ui (ttsApp (p_after run)) in
    p_value run = Ret tt
    /\ isLoadingVoices (p_after run) = false
    /\ filter is_page_fetch (p_effects run)
       = [Core (EFetch "GET" (lit "/api/voices") NoBody)]
    /\ (forall voicesData,
          answer = success voicesData ->
          voices final = voicesData
          /\ selectedVoice final
             = match voicesData with
               | first :: _ =>
                   if truthy (selectedVoice r) then selectedVoice live
                   else voice_id first
               | [] => selectedVoice live
               end)
    /\ ((forall voicesData, answer <> success voicesData) ->
        voices final = voices live
        /\ selectedVoice final = selectedVoice live
        /\ In (Core (EToast fetch_voices_failed_toast)) (p_effects run))
    /\ (forall apiKey gateway_answer,
          truthy (field_or apiKey []) = false ->
          answer
          = voices_answer_of (snd (VoicesRoute.GET apiKey gateway_answer)) ->
          fst (VoicesRoute.GET apiKey gateway_answer) = None
          /\ voices final = voices live).
Proof.
  intros r answer p run live final; subst run live final.
  assert (F : (forall voicesData, answer <> success voicesData) ->
              voices (ui (ttsApp (p_after (fetchVoices r answer p))))
              = voices (ui (ttsApp p))
              /\ selectedVoice (ui (ttsApp (p_after (fetchVoices r answer p))))
                 = selectedVoice (ui (ttsApp p))
              /\ In (Core (EToast fetch_voices_failed_toast))
                   (p_effects (fetchVoices r answer p))).
  { intros N; reply_cases answer;
      try (exfalso; eapply N; reflexivity);
      (split; [reflexivity | split; [reflexivity | in_effects]]). }
  split; [| split; [| split; [| split; [| split; [exact F |]]]]].
  - destruct answer as [m | [[|] [[| first rest] |]]]; try reflexivity;
      unfold fetchVoices; cbn; destruct (truthy (selectedVoice r));
      reflexivity.
  - destruct answer as [m | [[|] [[| first rest] |]]]; try reflexivity;
      unfold fetchVoices; cbn; destruct (truthy (selectedVoice r));
      reflexivity.
  - destruct answer as [m | [[|] [[| first rest] |]]]; try reflexivity;
      unfold fetchVoices; cbn; destruct (truthy (selectedVoice r));
      reflexivity.
  - intros voicesData ->.
    destruct voicesData as [| first rest]; [split; reflexivity |].
    unfold fetchVoices; cbn.
    destruct (truthy (selectedVoice r)); split; reflexivity.
  - intros apiKey gateway_answer K E.
    unfold VoicesRoute.GET in *; rewrite K in *; cbn in E.
    split; [reflexivity |].
    apply F; intros voicesData; rewrite E; discriminate.
Qed.

Lemma fetch_voices_outcomes_witness :
  voices
    (ui (ttsApp (p_after
                (fetchVoices initial_state
                   (voices_answer_of
                      (snd (VoicesRoute.GET None
                              (GAnswered 200 [Sample.rachel]))))
                   (initial_page 0)))))
  = [].
Proof.
  destruct (fetch_voices_outcomes initial_state
              (voices_answer_of
                 (snd (VoicesRoute.GET None (GAnswered 200 [Sample.rachel]))))
              (initial_page 0))
    as (_ & _ & _ & _ & _ & R).
  destruct (R None (GAnswered 200 [Sample.rachel]) eq_refl eq_refl)
    as [_ V].
  exact V.
Defined.

(** X22: [resetSettings] sets stability to 0.5, similarity to 0.75, speed
    to 1 and pitch to 0 and clears the selected preset; it leaves the style,
    the speaker boost, the selected voice and the volume as they are.  So
    after a preset was loaded, a reset keeps the preset's style, speaker
    boost and voice; and the similarity it sets is not the one the page
    starts with. *)
Theorem reset_settings_is_partial :
  forall p : Page,
    let before := ui (ttsApp p) in
    let final := p_after (resetSettings p) in
    p_value (resetSettings p) = Ret tt
    /\ stability (ui (ttsApp final)) = [num (1 # 2)]
    /\ similarity (ui (ttsApp final)) = [num (3 # 4)]
    /\ speed final = [num (1 # 1)]
    /\ pitch final = [num (0 # 1)]
    /\ selectedPreset (ui (ttsApp final)) = None
    /\ style (ui (ttsApp final)) = style before
    /\ speakerBoost (ui (ttsApp final)) = speakerBoost before
    /\ selectedVoice (ui (ttsApp final)) = selectedVoice before
    /\ volume (ui (ttsApp final)) = volume before
    /\ similarity (ui (ttsApp final)) <> similarity initial_state
    /\ forall (r : State) (presetId : jsstring) (preset : VoicePreset),
         preset_of (presets r) presetId = Some preset ->
         let loaded := p_after (lift (loadPreset r presetId) p) in
         let reset := ui (ttsApp (p_after (resetSettings loaded))) in
         selectedPreset (ui (ttsApp loaded)) = Some presetId
         /\ selectedPreset reset = None
         /\ style reset = [s_style (settings preset)]
         /\ speakerBoost reset = use_speaker_boost (settings preset)
         /\ selectedVoice reset = p_voiceId preset.
Proof.
  intros p before final; subst before final.
  repeat (split; [reflexivity |]).
  split; [discriminate |].
  intros r presetId preset H loaded reset; subst reset loaded.
  unfold lift.
  destruct (load_found r presetId preset (ttsApp p) H)
    as (V & _ & _ & Y & B & S).
  repeat split; assumption.
Qed.

Lemma reset_settings_is_partial_witness :
  let loaded :=
    p_after
      (lift (loadPreset Sample.with_stored_preset (toString 1700000000000))
         (initial_page 0)) in
  selectedPreset (ui (ttsApp (p_after (resetSettings loaded)))) = None
  /\ selectedVoice (ui (ttsApp (p_after (resetSettings loaded))))
     = p_voiceId Sample.stored_preset.
Proof.
  destruct (reset_settings_is_partial (initial_page 0))
    as (_ & _ & _ & _ & _ & _ & _ & _ & _ & _ & _ & L).
  destruct (L Sample.with_stored_preset (toString 1700000000000)
              Sample.stored_preset eq_refl)
    as (_ & N & _ & _ & V).
  split; [exact N | exact V].
Defined.

(** ** Downloads *)

Lemma existsb_appended (a : nat) (l : list nat) :
  existsb (Nat.eqb a) (l ++ [a]) = true.
Proof.
  rewrite existsb_app; simpl; rewrite Nat.eqb_refl.
  now rewrite orb_true_r.
Qed.

Lemma remove_appended (a : nat) (l : list nat) :
  remove Nat.eq_dec a (remove Nat.eq_dec a l ++ [a]) = remove Nat.eq_dec a l.
Proof.
  rewrite remove_app, remove_remove_eq; simpl.
  destruct (Nat.eq_dec a a) as [_ | N]; [apply app_nil_r | now destruct N].
Qed.

Lemma remove_fresh (n : nat) (l : list nat) :
  forallb (fun a => a <? n)%nat l = true -> remove Nat.eq_dec n l = l.
Proof.
  intros H; apply notin_remove; intros I.
  rewrite forallb_forall in H; apply H in I.
  apply Nat.ltb_lt in I; lia.
Qed.

Lemma filter_fresh (n : nat) (l : list (nat * Blob)) :
  forallb (fun entry => fst entry <? n)%nat l = true ->
  filter (fun entry => negb (Nat.eqb (fst entry) n)) l = l.
Proof.
  induction l as [| [u b] l IH]; simpl; [reflexivity |].
  intros H; apply andb_prop in H; destruct H as [U H].
  apply Nat.ltb_lt in U.
  destruct (Nat.eqb_spec u n) as [E | _]; [lia |].
  simpl; now rewrite IH.
Qed.

Lemma find_filtered_out (n : nat) (l : list (nat * Blob)) :
  find (fun entry => Nat.eqb (fst entry) n)
    (filter (fun entry => negb (Nat.eqb (fst entry) n)) l)
  = None.
Proof.
  induction l as [| [u b] l IH]; simpl; [reflexivity |].
  destruct (Nat.eqb u n) eqn:E; simpl; [exact IH |].
  now rewrite E.
Qed.

Lemma forallb_weaken (n : nat) (l : list nat) :
  forallb (fun a => a <? n)%nat l = true ->
  forallb (fun a => a <? S n)%nat l = true.
Proof.
  rewrite !forallb_forall; intros H a I; apply H in I.
  apply Nat.ltb_lt in I; apply Nat.ltb_lt; lia.
Qed.

Lemma forallb_weaken_fst (n : nat) (l : list (nat * Blob)) :
  forallb (fun entry => fst entry <? n)%nat l = true ->
  forallb (fun entry => fst entry <? S n)%nat l = true.
Proof.
  rewrite !forallb_forall; intros H a I; apply H in I.
  apply Nat.ltb_lt in I; apply Nat.ltb_lt; lia.
Qed.

(** One download: the object URL is made, clicked while it is registered,
    and revoked; the anchor is appended and removed. *)
Lemma exportAudioBlob_run (audioBlob : Blob) (filename : jsstring) (p : Page) :
  let run := exportAudioBlob audioBlob filename p in
  p_value run = Ret tt
  /\ p_effects run
     = [ECreateObjectURL (next_url p) audioBlob;
        ECreateElement (next_element p);
        EAppendChild (next_element p);
        EClick filename (Some audioBlob);
        ERevokeObjectURL (next_url p);
        ERemoveChild (next_element p)]
  /\ ttsApp (p_after run) = ttsApp p
  /\ object_urls (p_after run)
     = filter (fun entry => negb (Nat.eqb (fst entry) (next_url p)))
         (object_urls p)
  /\ body_children (p_after run)
     = remove Nat.eq_dec (next_element p) (body_children p)
  /\ next_url (p_after run) = S (next_url p)
  /\ next_element (p_after run) = S (next_element p).
Proof.
  unfold exportAudioBlob, page_bind, createObjectURL, createElement_a,
    appendChild, click, revokeObjectURL, removeChild, resolve.
  cbn -[remove Nat.eqb existsb].
  rewrite existsb_appended.
  cbn -[remove Nat.eqb].
  rewrite !Nat.eqb_refl, remove_appended.
  repeat split; reflexivity.
Qed.

Lemma page_bind_ret {A B : Type} (c : P A) (k : A -> P B) (p : Page) (a : A) :
  p_value (c p) = Ret a ->
  page_bind c k p
  = mkPageRun (p_value (k a (p_after (c p)))) (p_after (k a (p_after (c p))))
      (p_effects (c p) ++ p_effects (k a (p_after (c p)))).
Proof.
  unfold page_bind; intros ->; reflexivity.
Qed.

Lemma handleExportAudio_run (r : State) (toISOString : N -> jsstring)
  (saved : SavedAudio) (p : Page) :
  savedAudio r = Some saved ->
  let run := handleExportAudio r toISOString p in
  let filename :=
    lit "tts-" ++ firstn 10 (toISOString (clock (ttsApp p))) ++ lit ".mp3" in
  p_value run = Ret tt
  /\ p_effects run
     = [ECreateObjectURL (next_url p) (blob saved);
        ECreateElement (next_element p);
        EAppendChild (next_element p);
        EClick filename (Some (blob saved));
        ERevokeObjectURL (next_url p);
        ERemoveChild (next_element p);
        Core (EToast (mkToast (lit "Success")
                        (lit "Audio file downloaded successfully") false))]
  /\ ttsApp (p_after run) = ttsApp p
  /\ object_urls (p_after run)
     = filter (fun entry => negb (Nat.eqb (fst entry) (next_url p)))
         (object_urls p)
  /\ body_children (p_after run)
     = remove Nat.eq_dec (next_element p) (body_children p)
  /\ next_url (p_after run) = S (next_url p)
  /\ next_element (p_after run) = S (next_element p).
Proof.
  intros H run filename; subst run.
  unfold handleExportAudio; rewrite H.
  rewrite (page_bind_ret _ _ p (clock (ttsApp p))) by reflexivity.
  fold filename.
  set (q := p_after (lift Date_now p)).
  destruct (exportAudioBlob_run (blob saved) filename q)
    as (V & E & A & U & C & NU & NE).
  rewrite (page_bind_ret _ _ q tt) by exact V.
  cbn [p_value p_after p_effects].
  rewrite E.
  split; [reflexivity |].
  split; [reflexivity |].
  split; [unfold lift at 1; cbn [p_after ttsApp with_ttsApp]; exact A |].
  split; [exact U |].
  split; [exact C |].
  split; [exact NU | exact NE].
Qed.

(** X23: without a saved artifact, the export shows its error notification
    and does nothing else.  With one, it offers exactly the artifact's blob
    for download, once, under [tts-] followed by the first ten characters of
    the current ISO date and [.mp3]; the object URL it made no longer
    resolves afterwards and its anchor is no child of the document, so the
    registered URLs and the document's children are as before; the hooks of
    [TTSApp] are untouched.  After a synthesis that succeeded, the blob
    offered is the bytes that the synthesis received, typed [audio/mpeg]. *)
Theorem export_offers_the_saved_artifact :
  forall (r : State) (toISOString : N -> jsstring) (p : Page),
    let run := handleExportAudio r toISOString p in
    let filename :=
      lit "tts-" ++ firstn 10 (toISOString (clock (ttsApp p))) ++ lit ".mp3" in
    (savedAudio r = None ->
     p_effects run
     = [Core (EToast (mkToast (lit "Error")
                        (lit "No audio available to export") true))]
     /\ filter is_document_op (p_effects run) = []
     /\ ttsApp (p_after run) = ttsApp p)
    /\ (forall saved,
          savedAudio r = Some saved ->
          p_value run = Ret tt
          /\ filter is_click (p_effects run)
             = [EClick filename (Some (blob saved))]
          /\ resolve (next_url p) (p_after run) = None
          /\ ~ In (next_element p) (body_children (p_after run))
          /\ ttsApp (p_after run) = ttsApp p
          /\ (dom_ok p = true ->
              object_urls (p_after run) = object_urls p
              /\ body_children (p_after run) = body_children p
              /\ dom_ok (p_after run) = true))
    /\ (forall (earlier : State) (data : bytes) (decodable : bool) (w : World),
          is_blank (text earlier) = false ->
          r
          = ui (after (synthesizeSpeech earlier (success data) decodable w)) ->
          filter is_click (p_effects run)
          = [EClick filename (Some (mkBlob data "audio/mpeg"))]).
Proof.
  intros r toISOString p run filename.
  assert (S : forall saved,
             savedAudio r = Some saved ->
             filter is_click (p_effects run)
             = [EClick filename (Some (blob saved))]).
  { intros saved H.
    destruct (handleExportAudio_run r toISOString saved p H)
      as (_ & E & _).
    subst run; rewrite E; reflexivity. }
  split; [| split].
  - intros H; subst run; unfold handleExportAudio; rewrite H.
    repeat split.
  - intros saved H.
    destruct (handleExportAudio_run r toISOString saved p H)
      as (V & E & A & U & C & NU & NE).
    fold run in V, E, A, U, C, NU, NE.
    split; [exact V |].
    split; [now apply S |].
    split; [unfold resolve; rewrite U, find_filtered_out; reflexivity |].
    split; [rewrite C; apply remove_In |].
    split; [exact A |].
    intros D; unfold dom_ok in *.
    apply andb_prop in D; destruct D as [DC DU].
    rewrite U, C, NU, NE, filter_fresh, remove_fresh by assumption.
    split; [reflexivity | split; [reflexivity |]].
    now rewrite forallb_weaken, forallb_weaken_fst.
  - intros earlier data decodable w B R.
    rewrite (S (artifact earlier data (clock w))); [reflexivity |].
    rewrite R; now apply synthesize_artifact.
Qed.

Lemma export_offers_the_saved_artifact_witness :
  p_effects
    (handleExportAudio initial_state (fun _ => lit "2024-05-01T10:00:00.000Z")
       (initial_page 0))
  = [Core (EToast (mkToast (lit "Error") (lit "No audio available to export")
                     true))].
Proof.
  apply (export_offers_the_saved_artifact initial_state
           (fun _ => lit "2024-05-01T10:00:00.000Z") (initial_page 0)).
  reflexivity.
Defined.






(** ** The history list *)

Lemma set_has_in (id : jsstring) (s : list jsstring) :
  set_has id s = true <-> In id s.
Proof.
  unfold set_has; rewrite existsb_exists; split.
  - intros (x & I & E); apply str_eqb_eq in E; now subst.
  - intros I; exists id; split; [exact I | apply str_eqb_refl].
Qed.

Lemma set_has_delete (x id : jsstring) (s : list jsstring) :
  set_has x (set_delete id s) = set_has x s && negb (str_eqb id x).
Proof.
  unfold set_has, set_delete.
  induction s as [| y s IH]; simpl; [reflexivity |].
  destruct (str_eqb id y) eqn:E; simpl.
  - rewrite IH; apply str_eqb_eq in E; subst y.
    destruct (str_eqb x id) eqn:X; simpl; [| reflexivity].
    apply str_eqb_eq in X; subst x; rewrite str_eqb_refl; simpl.
    now rewrite andb_false_r.
  - rewrite IH; destruct (str_eqb x y) eqn:X; simpl; [| reflexivity].
    apply str_eqb_eq in X; subst y; now rewrite E.
Qed.

Lemma set_has_appended (x id : jsstring) (s : list jsstring) :
  set_has x (s ++ [id]) = set_has x s || str_eqb x id.
Proof.
  unfold set_has; rewrite existsb_app; simpl; now rewrite orb_false_r.
Qed.

Lemma str_eqb_sym (a b : jsstring) : str_eqb a b = str_eqb b a.
Proof.
  destruct (str_eqb a b) eqn:E.
  - apply str_eqb_eq in E; subst; symmetry; apply str_eqb_refl.
  - destruct (str_eqb b a) eqn:F; [| reflexivity].
    apply str_eqb_eq in F; subst; now rewrite str_eqb_refl in E.
Qed.

Lemma set_has_toggled (x id : jsstring) (s : list jsstring) :
  set_has x (toggled id s)
  = if str_eqb id x then negb (set_has id s) else set_has x s.
Proof.
  unfold toggled, set_add.
  destruct (set_has id s) eqn:H.
  - rewrite set_has_delete.
    destruct (str_eqb id x) eqn:E; simpl;
      [apply andb_false_r | apply andb_true_r].
  - rewrite set_has_appended, (str_eqb_sym x id).
    destruct (str_eqb id x) eqn:E; simpl;
      [apply orb_true_r | apply orb_false_r].
Qed.

(** X25: [toggleExpand] acts on the live set.  It flips whether the id is
    expanded and leaves every other id as it was, so toggling the same id
    twice gives back the same set of expanded items; and a set without
    repeated ids stays one. *)
Theorem toggle_expand_flips_one_id :
  forall (id : jsstring) (p : Page),
    let before := expandedItems p in
    let final := expandedItems (p_after (toggleExpand id p)) in
    final = toggled id before
    /\ set_has id final = negb (set_has id before)
    /\ (forall other, other <> id -> set_has other final = set_has other before)
    /\ (forall x, set_has x (toggled id final) = set_has x before)
    /\ (NoDup before -> NoDup final)
    /\ historyItems (p_after (toggleExpand id p)) = historyItems p.
Proof.
  intros id p before final.
  assert (E : final = toggled id before) by reflexivity.
  rewrite E; clear E final.
  split; [reflexivity |].
  split; [rewrite set_has_toggled, str_eqb_refl; reflexivity |].
  split.
  { intros other N; rewrite set_has_toggled.
    destruct (str_eqb id other) eqn:X; [| reflexivity].
    apply str_eqb_eq in X; congruence. }
  split.
  { intros x; rewrite !set_has_toggled.
    destruct (str_eqb id x) eqn:X; [| reflexivity].
    rewrite str_eqb_refl, negb_involutive.
    apply str_eqb_eq in X; now subst. }
  split; [| reflexivity].
  intros D; unfold toggled, set_add.
  destruct (set_has id before) eqn:H.
  - now apply NoDup_filter.
  - apply NoDup_app; [exact D | repeat constructor; intros [] |].
    intros a I [<- | []].
    apply set_has_in in I; congruence.
Qed.

Lemma toggle_expand_flips_one_id_witness :
  NoDup
    (expandedItems
       (p_after (toggleExpand (lit "h1") (initial_page 0)))).
Proof.
  apply (toggle_expand_flips_one_id (lit "h1") (initial_page 0)).
  constructor.
Defined.

(** X26: through its route, a deletion from the history sends one DELETE
    for the id, to the Gateway with the same id, and never throws.  When the
    Gateway answers [ok], every item with that id leaves the live list, the
    others stay in their order, and the success notification is shown.
    Otherwise the list is as before and the failure notification is
    shown. *)
Theorem history_deletion_through_route :
  forall (historyItemId : jsstring) (apiKey : option jsstring)
         (gateway_answer : gateway_reply unit) (unread : option unit)
         (p : Page),
    let route := HistoryItemRoute.DELETE apiKey historyItemId gateway_answer in
    let run :=
      handleDeleteHistoryItem historyItemId (answer_of (snd route) unread) p in
    p_value run = Ret tt
    /\ filter is_page_fetch (p_effects run)
       = [Core (EFetch "DELETE" (lit "/api/history/" ++ historyItemId)
                  NoBody)]
    /\ option_map c_url (fst route)
       = Some (gateway ++ lit "/history/" ++ historyItemId)
    /\ (gateway_ok gateway_answer = true ->
        historyItems (p_after run)
        = filter
            (fun item => negb (str_eqb (history_item_id item) historyItemId))
            (historyItems p)
        /\ (forall item,
              In item (historyItems (p_after run)) <->
              In item (historyItems p)
              /\ history_item_id item <> historyItemId)
        /\ In (Core (EToast (mkToast (lit "Success")
                               (lit "History item deleted successfully")
                               false)))
             (p_effects run))
    /\ (gateway_ok gateway_answer = false ->
        historyItems (p_after run) = historyItems p
        /\ In (Core (EToast
                       (history_error_toast "Failed to delete history item")))
             (p_effects run)).
Proof.
  intros historyItemId apiKey gateway_answer unread p route run.
  assert (R : snd route
              = if gateway_ok gateway_answer then mkResult 200 BSuccess
                else mkResult 500
                       (BError (lit "Failed to delete history item"))).
  { subst route; destruct gateway_answer as [m | st [] | st m]; cbn;
      try destruct (ok_status st); reflexivity. }
  subst run; rewrite R.
  destruct (gateway_ok gateway_answer).
  - split; [reflexivity |].
    split; [reflexivity |].
    split; [reflexivity |].
    split; [| discriminate].
    intros _; split; [reflexivity |].
    split; [| in_effects].
    intros item.
    change (historyItems (p_after _))
      with (filter
              (fun item =>
                 negb (str_eqb (history_item_id item) historyItemId))
              (historyItems p)).
    rewrite filter_In, negb_true_iff, str_eqb_neq; reflexivity.
  - split; [reflexivity |].
    split; [reflexivity |].
    split; [reflexivity |].
    split; [discriminate |].
    intros _; split; [reflexivity | in_effects].
Qed.

Lemma history_deletion_through_route_witness :
  historyItems
    (p_after
       (handleDeleteHistoryItem (lit "h1")
          (answer_of
             (snd (HistoryItemRoute.DELETE None (lit "h1") (GAnswered 401 tt)))
             None)
          (initial_page 0)))
  = [].
Proof.
  apply (history_deletion_through_route (lit "h1") None (GAnswered 401 tt)
           None (initial_page 0)).
  reflexivity.
Defined.

(** X27: refreshing the history sends one GET to [/api/history], never
    throws and always ends with the loading flag false.  An [ok] answer
    replaces the items by the answer's [history], and by the empty list when
    the answer has none; any other answer leaves the items as they were and
    shows the failure notification. *)
Theorem fetch_history_outcomes :
  forall (answer : reply history_json) (p : Page),
    let run := fetchHistory answer p in
    p_value run = Ret tt
    /\ history_isLoading (p_after run) = false
    /\ filter is_page_fetch (p_effects run)
       = [Core (EFetch "GET" (lit "/api/history") NoBody)]
    /\ (forall data,
          answer = success data ->
          historyItems (p_after run)
          = match history data with
            | Some items => items
            | None => []
            end)
    /\ ((forall data, answer <> success data) ->
        historyItems (p_after run) = historyItems p
        /\ In (Core (EToast
                       (history_error_toast "Failed to fetch history items")))
             (p_effects run)).
Proof.
  intros answer p run; subst run.
  destruct answer as [m | [[|] [data |]]];
    (split; [reflexivity |]); (split; [reflexivity |]);
    (split; [reflexivity |]); split;
    try (intros ? Q; inversion Q; subst; reflexivity);
    try (intros ? ; discriminate);
    try (intros N; exfalso; eapply N; reflexivity);
    intros _; (split; [reflexivity | in_effects]).
Qed.

Lemma fetch_history_outcomes_witness :
  historyItems
    (p_after
       (fetchHistory (success (mkHistoryJson None)) (initial_page 0)))
  = [].
Proof.
  destruct (fetch_history_outcomes (success (mkHistoryJson None))
              (initial_page 0))
    as (_ & _ & _ & H & _).
  exact (H (mkHistoryJson None) eq_refl).
Defined.

(** ** The voice selector *)

Lemma renamed_keeps (voiceId name : jsstring) (voices : list Voice) :
  map voice_id (renamed voiceId name voices) = map voice_id voices
  /\ map voice_category (renamed voiceId name voices)
     = map voice_category voices
  /\ map voice_name (renamed voiceId name voices)
     = map
         (fun voice =>
            if str_eqb (voice_id voice) voiceId then name
            else voice_name voice)
         voices.
Proof.
  unfold renamed; rewrite !map_map.
  repeat split; apply map_ext; intros v;
    destruct (str_eqb (voice_id v) voiceId); reflexivity.
Qed.

Lemma thin_route_answer {B : Type} (failure : jsstring)
  (answer : gateway_reply B) :
  ok_status (r_status (relay_success failure answer)) = gateway_ok answer.
Proof.
  destruct answer as [m | st b | st m]; cbn; try reflexivity;
    destruct (ok_status st); reflexivity.
Qed.

(** X28: [handleRename] does nothing when the dialog names no voice or the
    new name is blank.  Otherwise it sends one POST with the new name as
    typed, which the rename route passes to the Gateway for the same voice,
    and never throws.  When the Gateway answers [ok], the parent's list
    becomes the render's list with the new name on every voice of that id:
    ids, categories and order are kept and no other name changes; the
    dialog is closed and the input cleared.  Otherwise list, dialog and
    input stay and the failure notification is shown. *)
Theorem rename_through_route :
  forall (r : Page) (apiKey : option jsstring)
         (gateway_answer : gateway_reply unit) (unread : option unit)
         (p : Page),
    (truthy (field_or (d_voiceId (dialog r)) []) = false
     \/ is_blank (newVoiceName r) = true ->
     forall answer, handleRename r answer p = mkPageRun (Ret tt) p [])
    /\ forall voiceId,
         d_voiceId (dialog r) = Some voiceId ->
         voiceId <> [] ->
         is_blank (newVoiceName r) = false ->
         let request :=
           EFetchName (lit "/api/clone-voice/" ++ voiceId ++ lit "/name")
             (newVoiceName r) in
         let route :=
           CloneVoiceNameRoute.POST apiKey voiceId (name_json_of request)
             gateway_answer in
         let run := handleRename r (answer_of (snd route) unread) p in
         let updated :=
           renamed voiceId (newVoiceName r) (voices (ui (ttsApp r))) in
         p_value run = Ret tt
         /\ filter is_page_fetch (p_effects run) = [request]
         /\ fst route
            = Some
                (mkGatewayCall "POST" (gateway ++ lit "/voices/" ++ voiceId)
                   (key_or_empty apiKey)
                   (NameJson (Some (JString (newVoiceName r)))))
         /\ (gateway_ok gateway_answer = true ->
             voices (ui (ttsApp (p_after run))) = updated
             /\ map voice_id updated = map voice_id (voices (ui (ttsApp r)))
             /\ map voice_category updated
                = map voice_category (voices (ui (ttsApp r)))
             /\ map voice_name updated
                = map
                    (fun voice =>
                       if str_eqb (voice_id voice) voiceId then newVoiceName r
                       else voice_name voice)
                    (voices (ui (ttsApp r)))
             /\ dialog (p_after run) = mkDialogState Details None
             /\ newVoiceName (p_after run) = [])
         /\ (gateway_ok gateway_answer = false ->
             voices (ui (ttsApp (p_after run))) = voices (ui (ttsApp p))
             /\ dialog (p_after run) = dialog p
             /\ newVoiceName (p_after run) = newVoiceName p
             /\ In (Core (EToast rename_failed_toast)) (p_effects run)).
Proof.
  intros r apiKey gateway_answer unread p.
  split.
  - intros H answer; unfold handleRename.
    destruct H as [H | H]; rewrite H; [reflexivity |].
    now rewrite orb_true_r.
  - intros voiceId D N B request route run updated.
    assert (G : handleRename r (answer_of (snd route) unread) p
                = handleRename r
                    (Response (mkResponse (gateway_ok gateway_answer) unread))
                    p).
    { subst route; unfold answer_of, CloneVoiceNameRoute.POST.
      cbn [name_json_of request snd].
      now rewrite thin_route_answer. }
    subst run; rewrite G; clear G.
    destruct (renamed_keeps voiceId (newVoiceName r) (voices (ui (ttsApp r))))
      as (KI & KC & KN).
    unfold handleRename; rewrite D, B.
    destruct voiceId as [| c v]; [contradiction |].
    cbn [field_or str_or truthy negb orb].
    destruct (gateway_ok gateway_answer).
    + split; [reflexivity |].
      split; [reflexivity |].
      split; [reflexivity |].
      split; [| discriminate].
      intros _; repeat split; assumption.
    + split; [reflexivity |].
      split; [reflexivity |].
      split; [reflexivity |].
      split; [discriminate |].
      intros _; repeat split; in_effects.
Qed.

Lemma rename_through_route_witness :
  let r :=
    PageSample.renaming (lit "v1") (lit "Narrator")
      (PageSample.page_of (Sample.world_of Sample.ready)) in
  let route :=
    CloneVoiceNameRoute.POST None (lit "v1")
      (name_json_of
         (EFetchName (lit "/api/clone-voice/" ++ lit "v1" ++ lit "/name")
            (lit "Narrator")))
      (GAnswered 200 tt) in
  map voice_name
    (voices (ui (ttsApp (p_after
                           (handleRename r (answer_of (snd route) None) r)))))
  = [lit "Narrator"].
Proof.
  intros r route.
  destruct (rename_through_route r None (GAnswered 200 tt) None r)
    as [_ S].
  destruct (S (lit "v1") eq_refl) as (_ & _ & _ & K & _);
    [discriminate | reflexivity |].
  destruct (K eq_refl) as (V & _ & _ & N & _).
  exact (eq_trans (f_equal (map voice_name) V) N).
Defined.

(** What [handleDeleteVoice] leaves of the hooks. *)
Lemma delete_voice_hooks (r : State) (voiceId : jsstring)
  (answer : reply unit) (w : World) :
  let run := handleDeleteVoice r voiceId answer w in
  value run = Ret tt
  /\ (forall payload,
        answer = Response (mkResponse true payload) ->
        voices (ui (after run))
        = filter (fun voice => negb (str_eqb (voice_id voice) voiceId))
            (voices r)
        /\ selectedVoice (ui (after run))
           = if str_eqb (selectedVoice r) voiceId then []
             else selectedVoice (ui w)).
Proof.
  destruct answer as [m | [[|] payload]]; (split; [| try discriminate]);
    try reflexivity.
  - unfold handleDeleteVoice; cbn.
    destruct (str_eqb (selectedVoice r) voiceId); reflexivity.
  - intros payload' _; unfold handleDeleteVoice; cbn.
    destruct (str_eqb (selectedVoice r) voiceId); split; reflexivity.
Qed.

Lemma filter_page_fetch_core (log : list effect) :
  filter is_page_fetch (map Core log) = map Core (filter is_fetch log).
Proof.
  induction log as [| e log IH]; [reflexivity |].
  cbn [map filter is_page_fetch]; destruct (is_fetch e); cbn [map];
    now rewrite IH.
Qed.

Lemma handleDelete_run (r : Page) (voiceId : jsstring) (answer : reply unit)
  (p : Page) :
  deleteVoiceId r = Some voiceId ->
  voiceId <> [] ->
  let inner := handleDeleteVoice (ui (ttsApp r)) voiceId answer (ttsApp p) in
  handleDelete r answer p
  = mkPageRun (value inner)
      (with_deleteVoiceId (fun _ => None)
         (with_isDeleting (fun _ => false)
            (with_ttsApp (fun _ => after inner)
               (with_isDeleting (fun _ => true) p))))
      (Core (ESetState "isDeleting")
         :: map Core (effects inner)
         ++ [Core (ESetState "isDeleting"); Core (ESetState "deleteVoiceId")]).
Proof.
  intros D N inner; unfold handleDelete; rewrite D.
  destruct voiceId as [| c v]; [contradiction |].
  reflexivity.
Qed.

(** X29: the delete confirmation does nothing when no voice is marked for
    deletion.  Otherwise it hands the marked voice to [handleDeleteVoice] of
    the same render, never throws, and whatever the answer it ends with
    [isDeleting] false and no voice marked.  After an [ok] answer the
    parent's list is the render's list without that voice; after any other
    answer the parent's hooks are as before. *)
Theorem selector_delete_always_cleans_up :
  forall (r : Page) (answer : reply unit) (p : Page),
    (truthy (field_or (deleteVoiceId r) []) = false ->
     handleDelete r answer p = mkPageRun (Ret tt) p [])
    /\ forall voiceId,
         deleteVoiceId r = Some voiceId ->
         voiceId <> [] ->
         let run := handleDelete r answer p in
         p_value run = Ret tt
         /\ isDeleting (p_after run) = false
         /\ deleteVoiceId (p_after run) = None
         /\ filter is_page_fetch (p_effects run)
            = [Core (EFetch "DELETE" (lit "/api/clone-voice/" ++ voiceId)
                       NoBody)]
         /\ (forall payload,
               answer = Response (mkResponse true payload) ->
               voices (ui (ttsApp (p_after run)))
               = filter
                   (fun voice => negb (str_eqb (voice_id voice) voiceId))
                   (voices (ui (ttsApp r))))
         /\ ((forall payload, answer <> Response (mkResponse true payload)) ->
             ttsApp (p_after run) = ttsApp p).
Proof.
  intros r answer p; split.
  - intros H; unfold handleDelete; rewrite H; reflexivity.
  - intros voiceId D N run; subst run.
    rewrite (handleDelete_run r voiceId answer p D N).
    cbn [p_value p_after p_effects].
    destruct (delete_voice_hooks (ui (ttsApp r)) voiceId answer (ttsApp p))
      as [V K].
    assert (F : filter is_fetch
                  (effects
                     (handleDeleteVoice (ui (ttsApp r)) voiceId answer
                        (ttsApp p)))
                = [EFetch "DELETE" (lit "/api/clone-voice/" ++ voiceId)
                     NoBody]).
    { destruct answer as [m | [[|] payload]]; try reflexivity.
      unfold handleDeleteVoice; cbn.
      destruct (str_eqb (selectedVoice (ui (ttsApp r))) voiceId);
        reflexivity. }
    split; [exact V |].
    split; [reflexivity |].
    split; [reflexivity |].
    split.
    { cbn [filter is_page_fetch is_fetch].
      rewrite filter_app, filter_page_fetch_core, F; reflexivity. }
    split.
    + intros payload Q; now apply (K payload).
    + intros Q.
      change (after
                (handleDeleteVoice (ui (ttsApp r)) voiceId answer (ttsApp p))
              = ttsApp p).
      now apply delete_voice_failure.
Qed.

Lemma selector_delete_always_cleans_up_witness :
  let r :=
    PageSample.deleting (lit "v1")
      (PageSample.page_of (Sample.world_of Sample.ready)) in
  deleteVoiceId (p_after (handleDelete r (Rejected (lit "offline")) r))
  = None.
Proof.
  intros r.
  destruct (selector_delete_always_cleans_up r (Rejected (lit "offline")) r)
    as [_ S].
  apply (S (lit "v1") eq_refl); discriminate.
Defined.

(** The voice a successful cloning adds. *)
Lemma cloning_adds_custom_voice (fileOrBlob : sample)
  (name new_id : jsstring) (err : option jsstring) (w : World) :
  new_id <> [] ->
  let final :=
    ui (after (handleVoiceCloning fileOrBlob name (cloned new_id err) w)) in
  voices final = voices (ui w) ++ [mkVoice new_id name (lit "custom")]
  /\ selectedVoice final = new_id.
Proof.
  intros H; destruct new_id as [| c v]; [contradiction |].
  destruct w as [u sr [|] ac gn au nn iv nt ck]; split; reflexivity.
Qed.

Lemma clonedVoices_in (voices : list Voice) (voice : Voice) :
  In voice (clonedVoices voices) <->
  In voice voices /\ voice_category voice = lit "cloned".
Proof.
  unfold clonedVoices; rewrite filter_In, str_eqb_eq; reflexivity.
Qed.

(** X30: the voice selector offers the voices of category [cloned] only.
    A voice that [handleVoiceCloning] has just added carries the category
    [custom]: it becomes the selected voice, yet the selector offers the
    same voices as before the cloning, so the selected voice is not among
    them unless its id was already there.  A rename does not change which
    voices are offered. *)
Theorem cloned_voice_is_selected_but_not_offered :
  forall (fileOrBlob : sample) (name new_id : jsstring)
         (err : option jsstring) (w : World),
    new_id <> [] ->
    let final :=
      ui (after (handleVoiceCloning fileOrBlob name (cloned new_id err) w)) in
    selectedVoice final = new_id
    /\ In new_id (map voice_id (voices final))
    /\ clonedVoices (voices final) = clonedVoices (voices (ui w))
    /\ (~ In new_id (map voice_id (clonedVoices (voices (ui w)))) ->
        ~ In (selectedVoice final) (map voice_id (clonedVoices (voices final))))
    /\ (forall voice,
          In voice (clonedVoices (voices final)) <->
          In voice (voices (ui w)) /\ voice_category voice = lit "cloned")
    /\ forall voiceId newName,
         map voice_id (clonedVoices (renamed voiceId newName (voices final)))
         = map voice_id (clonedVoices (voices final)).
Proof.
  intros fileOrBlob name new_id err w H final.
  destruct (cloning_adds_custom_voice fileOrBlob name new_id err w H)
    as [V S].
  fold final in V, S.
  assert (C : clonedVoices (voices final) = clonedVoices (voices (ui w))).
  { rewrite V; unfold clonedVoices; rewrite filter_app; cbn.
    apply app_nil_r. }
  split; [exact S |].
  split; [rewrite V, map_app, in_app_iff; right; now left |].
  split; [exact C |].
  split; [rewrite S, C; auto |].
  split; [intros voice; rewrite C; apply clonedVoices_in |].
  intros voiceId newName.
  generalize (voices final); intros l.
  induction l as [| v l IH]; [reflexivity |].
  unfold clonedVoices, renamed in *; cbn [map filter].
  destruct (str_eqb (voice_id v) voiceId); cbn [voice_category];
    destruct (str_eqb (voice_category v) (lit "cloned"));
    cbn [map voice_id]; now rewrite IH.
Qed.

Lemma cloned_voice_is_selected_but_not_offered_witness :
  let final :=
    ui (after
          (handleVoiceCloning (RecordedBlob (mkBlob Sample.audio "audio/wav"))
             (lit "Me") (cloned (lit "v9") None)
             (Sample.world_of Sample.ready))) in
  selectedVoice final = lit "v9" /\ clonedVoices (voices final) = [].
Proof.
  destruct (cloned_voice_is_selected_but_not_offered
              (RecordedBlob (mkBlob Sample.audio "audio/wav")) (lit "Me")
              (lit "v9") None (Sample.world_of Sample.ready))
    as (S & _ & C & _); [discriminate |].
  split; [exact S | exact C].
Defined.
